(** * JobSphere backend: data-access layer, phone normaliser and newsletter job

    A shallow embedding of the model modules (raw SQL over PostgreSQL), of
    [utils/phoneUtils.js] and of [automation/newsLetterCronRaw.js], and of
    the code around them: the request handlers that list and delete jobs
    and applications, [middlewares/error.js] and the statistics of
    [database/db-utils.js].

    Conventions of the embedding:
    - a JavaScript value is a [val]; numbers are the integers and [NaN]
      (fractional and infinite doubles are not represented, and an integer
      prints as its decimal digits), strings are sequences of code units
      below 256;
    - a JavaScript object and a row returned by the driver are finite maps
      from property names to values ([gmap string val]); the entries of an
      update payload ([Object.entries]) are a list of pairs, in order;
    - a table is the list of its rows, in storage order; a query without
      ORDER BY returns rows in that order;
    - a thrown [Error] is the [Throw] constructor of [result], carrying the
      message;
    - storage statements run against in-memory tables; a statement fails
      only for structural reasons (an unknown or repeated column in a SET
      list), never for an unreachable server or a violated constraint;
    - [NOW()] is a parameter of each model function; the newsletter job
      reads it from a clock indexed by the statements run so far;
    - a row holds a uuid in the text the server prints for it (lower-case
      hexadecimal digits in groups of 8, 4, 4, 4 and 12); the properties
      of the functions that take an id from a request are stated for ids
      in this canonical spelling, for which comparing texts is comparing
      uuids;
    - what the server alone decides is a parameter of the finders: whether
      a text matches an ILIKE pattern, and how a LIMIT or OFFSET parameter
      that is not a number of the bigint range is converted;
    - INSERT statements, and so the [create] functions and the handlers
      built on them, are not embedded: what they store depends on the
      defaults and constraints of the schema. *)

From Stdlib Require Import ZArith Lia String Ascii List Bool Sorted Permutation.
From stdpp Require Import base gmap strings list.

Set Warnings "-register-all".

Local Open Scope string_scope.
Local Open Scope list_scope.
Local Open Scope Z_scope.

(** ** JavaScript values *)

Inductive val : Type :=
| VUndef
| VNull
| VBool (b : bool)
| VNum (z : Z)
| VNaN
| VStr (s : string)
| VFun (arity : nat) (src : string)
| VObj (props : gmap string val).

(** Objects and rows. *)
Abbreviation obj := (gmap string val).

(** Outcome of a call that may throw [new Error(msg)]. *)
Inductive result (A : Type) : Type :=
| Ok (a : A)
| Throw (msg : string).
Arguments Ok {A} a.
Arguments Throw {A} msg.

Definition is_ok {A} (r : result A) : bool :=
  match r with Ok _ => true | Throw _ => false end.

Definition rbind {A B} (r : result A) (k : A -> result B) : result B :=
  match r with
  | Ok a => k a
  | Throw m => Throw m
  end.

Declare Scope result_scope.
Delimit Scope result_scope with result.
Notation "x <- r ;; k" := (rbind r (fun x => k))
  (at level 100, r at next level, right associativity) : result_scope.

(** ** Characters and strings *)

Module Chars.

Definition code (c : ascii) : N := N_of_ascii c.

Definition is_digit (c : ascii) : bool := (48 <=? code c)%N && (code c <=? 57)%N.

(** [\s] restricted to code units below 256: TAB, LF, VT, FF, CR, space
    and the no-break space. *)
Definition is_space (c : ascii) : bool :=
  ((9 <=? code c)%N && (code c <=? 13)%N) || (code c =? 32)%N || (code c =? 160)%N.

Definition digit_char (d : Z) : ascii := ascii_of_N (48 + Z.to_N d).

(** Value of a character as a digit in the given radix (10 or 16). *)
Definition digit_val (radix : Z) (c : ascii) : option Z :=
  let n := Z.of_N (code c) in
  let v := if (48 <=? n) && (n <=? 57) then Some (n - 48)
           else if (97 <=? n) && (n <=? 122) then Some (n - 87)
           else if (65 <=? n) && (n <=? 90) then Some (n - 55)
           else None in
  match v with
  | Some d => if d <? radix then Some d else None
  | None => None
  end.

Definition dquote : string := String "034"%char EmptyString.

End Chars.

Module Str.
Import Chars.

Fixpoint forallb (p : ascii -> bool) (s : string) : bool :=
  match s with
  | EmptyString => true
  | String c s' => p c && forallb p s'
  end.

Fixpoint filter (p : ascii -> bool) (s : string) : string :=
  match s with
  | EmptyString => EmptyString
  | String c s' => if p c then String c (filter p s') else filter p s'
  end.

(** [String.prototype.trimStart] on the modelled alphabet. *)
Fixpoint trimStart (s : string) : string :=
  match s with
  | String c s' => if is_space c then trimStart s' else s
  | EmptyString => EmptyString
  end.

Definition rev (s : string) : string :=
  string_of_list_ascii (List.rev (list_ascii_of_string s)).

(** [String.prototype.trim]. *)
Definition trim (s : string) : string := rev (trimStart (rev (trimStart s))).

(** [s.slice(start, end)]; [None] stands for an omitted [end]. *)
Definition slice (s : string) (start : Z) (stop : option Z) : string :=
  let len := Z.of_nat (String.length s) in
  let clamp i := if i <? 0 then Z.max (len + i) 0 else Z.min i len in
  let from := clamp start in
  let to := match stop with Some e => clamp e | None => len end in
  substring (Z.to_nat from) (Z.to_nat (Z.max (to - from) 0)) s.

Definition startsWith (s p : string) : bool := String.prefix p s.

(** Decimal digits of a non-negative integer, most significant first. *)
Fixpoint digits_aux (fuel : nat) (n : Z) (acc : string) : string :=
  match fuel with
  | O => acc
  | S f =>
      let acc' := String (digit_char (n mod 10)) acc in
      if n <? 10 then acc' else digits_aux f (n / 10) acc'
  end.

Definition decimal (n : Z) : string :=
  digits_aux (S (Z.to_nat (Z.log2 n))) n EmptyString.

(** [Number.prototype.toString] on integers. *)
Definition number_toString (z : Z) : string :=
  if z <? 0 then String "-" (decimal (- z)) else decimal z.

(** The number a string of digits denotes (used to state properties). *)
Definition digit_of (c : ascii) : Z := Z.of_N (code c) - 48.

Fixpoint value_from (acc : Z) (s : string) : Z :=
  match s with
  | EmptyString => acc
  | String c s' => value_from (acc * 10 + digit_of c) s'
  end.

Definition value (s : string) : Z := value_from 0 s.

Definition pow10 (k : nat) : Z := 10 ^ Z.of_nat k.

End Str.

(** ** The fragment of JavaScript's dynamic semantics the code relies on *)

Module Js.
Import Chars Str.

(** ToBoolean. *)
Definition truthy (v : val) : bool :=
  match v with
  | VUndef | VNull | VNaN => false
  | VBool b => b
  | VNum z => negb (z =? 0)
  | VStr s => negb (String.eqb s "")
  | VFun _ _ | VObj _ => true
  end.

(** ToString, as used by template literals and [toString()]. *)
Definition toString (v : val) : string :=
  match v with
  | VUndef => "undefined"
  | VNull => "null"
  | VBool true => "true"
  | VBool false => "false"
  | VNum z => number_toString z
  | VNaN => "NaN"
  | VStr s => s
  | VFun _ src => src
  | VObj _ => "[object Object]"
  end.

(** Longest prefix of digits of the radix, as digit values. *)
Fixpoint take_digits (radix : Z) (s : string) : list Z :=
  match s with
  | String c s' =>
      match digit_val radix c with
      | Some d => d :: take_digits radix s'
      | None => []
      end
  | EmptyString => []
  end.

Definition digits_value (radix : Z) (ds : list Z) : Z :=
  fold_left (fun a d => a * radix + d) ds 0.

(** [parseInt(s)] without a radix argument: leading white space is
    skipped, a sign is accepted, a [0x]/[0X] prefix selects radix 16, and
    parsing stops silently at the first character that is not a digit.
    The result is [VNaN] when no digit was read.  (Beyond 2^53 JavaScript
    rounds to a double; such values stay above 10^10 either way.) *)
Definition parseInt (s : string) : val :=
  let s1 := trimStart s in
  let '(neg, s2) :=
    match s1 with
    | String "-" r => (true, r)
    | String "+" r => (false, r)
    | _ => (false, s1)
    end in
  let '(radix, s3) :=
    match s2 with
    | String "0" (String "x" r) => (16, r)
    | String "0" (String "X" r) => (16, r)
    | _ => (10, s2)
    end in
  match take_digits radix s3 with
  | [] => VNaN
  | ds => let n := digits_value radix ds in VNum (if neg then - n else n)
  end.

(** StringToNumber on integer literals: the whole trimmed string must be
    an optionally signed decimal literal or an unsigned hexadecimal one;
    the empty string is 0, anything else is NaN. *)
Definition string_toNumber (s : string) : val :=
  let t := trim s in
  let whole (radix : Z) (body : string) (neg : bool) : val :=
    let ds := take_digits radix body in
    if negb (Nat.eqb (List.length ds) 0)
       && Nat.eqb (List.length ds) (String.length body)
    then let n := digits_value radix ds in VNum (if neg then - n else n)
    else VNaN in
  match t with
  | EmptyString => VNum 0
  | String "0" (String "x" b) => whole 16 b false
  | String "0" (String "X" b) => whole 16 b false
  | String "-" r => whole 10 r true
  | String "+" r => whole 10 r false
  | _ => whole 10 t false
  end.

(** ToNumber. *)
Definition toNumber (v : val) : val :=
  match v with
  | VUndef | VNaN | VFun _ _ | VObj _ => VNaN
  | VNull => VNum 0
  | VBool b => VNum (if b then 1 else 0)
  | VNum z => VNum z
  | VStr s => string_toNumber s
  end.

(** [isNaN(v)]. *)
Definition isNaN (v : val) : bool :=
  match toNumber v with VNaN => true | _ => false end.

(** [v <= 0]; a comparison with NaN is false. *)
Definition le_zero (v : val) : bool :=
  match toNumber v with VNum z => z <=? 0 | _ => false end.

(** [a < b] and [a > b] on numbers; false when a side is not a number
    (the code compares a [length] with a literal). *)
Definition lt (a b : val) : bool :=
  match toNumber a, toNumber b with VNum x, VNum y => x <? y | _, _ => false end.

(** [!v || v.trim().length === 0]: only strings have [trim]; on another
    truthy value the call throws a TypeError. *)
Definition msg_trim : string := "TypeError: trim is not a function".

Definition missing_or_blank (v : val) : result bool :=
  if negb (truthy v) then Ok true
  else match v with
       | VStr s => Ok (Nat.eqb (String.length (trim s)) 0)
       | _ => Throw msg_trim
       end.

(** [errors.push(msg)] under a condition. *)
Definition push_if (cond : bool) (msg : string) (errors : list string)
  : list string :=
  if cond then errors ++ [msg] else errors.

(** [list.includes(v)] for a list of string literals. *)
Definition includes (l : list string) (v : val) : bool :=
  match v with
  | VStr s => existsb (String.eqb s) l
  | _ => false
  end.

(** [v === "literal"] *)
Definition is_str (v : val) (s : string) : bool :=
  match v with VStr x => String.eqb x s | _ => false end.

(** [v.length] of a value; strings and functions have one. *)
Definition length_of (v : val) : val :=
  match v with
  | VStr s => VNum (Z.of_nat (String.length s))
  | VFun arity _ => VNum (Z.of_nat arity)
  | VObj o => default VUndef (o !! "length")
  | _ => VUndef
  end.

(** Property read [o.k]: a missing property reads as [undefined]. *)
Definition get (o : gmap string val) (k : string) : val :=
  default VUndef (o !! k).

(** [a === b].  The values compared are primitives, or objects built by
    different calls, and two objects are strictly equal only when they are
    the same object. *)
Definition strict_equal (a b : val) : bool :=
  match a, b with
  | VUndef, VUndef | VNull, VNull => true
  | VBool x, VBool y => Bool.eqb x y
  | VNum x, VNum y => x =? y
  | VStr x, VStr y => String.eqb x y
  | _, _ => false
  end.

(** [a || b] *)
Definition or_else (a b : val) : val := if truthy a then a else b.

(** [s.includes(sub)] *)
Fixpoint str_includes (s sub : string) : bool :=
  String.prefix sub s
  || match s with
     | String _ s' => str_includes s' sub
     | EmptyString => false
     end.

(** [parseInt(v)]: the argument is converted to a string first. *)
Definition parseInt_of (v : val) : val := parseInt (toString v).

(** [list.join(sep)] on a list of strings. *)
Definition join (sep : string) (l : list string) : string := String.concat sep l.

End Js.

(** ** Regular expressions (anchored, matched by derivatives) *)

Module Regex.
Import Chars.

Inductive regex : Type :=
| Void
| Eps
| Chr (p : ascii -> bool)
| Cat (r1 r2 : regex)
| Alt (r1 r2 : regex)
| Star (r : regex).

Fixpoint nullable (r : regex) : bool :=
  match r with
  | Void => false
  | Eps => true
  | Chr _ => false
  | Cat r1 r2 => nullable r1 && nullable r2
  | Alt r1 r2 => nullable r1 || nullable r2
  | Star _ => true
  end.

Fixpoint deriv (c : ascii) (r : regex) : regex :=
  match r with
  | Void => Void
  | Eps => Void
  | Chr p => if p c then Eps else Void
  | Cat r1 r2 =>
      if nullable r1 then Alt (Cat (deriv c r1) r2) (deriv c r2)
      else Cat (deriv c r1) r2
  | Alt r1 r2 => Alt (deriv c r1) (deriv c r2)
  | Star r1 => Cat (deriv c r1) (Star r1)
  end.

(** [/^r$/.test(s)] *)
Fixpoint test (r : regex) (s : string) : bool :=
  match s with
  | EmptyString => nullable r
  | String c s' => test (deriv c r) s'
  end.

Definition plus (r : regex) : regex := Cat r (Star r).

Fixpoint times (n : nat) (r : regex) : regex :=
  match n with
  | O => Eps
  | S n' => Cat r (times n' r)
  end.

Definition lit (c : ascii) : regex := Chr (Ascii.eqb c).

(** The strings a pattern denotes. *)
Inductive matches : regex -> string -> Prop :=
| MEps : matches Eps EmptyString
| MChr (p : ascii -> bool) (c : ascii) :
    p c = true -> matches (Chr p) (String c EmptyString)
| MCat (r1 r2 : regex) (s1 s2 : string) :
    matches r1 s1 -> matches r2 s2 -> matches (Cat r1 r2) (s1 +:+ s2)
| MAltL (r1 r2 : regex) (s : string) : matches r1 s -> matches (Alt r1 r2) s
| MAltR (r1 r2 : regex) (s : string) : matches r2 s -> matches (Alt r1 r2) s
| MStar0 (r : regex) : matches (Star r) EmptyString
| MStarS (r : regex) (s1 s2 : string) :
    matches r s1 -> matches (Star r) s2 -> matches (Star r) (s1 +:+ s2).

End Regex.

(** ** utils/phoneUtils.js *)

Module PhoneUtils.
Import Chars Str Js Regex.

(** [/^[6-9]\d{9}$/] *)
Definition is_6_to_9 (c : ascii) : bool := (54 <=? code c)%N && (code c <=? 57)%N.
Definition phone_re : regex := Cat (Chr is_6_to_9) (times 9 (Chr is_digit)).

Definition msg_required : string := "Phone number is required".
Definition msg_digits_only : string :=
  "Please provide a valid phone number (digits only)".
Definition msg_invalid_indian : string :=
  "Invalid Indian phone number. It must be 10 digits and start with 6, 7, 8, or 9.".

Definition convertPhoneToNumber (phone : val) : result val :=
  if negb (truthy phone) then Throw msg_required
  else
    let phoneNumber :=
      match phone with VStr s => parseInt s | _ => phone end in
    if isNaN phoneNumber || le_zero phoneNumber then Throw msg_digits_only
    else
      let phoneStr := toString phoneNumber in
      if negb (test phone_re phoneStr) then Throw msg_invalid_indian
      else Ok phoneNumber.

Definition safeConvertPhoneToNumber (phone : val) : val :=
  match convertPhoneToNumber phone with
  | Ok n => n
  | Throw _ => VNull
  end.

Definition isValidPhoneNumber (phone : val) : bool :=
  match convertPhoneToNumber phone with
  | Ok _ => true
  | Throw _ => false
  end.

Definition msg_toString_of_nullish : string :=
  "TypeError: Cannot read properties of null or undefined (reading 'toString')".

(** The three layouts of [formatPhoneForDisplay], on the string form. *)
Definition format_string (phoneStr : string) : string :=
  let len := Z.of_nat (String.length phoneStr) in
  if len =? 10 then
    "(" +:+ slice phoneStr 0 (Some 3) +:+ ") " +:+ slice phoneStr 3 (Some 6)
        +:+ "-" +:+ slice phoneStr 6 None
  else if (len =? 11) && startsWith phoneStr "1" then
    "+1 (" +:+ slice phoneStr 1 (Some 4) +:+ ") " +:+ slice phoneStr 4 (Some 7)
           +:+ "-" +:+ slice phoneStr 7 None
  else if 10 <=? len then
    "+" +:+ slice phoneStr 0 (Some (len - 10)) +:+ " "
        +:+ slice phoneStr (-10) (Some (-6)) +:+ " " +:+ slice phoneStr (-6) None
  else phoneStr.

Definition formatPhoneForDisplay (phone : val) : result string :=
  match phone with
  | VUndef | VNull => Throw msg_toString_of_nullish
  | _ => Ok (format_string (toString phone))
  end.

(** [formattedPhone.replace(/[^0-9]/g, "")] then the strict parser. *)
Definition parseFormattedPhone (formattedPhone : string) : result val :=
  let digitsOnly := filter is_digit formattedPhone in
  convertPhoneToNumber (VStr digitsOnly).

(** The canonical numbers: ten digits, the first one 6, 7, 8 or 9. *)
Definition canonical (n : Z) : Prop := 6000000000 <= n <= 9999999999.

(** The number the strict parser looks at: the parsed prefix of a string,
    or the number passed in. *)
Definition reads_as (phone : val) (n : Z) : Prop :=
  phone = VNum n \/ exists s, phone = VStr s /\ parseInt s = VNum n.

End PhoneUtils.

(** ** Storage: tables, three-valued predicates, statements

    [database/init.sql] declares the three tables; every column except the
    ones marked NOT NULL may hold NULL, so predicates are three-valued and
    WHERE keeps a row only when its predicate is true. *)

Module Sql.
Import Js.

Abbreviation table := (list obj).

(** The driver sends [undefined] as NULL; a column missing from a row
    reads as NULL. *)
Definition is_null (v : val) : bool :=
  match v with VNull | VUndef => true | _ => false end.

(** [a = b] on values of the same column type (deterministic collation:
    strings are equal when they are the same sequence of code units). *)
Definition eq (a b : val) : option bool :=
  if is_null a || is_null b then None
  else Some match a, b with
            | VStr x, VStr y => String.eqb x y
            | VNum x, VNum y => x =? y
            | VBool x, VBool y => Bool.eqb x y
            | _, _ => false
            end.

(** [a >= b] on timestamps. *)
Definition ge (a b : val) : option bool :=
  match a, b with
  | VNum x, VNum y => Some (y <=? x)
  | _, _ => None
  end.

Definition and3 (p q : option bool) : option bool :=
  match p, q with
  | Some false, _ | _, Some false => Some false
  | Some true, Some true => Some true
  | _, _ => None
  end.

Definition or3 (p q : option bool) : option bool :=
  match p, q with
  | Some true, _ | _, Some true => Some true
  | Some false, Some false => Some false
  | _, _ => None
  end.

Definition holds (p : option bool) : bool :=
  match p with Some true => true | _ => false end.

(** Timestamps are microseconds since the epoch; [INTERVAL '24 hours']. *)
Definition hours_24 : Z := 86400000000.

(** [ORDER BY key DESC]: NULLs first, ties kept in storage order. *)
Definition before_desc (a b : val) : bool :=
  match a, b with
  | VNum x, VNum y => y <=? x
  | VNum _, _ => false
  | _, _ => true
  end.

Fixpoint insert_desc (key : string) (r : obj) (sorted : list obj) : list obj :=
  match sorted with
  | [] => [r]
  | r' :: rest =>
      if before_desc (get r key) (get r' key) then r :: sorted
      else r' :: insert_desc key r rest
  end.

Definition order_by_desc (key : string) (t : list obj) : list obj :=
  foldr (insert_desc key) [] t.

(** [UPDATE relation SET col = $n, ..., updated_at = NOW() WHERE ...
    RETURNING *].  A SET item is a column with the index of its
    positional parameter. *)
Abbreviation set_item := (string * nat)%type.

Definition param (params : list val) (n : nat) : val :=
  match n with
  | O => VUndef
  | S i => default VUndef (params !! i)
  end.

Definition unknown_column (relation column : string) : string :=
  "column " +:+ Chars.dquote +:+ column +:+ Chars.dquote +:+ " of relation "
    +:+ Chars.dquote +:+ relation +:+ Chars.dquote +:+ " does not exist".

Definition repeated_column (column : string) : string :=
  "multiple assignments to same column " +:+ Chars.dquote +:+ column
    +:+ Chars.dquote.

Definition mem (x : string) (l : list string) : bool :=
  existsb (String.eqb x) l.

Fixpoint first_unknown (columns assigned : list string) : option string :=
  match assigned with
  | [] => None
  | c :: rest => if mem c columns then first_unknown columns rest else Some c
  end.

Fixpoint first_repeated (assigned : list string) : option string :=
  match assigned with
  | [] => None
  | c :: rest => if mem c rest then Some c else first_repeated rest
  end.

(** What the server checks of a SET list before touching a row. *)
Definition check_set (relation : string) (columns assigned : list string)
  : result unit :=
  match first_unknown columns assigned with
  | Some c => Throw (unknown_column relation c)
  | None =>
      match first_repeated assigned with
      | Some c => Throw (repeated_column c)
      | None => Ok tt
      end
  end.

Definition assign (params : list val) (r : obj) (item : set_item) : obj :=
  <[item.1 := param params item.2]> r.

(** The new version of a row: the SET items, then [updated_at = NOW()]. *)
Definition apply_set (now : Z) (items : list set_item) (params : list val)
    (r : obj) : obj :=
  <["updated_at" := VNum now]> (foldl (assign params) r items).

(** The statement on a table: the table afterwards and the rows of
    RETURNING *. *)
Definition update (now : Z) (items : list set_item) (params : list val)
    (cond : obj -> bool) (t : table) : table * list obj :=
  (List.map (fun r => if cond r then apply_set now items params r else r) t,
   List.map (apply_set now items params) (List.filter cond t)).

Definition users_columns : list string :=
  [ "id"; "name"; "email"; "phone"; "address"; "first_niche"; "second_niche";
    "third_niche"; "password"; "resume_public_id"; "resume_url";
    "cover_letter"; "role"; "created_at"; "updated_at" ].

Definition jobs_columns : list string :=
  [ "id"; "title"; "job_type"; "location"; "company_name"; "introduction";
    "responsibilities"; "qualifications"; "offers"; "salary";
    "hiring_multiple_candidates"; "personal_website_title";
    "personal_website_url"; "job_niche"; "newsletters_sent"; "job_posted_on";
    "posted_by"; "created_at"; "updated_at" ].

Definition applications_columns : list string :=
  [ "id"; "job_seeker_user_id"; "job_seeker_name"; "job_seeker_email";
    "job_seeker_phone"; "job_seeker_address"; "resume_public_id";
    "resume_url"; "cover_letter"; "job_seeker_role"; "employer_user_id";
    "employer_role"; "job_id"; "job_title"; "deleted_by_job_seeker";
    "deleted_by_employer"; "created_at"; "updated_at" ].

(** [UPDATE relation SET <items>, updated_at = NOW() WHERE id = $n
    RETURNING *], as every [updateById] issues it. *)
Definition update_by_id (relation : string) (columns : list string)
    (now : Z) (items : list set_item) (where_id : nat) (params : list val)
    (t : table) : result (table * list obj) :=
  match check_set relation columns (List.map fst items ++ ["updated_at"]) with
  | Throw m => Throw m
  | Ok _ =>
      Ok (update now items params
            (fun r => holds (eq (get r "id") (param params where_id))) t)
  end.

(** [a IN (b1, ..., bn)] *)
Definition in_list (a : val) (l : list val) : option bool :=
  foldr (fun b acc => or3 (eq a b) acc) (Some false) l.

(** [DELETE FROM relation WHERE cond RETURNING *] on the relation itself:
    the table afterwards and the deleted rows.  (Rows of other relations
    that refer to a deleted row are outside this function.) *)
Definition delete (cond : obj -> bool) (t : table) : table * list obj :=
  (List.filter (fun r => negb (cond r)) t, List.filter cond t).

(** [COUNT( * )] is a bigint, which the driver hands over as its decimal
    text. *)
Definition count (rows : list obj) : val :=
  VStr (Str.number_toString (Z.of_nat (List.length rows))).

(** [left JOIN right ON on], each pair of rows merged by [merge] (the
    select list with its aliases). *)
Definition join (on : obj -> obj -> option bool) (merge : obj -> obj -> obj)
    (right : table) (left : list obj) : list obj :=
  List.concat
    (List.map (fun a => List.map (merge a) (List.filter (fun b => holds (on a b)) right))
       left).

(** A SELECT as the finders build it: the conjuncts appended to WHERE
    (each reads its positional parameters from the final list of values),
    the values pushed so far, the number of the next placeholder, and the
    placeholders of LIMIT and OFFSET. *)
Record query : Type := Query {
  conditions : list (list val -> obj -> option bool);
  values : list val;
  paramCount : nat;
  limit : option nat;
  offset : option nat
}.

(** [column = $n] *)
Definition column_is (column : string) (n : nat) (params : list val) (r : obj)
  : option bool :=
  eq (get r column) (param params n).

(** [column = false] *)
Definition column_false (column : string) (r : obj) : option bool :=
  eq (get r column) (VBool false).

(** [query += ` AND <cond> $${paramCount}`; values.push(v); paramCount++] *)
Definition and_where (q : query) (cond : nat -> list val -> obj -> option bool)
    (v : val) : query :=
  Query (conditions q ++ [cond (paramCount q)]) (values q ++ [v])
        (S (paramCount q)) (limit q) (offset q).

(** [if (v) { ... }] around the three statements. *)
Definition and_where_if (q : query) (v : val)
    (cond : nat -> list val -> obj -> option bool) (pushed : val) : query :=
  if truthy v then and_where q cond pushed else q.

(** [query += ` LIMIT $${paramCount}`; values.push(v); paramCount++] *)
Definition limit_if (q : query) (v : val) : query :=
  if truthy v then
    Query (conditions q) (values q ++ [v]) (S (paramCount q))
          (Some (paramCount q)) (offset q)
  else q.

(** [query += ` OFFSET $${paramCount}`; values.push(v)] *)
Definition offset_if (q : query) (v : val) : query :=
  if truthy v then
    Query (conditions q) (values q ++ [v]) (paramCount q) (limit q)
          (Some (paramCount q))
  else q.

(** WHERE: the conjunction of the conditions, from [1=1] on. *)
Definition where_ (q : query) (r : obj) : bool :=
  holds (foldl and3 (Some true) (List.map (fun c => c (values q) r) (conditions q))).

Definition msg_limit : string := "LIMIT must not be negative".
Definition msg_offset : string := "OFFSET must not be negative".

Section Paging.

(** How the server reads as a bigint a parameter that is not a number
    within the range of the type: its value, or the conversion error. *)
Variable bigint_in : val -> result Z.

Definition bigint (v : val) : result Z :=
  match v with
  | VNum n =>
      if (- 2 ^ 63 <=? n) && (n <? 2 ^ 63) then Ok n else bigint_in v
  | _ => bigint_in v
  end.

Definition bigint_at (params : list val) (at_ : option nat) : result (option Z) :=
  match at_ with
  | Some n => (z <- bigint (param params n);; Ok (Some z))%result
  | None => Ok None
  end.

(** [... OFFSET $o LIMIT $l] on the ordered rows: the parameters are read
    in the order of their numbers, then the rows after the offset are
    cut at the limit. *)
Definition page (q : query) (rows : list obj) : result (list obj) :=
  (l <- bigint_at (values q) (limit q);;
   o <- bigint_at (values q) (offset q);;
   match o, l with
   | Some n, _ =>
       if n <? 0 then Throw msg_offset
       else match l with
            | Some m =>
                if m <? 0 then Throw msg_limit
                else Ok (firstn (Z.to_nat m) (skipn (Z.to_nat n) rows))
            | None => Ok (skipn (Z.to_nat n) rows)
            end
   | None, Some m =>
       if m <? 0 then Throw msg_limit else Ok (firstn (Z.to_nat m) rows)
   | None, None => Ok rows
   end)%result.

(** [SELECT ... FROM rows WHERE ... ORDER BY created_at DESC LIMIT ...
    OFFSET ...] *)
Definition select_desc (q : query) (rows : list obj) : result (list obj) :=
  page q (order_by_desc "created_at" (List.filter (where_ q) rows)).

End Paging.

End Sql.

(** [result.rows[0] ? format(result.rows[0]) : null] *)
Definition first_row {A} (format : obj -> A) (rows : list obj) : option A :=
  match rows with
  | r :: _ => Some (format r)
  | [] => None
  end.

(** The body of the loop shared by the three [updateById]: an entry whose
    value is not [undefined] contributes [column = $paramCount] and its
    value. *)
Record set_builder : Type := SetBuilder {
  fields : list Sql.set_item;
  values : list val;
  paramCount : nat
}.

Definition is_undefined (v : val) : bool :=
  match v with VUndef => true | _ => false end.

Definition msg_no_fields : string := "No fields to update".

(** [WHERE id = $1] *)
Definition has_id (id : val) (r : obj) : bool :=
  Sql.holds (Sql.eq (Js.get r "id") id).

(** ** The job model ([JobModel], imported by the newsletter job from
    [models/jobModelRaw.js])

    A row is an object, so the guard [if (!job) return null] of the
    formatters does not fire; callers handle the missing row
    ([first_row]). *)

Module JobModel.
Import Js.

Definition formatJob (job : obj) : obj :=
  list_to_map
    [ ("id", get job "id");
      ("title", get job "title");
      ("jobType", get job "job_type");
      ("location", get job "location");
      ("companyName", get job "company_name");
      ("introduction", get job "introduction");
      ("responsibilities", get job "responsibilities");
      ("qualifications", get job "qualifications");
      ("offers", get job "offers");
      ("salary", get job "salary");
      ("hiringMultipleCandidates", get job "hiring_multiple_candidates");
      ("personalWebsiteTitle", get job "personal_website_title");
      ("personalWebsiteUrl", get job "personal_website_url");
      ("jobNiche", get job "job_niche");
      ("newsLettersSent", get job "newsletters_sent");
      ("jobPostedOn", get job "job_posted_on");
      ("postedBy", get job "posted_by");
      ("createdAt", get job "created_at");
      ("updatedAt", get job "updated_at") ].

Definition formatJobWithPoster (job : obj) : obj :=
  let formattedJob := formatJob job in
  if truthy (get job "poster_name") then
    <["poster" := VObj (list_to_map
                          [ ("name", get job "poster_name");
                            ("email", get job "poster_email");
                            ("role", get job "poster_role") ])]> formattedJob
  else formattedJob.

(** [conversions[str] || str] *)
Definition convertToSnakeCase (str : string) : string :=
  let conversions : list (string * string) :=
    [ ("jobType", "job_type");
      ("companyName", "company_name");
      ("hiringMultipleCandidates", "hiring_multiple_candidates");
      ("personalWebsiteTitle", "personal_website_title");
      ("personalWebsiteUrl", "personal_website_url");
      ("jobNiche", "job_niche");
      ("newsLettersSent", "newsletters_sent");
      ("jobPostedOn", "job_posted_on");
      ("postedBy", "posted_by");
      ("createdAt", "created_at");
      ("updatedAt", "updated_at") ] in
  match List.find (fun kv => String.eqb kv.1 str) conversions with
  | Some kv => kv.2
  | None => str
  end.

(** One turn of [for (const [key, value] of Object.entries(updateData))]. *)
Definition step (b : set_builder) (entry : string * val) : set_builder :=
  let '(key, value) := entry in
  if is_undefined value then b
  else
    let dbField := convertToSnakeCase key in
    SetBuilder (fields b ++ [(dbField, paramCount b)])
               (values b ++ [value])
               (S (paramCount b)).

Definition build (updateData : list (string * val)) : set_builder :=
  foldl step (SetBuilder [] [] 1) updateData.

Definition updateById (now : Z) (jobs : Sql.table) (id : val)
    (updateData : list (string * val)) : result (option obj * Sql.table) :=
  let b := build updateData in
  if Nat.eqb (List.length (fields b)) 0 then Throw msg_no_fields
  else
    let values := values b ++ [id] in
    match Sql.update_by_id "jobs" Sql.jobs_columns now (fields b)
            (paramCount b) values jobs with
    | Throw m => Throw m
    | Ok (jobs', rows) => Ok (first_row formatJob rows, jobs')
    end.

(** [FROM jobs j JOIN users u ON j.posted_by = u.id], selecting
    [j.*, u.name as poster_name, u.email as poster_email]. *)
Definition with_poster (j u : obj) : obj :=
  <["poster_email" := get u "email"]> (<["poster_name" := get u "name"]> j).

Definition join_posters (users : Sql.table) (j : obj) : list obj :=
  List.map (with_poster j)
    (List.filter (fun u => Sql.holds (Sql.eq (get j "posted_by") (get u "id")))
       users).

(** [WHERE j.newsletters_sent = false
      AND j.created_at >= NOW() - INTERVAL '24 hours'] *)
Definition newsletter_due (now : Z) (j : obj) : bool :=
  Sql.holds
    (Sql.and3 (Sql.eq (get j "newsletters_sent") (VBool false))
              (Sql.ge (get j "created_at") (VNum (now - Sql.hours_24)))).

Definition getJobsForNewsletter (now : Z) (users jobs : Sql.table) : list obj :=
  List.map formatJobWithPoster
    (Sql.order_by_desc "created_at"
       (List.filter (newsletter_due now)
          (List.concat (List.map (join_posters users) jobs)))).

Definition validateJobData (jobData : obj) : result (list string) :=
  (let errors := [] in
   c <- missing_or_blank (get jobData "title");;
   let errors := push_if c "Job title is required" errors in
   let errors :=
     push_if (negb (truthy (get jobData "jobType"))
              || negb (includes ["Full-time"; "Part-time"] (get jobData "jobType")))
       ("Job type must be either " +:+ Chars.dquote +:+ "Full-time"
          +:+ Chars.dquote +:+ " or " +:+ Chars.dquote +:+ "Part-time"
          +:+ Chars.dquote) errors in
   c <- missing_or_blank (get jobData "location");;
   let errors := push_if c "Job location is required" errors in
   c <- missing_or_blank (get jobData "companyName");;
   let errors := push_if c "Company name is required" errors in
   c <- missing_or_blank (get jobData "responsibilities");;
   let errors := push_if c "Job responsibilities are required" errors in
   c <- missing_or_blank (get jobData "qualifications");;
   let errors := push_if c "Job qualifications are required" errors in
   c <- missing_or_blank (get jobData "salary");;
   let errors := push_if c "Salary information is required" errors in
   c <- missing_or_blank (get jobData "jobNiche");;
   let errors := push_if c "Job niche is required" errors in
   let errors :=
     push_if (negb (truthy (get jobData "postedBy")))
       "Posted by user ID is required" errors in
   Ok errors)%result.

(** [SELECT * FROM jobs WHERE id = $1] *)
Definition findById (jobs : Sql.table) (id : val) : option obj :=
  first_row formatJob (List.filter (has_id id) jobs).

(** [ON j.posted_by = u.id] *)
Definition posted_by_user (j u : obj) : option bool :=
  Sql.eq (get j "posted_by") (get u "id").

(** [j.*, u.name as poster_name, u.email as poster_email,
     u.role as poster_role] *)
Definition with_poster_role (j u : obj) : obj :=
  <["poster_role" := get u "role"]> (with_poster j u).

Definition findByIdWithPoster (users jobs : Sql.table) (id : val) : option obj :=
  first_row formatJobWithPoster
    (List.filter (has_id id) (Sql.join posted_by_user with_poster_role users jobs)).

(** [DELETE FROM jobs WHERE id = $1 RETURNING *] *)
Definition deleteById (jobs : Sql.table) (id : val) : option obj * Sql.table :=
  let '(jobs', rows) := Sql.delete (has_id id) jobs in
  (first_row formatJob rows, jobs').

(** [jobIds] is an array, or missing ([None]); the placeholders
    [$1, ..., $n] stand for its elements in order. *)
Definition markNewsletterSent (now : Z) (jobs : Sql.table)
    (jobIds : option (list val)) : Sql.table :=
  match jobIds with
  | None | Some [] => jobs
  | Some ids =>
      List.map
        (fun r =>
           if Sql.holds (Sql.in_list (get r "id") ids)
           then <["updated_at" := VNum now]> (<["newsletters_sent" := VBool true]> r)
           else r)
        jobs
  end.

(** [SELECT COUNT( * ) as total FROM jobs WHERE 1=1 ...], then
    [parseInt(result.rows[0].total)]. *)
Definition countJobs (jobs : Sql.table) (filters : obj) : val :=
  let q := Sql.Query [] [] 1 None None in
  let q := Sql.and_where_if q (get filters "jobNiche") (Sql.column_is "job_niche")
             (get filters "jobNiche") in
  let q := Sql.and_where_if q (get filters "postedBy") (Sql.column_is "posted_by")
             (get filters "postedBy") in
  let total := Sql.count (List.filter (Sql.where_ q) jobs) in
  parseInt_of total.

Section Finders.

Variable bigint_in : val -> result Z.

(** [text ILIKE pattern] on two texts, as the server decides it. *)
Variable ilike : string -> string -> bool.

(** [column ILIKE $n] *)
Definition column_ilike (column : string) (n : nat) (params : list val) (r : obj)
  : option bool :=
  match get r column, Sql.param params n with
  | VStr text, VStr pattern => Some (ilike text pattern)
  | _, _ => None
  end.

(** [(j.title ILIKE $n OR j.company_name ILIKE $n OR j.job_niche ILIKE $n)] *)
Definition search_matches (n : nat) (params : list val) (r : obj) : option bool :=
  Sql.or3 (Sql.or3 (column_ilike "title" n params r)
                   (column_ilike "company_name" n params r))
          (column_ilike "job_niche" n params r).

(** [`%${v}%`] *)
Definition contains_pattern (v : val) : val := VStr ("%" +:+ toString v +:+ "%").

(** A parameter compared with [job_type] is read as a label of
    [job_type_enum]. *)
Definition msg_job_type (label : string) : string :=
  "invalid input value for enum job_type_enum: " +:+ Chars.dquote +:+ label
    +:+ Chars.dquote.

Definition findAll (users jobs : Sql.table) (filters : obj) : result (list obj) :=
  let q := Sql.Query [] [] 1 None None in
  let q := Sql.and_where_if q (get filters "jobNiche") (Sql.column_is "job_niche")
             (get filters "jobNiche") in
  let q := Sql.and_where_if q (get filters "jobType") (Sql.column_is "job_type")
             (get filters "jobType") in
  let q := Sql.and_where_if q (get filters "location") (column_ilike "location")
             (contains_pattern (get filters "location")) in
  let q := Sql.and_where_if q (get filters "companyName") (column_ilike "company_name")
             (contains_pattern (get filters "companyName")) in
  let q := Sql.and_where_if q (get filters "postedBy") (Sql.column_is "posted_by")
             (get filters "postedBy") in
  let q := Sql.and_where_if q (get filters "search") search_matches
             (contains_pattern (get filters "search")) in
  let q := Sql.limit_if q (get filters "limit") in
  let q := Sql.offset_if q (get filters "offset") in
  if truthy (get filters "jobType")
     && negb (includes ["Full-time"; "Part-time"] (get filters "jobType"))
  then Throw (msg_job_type (toString (get filters "jobType")))
  else
    (rows <- Sql.select_desc bigint_in q
               (Sql.join posted_by_user with_poster users jobs);;
     Ok (List.map formatJobWithPoster rows))%result.

Definition findByUserId (jobs : Sql.table) (userId : val) (filters : obj)
  : result (list obj) :=
  let q := Sql.Query [Sql.column_is "posted_by" 1] [userId] 2 None None in
  let q := Sql.and_where_if q (get filters "jobNiche") (Sql.column_is "job_niche")
             (get filters "jobNiche") in
  let q := Sql.limit_if q (get filters "limit") in
  let q := Sql.offset_if q (get filters "offset") in
  (rows <- Sql.select_desc bigint_in q jobs;;
   Ok (List.map formatJob rows))%result.

End Finders.

End JobModel.

(** [/^[^\s@]+@[^\s@]+\.[^\s@]+$/], shared by the user and application
    validators. *)
Definition not_space_or_at (c : ascii) : bool :=
  negb (Chars.is_space c || Ascii.eqb c "@").

Definition email_re : Regex.regex :=
  Regex.Cat (Regex.plus (Regex.Chr not_space_or_at))
    (Regex.Cat (Regex.lit "@")
       (Regex.Cat (Regex.plus (Regex.Chr not_space_or_at))
          (Regex.Cat (Regex.lit ".")
             (Regex.plus (Regex.Chr not_space_or_at))))).

(** ** models/userModelRaw.js *)

Module UserModel.
Import Js.

Definition getJWTToken_src : string :=
  "function () { return jwt.sign({ id: this.id }, process.env.JWT_SECRET, { expiresIn: process.env.JWT_EXPIRE, }); }".

(** The guard [if (!user) return null] does not fire on a row. *)
Definition formatUser (user : obj) : obj :=
  let formattedUser : obj :=
    list_to_map
      [ ("id", get user "id");
        ("name", get user "name");
        ("email", get user "email");
        ("phone", get user "phone");
        ("address", get user "address");
        ("firstNiche", get user "first_niche");
        ("secondNiche", get user "second_niche");
        ("thirdNiche", get user "third_niche");
        ("password", get user "password");
        ("resumePublicId", get user "resume_public_id");
        ("resumeUrl", get user "resume_url");
        ("coverLetter", get user "cover_letter");
        ("role", get user "role");
        ("createdAt", get user "created_at");
        ("updatedAt", get user "updated_at") ] in
  <["getJWTToken" := VFun 0 getJWTToken_src]> formattedUser.

Definition formatUserResponse (user : obj) : obj :=
  let formattedUser := formatUser user in
  delete "password" formattedUser.

Definition convertToSnakeCase (str : string) : string :=
  let conversions : list (string * string) :=
    [ ("firstNiche", "first_niche");
      ("secondNiche", "second_niche");
      ("thirdNiche", "third_niche");
      ("resumePublicId", "resume_public_id");
      ("resumeUrl", "resume_url");
      ("coverLetter", "cover_letter");
      ("createdAt", "created_at");
      ("updatedAt", "updated_at") ] in
  match List.find (fun kv => String.eqb kv.1 str) conversions with
  | Some kv => kv.2
  | None => str
  end.

(** [WHERE role = 'Job Seeker'
      AND (first_niche = $1 OR second_niche = $1 OR third_niche = $1)] *)
Definition subscribed (jobNiche : val) (u : obj) : bool :=
  Sql.holds
    (Sql.and3 (Sql.eq (get u "role") (VStr "Job Seeker"))
       (Sql.or3 (Sql.or3 (Sql.eq (get u "first_niche") jobNiche)
                         (Sql.eq (get u "second_niche") jobNiche))
                (Sql.eq (get u "third_niche") jobNiche))).

Definition findByJobNiche (users : Sql.table) (jobNiche : val) : list obj :=
  List.map formatUserResponse
    (Sql.order_by_desc "created_at" (List.filter (subscribed jobNiche) users)).

Section UpdateById.

(** [bcrypt.hash(value, 10)]: a digest, or the library's error. *)
Variable bcrypt_hash : val -> result string.

Definition step (b : set_builder) (entry : string * val)
  : result set_builder :=
  let '(key, value) := entry in
  if is_undefined value then Ok b
  else
    let dbField := convertToSnakeCase key in
    if String.eqb key "password" then
      (h <- bcrypt_hash value;;
       Ok (SetBuilder (fields b ++ [(dbField, paramCount b)])
                      (values b ++ [VStr h])
                      (S (paramCount b))))%result
    else
      Ok (SetBuilder (fields b ++ [(dbField, paramCount b)])
                     (values b ++ [value])
                     (S (paramCount b))).

Fixpoint build_from (b : set_builder) (entries : list (string * val))
  : result set_builder :=
  match entries with
  | [] => Ok b
  | e :: rest => (b' <- step b e;; build_from b' rest)%result
  end.

Definition build (updateData : list (string * val)) : result set_builder :=
  build_from (SetBuilder [] [] 1) updateData.

Definition updateById (now : Z) (users : Sql.table) (id : val)
    (updateData : list (string * val)) : result (option obj * Sql.table) :=
  (b <- build updateData;;
   if Nat.eqb (List.length (fields b)) 0 then Throw msg_no_fields
   else
     let values := values b ++ [id] in
     updated <- Sql.update_by_id "users" Sql.users_columns now
                  (fields b) (paramCount b) values users;;
     let '(users', rows) := updated in
     Ok (first_row formatUser rows, users'))%result.

End UpdateById.

Definition validateUserData (userData : obj) : list string :=
  let errors := [] in
  let name := get userData "name" in
  let errors :=
    push_if (negb (truthy name) || lt (length_of name) (VNum 3)
             || lt (VNum 30) (length_of name))
      "Name must be between 3 and 30 characters" errors in
  let email := get userData "email" in
  let errors :=
    push_if (negb (truthy email) || negb (Regex.test email_re (toString email)))
      "Please provide a valid email" errors in
  let phone := get userData "phone" in
  let errors :=
    if negb (truthy phone) then errors ++ ["Please provide a phone number"]
    else match PhoneUtils.convertPhoneToNumber phone with
         | Ok _ => errors
         | Throw message => errors ++ [message]
         end in
  let password := get userData "password" in
  let errors :=
    push_if (negb (truthy password) || lt (length_of password) (VNum 8)
             || lt (VNum 32) (length_of password))
      "Password must be between 8 and 32 characters" errors in
  let role := get userData "role" in
  let errors :=
    push_if (negb (truthy role) || negb (includes ["Job Seeker"; "Employer"] role))
      ("Role must be either " +:+ Chars.dquote +:+ "Job Seeker" +:+ Chars.dquote
         +:+ " or " +:+ Chars.dquote +:+ "Employer" +:+ Chars.dquote) errors in
  let errors :=
    push_if (is_str role "Job Seeker"
             && (negb (truthy (get userData "firstNiche"))
                 || negb (truthy (get userData "secondNiche"))
                 || negb (truthy (get userData "thirdNiche"))))
      "Job Seekers must provide three job niches" errors in
  errors.

(** [SELECT * FROM users WHERE id = $1] *)
Definition findById (users : Sql.table) (id : val) : option obj :=
  first_row formatUser (List.filter (has_id id) users).

(** [SELECT * FROM users WHERE email = $1] *)
Definition findByEmail (users : Sql.table) (email : val) : option obj :=
  first_row formatUser
    (List.filter (fun r => Sql.holds (Sql.eq (get r "email") email)) users).

(** [DELETE FROM users WHERE id = $1 RETURNING *] *)
Definition deleteById (users : Sql.table) (id : val) : option obj * Sql.table :=
  let '(users', rows) := Sql.delete (has_id id) users in
  (first_row formatUser rows, users').

End UserModel.

(** ** models/applicationModel.js *)

Module ApplicationModel.
Import Js.

Definition formatApplication (application : obj) : obj :=
  list_to_map
    [ ("id", get application "id");
      ("jobSeekerUserId", get application "job_seeker_user_id");
      ("jobSeekerName", get application "job_seeker_name");
      ("jobSeekerEmail", get application "job_seeker_email");
      ("jobSeekerPhone", get application "job_seeker_phone");
      ("jobSeekerAddress", get application "job_seeker_address");
      ("resumePublicId", get application "resume_public_id");
      ("resumeUrl", get application "resume_url");
      ("coverLetter", get application "cover_letter");
      ("jobSeekerRole", get application "job_seeker_role");
      ("employerUserId", get application "employer_user_id");
      ("employerRole", get application "employer_role");
      ("jobId", get application "job_id");
      ("jobTitle", get application "job_title");
      ("deletedByJobSeeker", get application "deleted_by_job_seeker");
      ("deletedByEmployer", get application "deleted_by_employer");
      ("createdAt", get application "created_at");
      ("updatedAt", get application "updated_at") ].

Definition convertToSnakeCase (str : string) : string :=
  let conversions : list (string * string) :=
    [ ("jobSeekerUserId", "job_seeker_user_id");
      ("jobSeekerName", "job_seeker_name");
      ("jobSeekerEmail", "job_seeker_email");
      ("jobSeekerPhone", "job_seeker_phone");
      ("jobSeekerAddress", "job_seeker_address");
      ("resumePublicId", "resume_public_id");
      ("resumeUrl", "resume_url");
      ("coverLetter", "cover_letter");
      ("jobSeekerRole", "job_seeker_role");
      ("employerUserId", "employer_user_id");
      ("employerRole", "employer_role");
      ("jobId", "job_id");
      ("jobTitle", "job_title");
      ("deletedByJobSeeker", "deleted_by_job_seeker");
      ("deletedByEmployer", "deleted_by_employer");
      ("createdAt", "created_at");
      ("updatedAt", "updated_at") ] in
  match List.find (fun kv => String.eqb kv.1 str) conversions with
  | Some kv => kv.2
  | None => str
  end.

(** [WHERE job_seeker_user_id = $1 AND job_id = $2
      AND deleted_by_job_seeker = false AND deleted_by_employer = false] *)
Definition active_for (jobSeekerUserId jobId : val) (a : obj) : bool :=
  Sql.holds
    (Sql.and3
       (Sql.and3
          (Sql.and3 (Sql.eq (get a "job_seeker_user_id") jobSeekerUserId)
                    (Sql.eq (get a "job_id") jobId))
          (Sql.eq (get a "deleted_by_job_seeker") (VBool false)))
       (Sql.eq (get a "deleted_by_employer") (VBool false))).

Definition findExisting (applications : Sql.table)
    (jobSeekerUserId jobId : val) : option obj :=
  first_row formatApplication
    (List.filter (active_for jobSeekerUserId jobId) applications).

Definition step (b : set_builder) (entry : string * val) : set_builder :=
  let '(key, value) := entry in
  if is_undefined value then b
  else
    let dbField := convertToSnakeCase key in
    SetBuilder (fields b ++ [(dbField, paramCount b)])
               (values b ++ [value])
               (S (paramCount b)).

Definition build (updateData : list (string * val)) : set_builder :=
  foldl step (SetBuilder [] [] 1) updateData.

Definition updateById (now : Z) (applications : Sql.table) (id : val)
    (updateData : list (string * val)) : result (option obj * Sql.table) :=
  let b := build updateData in
  if Nat.eqb (List.length (fields b)) 0 then Throw msg_no_fields
  else
    let values := values b ++ [id] in
    match Sql.update_by_id "applications" Sql.applications_columns now
            (fields b) (paramCount b) values applications with
    | Throw m => Throw m
    | Ok (applications', rows) =>
        Ok (first_row formatApplication rows, applications')
    end.

(** [WHERE id = $1 AND <owner_column> = $2] *)
Definition owned_by (owner_column : string) (id owner : val) (a : obj) : bool :=
  Sql.holds (Sql.and3 (Sql.eq (get a "id") id)
                      (Sql.eq (get a owner_column) owner)).

(** [UPDATE applications SET <flag> = true, updated_at = NOW()
     WHERE id = $1 AND <owner_column> = $2 RETURNING *], then
    [result.rows[0] ? this.formatApplication(result.rows[0]) : null]. *)
Definition soft_delete (flag owner_column : string) (now : Z)
    (applications : Sql.table) (id owner : val) : option obj * Sql.table :=
  let mark (a : obj) : obj :=
    <["updated_at" := VNum now]> (<[flag := VBool true]> a) in
  (first_row formatApplication
     (List.map mark (List.filter (owned_by owner_column id owner) applications)),
   List.map (fun a => if owned_by owner_column id owner a then mark a else a)
     applications).

Definition deleteByJobSeeker (now : Z) (applications : Sql.table)
    (id jobSeekerUserId : val) : option obj * Sql.table :=
  soft_delete "deleted_by_job_seeker" "job_seeker_user_id" now applications
    id jobSeekerUserId.

Definition deleteByEmployer (now : Z) (applications : Sql.table)
    (id employerUserId : val) : option obj * Sql.table :=
  soft_delete "deleted_by_employer" "employer_user_id" now applications
    id employerUserId.

(** [v === null] *)
Definition is_null (v : val) : bool :=
  match v with VNull => true | _ => false end.

Definition validateApplicationData (applicationData : obj)
  : result (list string) :=
  (let errors := [] in
   let errors :=
     push_if (negb (truthy (get applicationData "jobSeekerUserId")))
       "Job seeker user ID is required" errors in
   c <- missing_or_blank (get applicationData "jobSeekerName");;
   let errors := push_if c "Job seeker name is required" errors in
   let email := get applicationData "jobSeekerEmail" in
   let errors :=
     push_if (negb (truthy email) || negb (Regex.test email_re (toString email)))
       "Valid job seeker email is required" errors in
   let phone := get applicationData "jobSeekerPhone" in
   errors <-
     (if negb (truthy phone) then Ok (errors ++ ["Job seeker phone is required"])
      else
        phoneNumber <- PhoneUtils.convertPhoneToNumber phone;;
        Ok (push_if (is_null phoneNumber)
              "Please provide a valid job seeker phone number (10-15 digits)"
              errors));;
   c <- missing_or_blank (get applicationData "jobSeekerAddress");;
   let errors := push_if c "Job seeker address is required" errors in
   c <- missing_or_blank (get applicationData "coverLetter");;
   let errors := push_if c "Cover letter is required" errors in
   let errors :=
     push_if (negb (truthy (get applicationData "employerUserId")))
       "Employer user ID is required" errors in
   let errors :=
     push_if (negb (truthy (get applicationData "jobId")))
       "Job ID is required" errors in
   c <- missing_or_blank (get applicationData "jobTitle");;
   let errors := push_if c "Job title is required" errors in
   Ok errors)%result.

(** [SELECT * FROM applications WHERE id = $1] *)
Definition findById (applications : Sql.table) (id : val) : option obj :=
  first_row formatApplication (List.filter (has_id id) applications).

(** [DELETE FROM applications WHERE id = $1 RETURNING *] *)
Definition hardDelete (applications : Sql.table) (id : val)
  : option obj * Sql.table :=
  let '(applications', rows) := Sql.delete (has_id id) applications in
  (first_row formatApplication rows, applications').

Definition formatApplicationWithDetails (application : obj) : obj :=
  let formattedApp := formatApplication application in
  let formattedApp :=
    if truthy (get application "job_title_full") then
      <["job" := VObj (list_to_map
                         [ ("title", get application "job_title_full");
                           ("companyName", get application "company_name");
                           ("location", get application "job_location");
                           ("salary", get application "salary") ])]> formattedApp
    else formattedApp in
  let formattedApp :=
    if truthy (get application "job_seeker_name_full") then
      <["jobSeeker" := VObj (list_to_map
                               [ ("name", get application "job_seeker_name_full");
                                 ("email", get application "job_seeker_email_full");
                                 ("phone", get application "job_seeker_phone_full") ])]>
        formattedApp
    else formattedApp in
  let formattedApp :=
    if truthy (get application "employer_name") then
      <["employer" := VObj (list_to_map
                              [ ("name", get application "employer_name");
                                ("email", get application "employer_email") ])]>
        formattedApp
    else formattedApp in
  formattedApp.

(** The select list [a.*, b.col as alias, ...]: the row of [a] with the
    aliased columns of [b]. *)
Definition with_columns (aliases : list (string * string)) (a b : obj) : obj :=
  foldl (fun r alias => <[alias.1 := get b alias.2]> r) a aliases.

(** [ON a.job_id = j.id], [ON a.job_seeker_user_id = js.id],
    [ON a.employer_user_id = emp.id] *)
Definition of_job (a j : obj) : option bool :=
  Sql.eq (get a "job_id") (get j "id").
Definition of_job_seeker (a js : obj) : option bool :=
  Sql.eq (get a "job_seeker_user_id") (get js "id").
Definition of_employer (a emp : obj) : option bool :=
  Sql.eq (get a "employer_user_id") (get emp "id").

Definition findByIdWithDetails (jobs users applications : Sql.table) (id : val)
  : option obj :=
  let from :=
    Sql.join of_employer
      (with_columns [("employer_name", "name"); ("employer_email", "email")]) users
      (Sql.join of_job_seeker
         (with_columns [("job_seeker_name_full", "name");
                        ("job_seeker_email_full", "email")]) users
         (Sql.join of_job
            (with_columns [("job_title_full", "title");
                           ("company_name", "company_name");
                           ("job_location", "location"); ("salary", "salary")])
            jobs applications)) in
  first_row formatApplicationWithDetails (List.filter (has_id id) from).

(** [SELECT COUNT( * ) as total FROM applications WHERE 1=1 ...] *)
Definition countApplications (applications : Sql.table) (filters : obj) : val :=
  let q := Sql.Query [] [] 1 None None in
  let q := Sql.and_where_if q (get filters "jobSeekerUserId")
             (fun n params r =>
                Sql.and3 (Sql.column_is "job_seeker_user_id" n params r)
                         (Sql.column_false "deleted_by_job_seeker" r))
             (get filters "jobSeekerUserId") in
  let q := Sql.and_where_if q (get filters "employerUserId")
             (fun n params r =>
                Sql.and3 (Sql.column_is "employer_user_id" n params r)
                         (Sql.column_false "deleted_by_employer" r))
             (get filters "employerUserId") in
  let q := Sql.and_where_if q (get filters "jobId") (Sql.column_is "job_id")
             (get filters "jobId") in
  let total := Sql.count (List.filter (Sql.where_ q) applications) in
  parseInt_of total.

Section Finders.

Variable bigint_in : val -> result Z.

Definition findByJobSeeker (jobs users applications : Sql.table)
    (jobSeekerUserId : val) (filters : obj) : result (list obj) :=
  let from :=
    Sql.join of_employer
      (with_columns [("employer_name", "name"); ("employer_email", "email")]) users
      (Sql.join of_job
         (with_columns [("job_title_full", "title");
                        ("company_name", "company_name");
                        ("job_location", "location"); ("salary", "salary")])
         jobs applications) in
  let q := Sql.Query [ Sql.column_is "job_seeker_user_id" 1;
                       fun _ => Sql.column_false "deleted_by_job_seeker" ]
             [jobSeekerUserId] 2 None None in
  let q := Sql.and_where_if q (get filters "jobId") (Sql.column_is "job_id")
             (get filters "jobId") in
  let q := Sql.limit_if q (get filters "limit") in
  let q := Sql.offset_if q (get filters "offset") in
  (rows <- Sql.select_desc bigint_in q from;;
   Ok (List.map formatApplicationWithDetails rows))%result.

Definition findByEmployer (jobs users applications : Sql.table)
    (employerUserId : val) (filters : obj) : result (list obj) :=
  let from :=
    Sql.join of_job_seeker
      (with_columns [("job_seeker_name_full", "name");
                     ("job_seeker_email_full", "email")]) users
      (Sql.join of_job
         (with_columns [("job_title_full", "title");
                        ("company_name", "company_name");
                        ("job_location", "location")])
         jobs applications) in
  let q := Sql.Query [ Sql.column_is "employer_user_id" 1;
                       fun _ => Sql.column_false "deleted_by_employer" ]
             [employerUserId] 2 None None in
  let q := Sql.and_where_if q (get filters "jobId") (Sql.column_is "job_id")
             (get filters "jobId") in
  let q := Sql.limit_if q (get filters "limit") in
  let q := Sql.offset_if q (get filters "offset") in
  (rows <- Sql.select_desc bigint_in q from;;
   Ok (List.map formatApplicationWithDetails rows))%result.

(** [employerUserId = null] by default; the query has no LIMIT. *)
Definition findByJobId (users applications : Sql.table)
    (jobId employerUserId : val) : result (list obj) :=
  let from :=
    Sql.join of_job_seeker
      (with_columns [("job_seeker_name_full", "name");
                     ("job_seeker_email_full", "email");
                     ("job_seeker_phone_full", "phone")]) users applications in
  let q := Sql.Query [ Sql.column_is "job_id" 1;
                       fun _ => Sql.column_false "deleted_by_employer" ]
             [jobId] 2 None None in
  let q :=
    if truthy employerUserId then
      Sql.Query (Sql.conditions q ++ [Sql.column_is "employer_user_id" (Sql.paramCount q)])
                (Sql.values q ++ [employerUserId]) (Sql.paramCount q)
                (Sql.limit q) (Sql.offset q)
    else q in
  (rows <- Sql.select_desc bigint_in q from;;
   Ok (List.map formatApplicationWithDetails rows))%result.

End Finders.

End ApplicationModel.

(** ** automation/newsLetterCronRaw.js

    The callback that [cron.schedule("*/1 * * * *", ...)] runs every
    minute.  The clock gives the time at which the n-th storage statement
    runs; the transport gives the outcome of the n-th call of
    [sendEmail]. *)

Module NewsLetterCron.
Import Js.

Record mail : Type := Mail {
  email : val;
  subject : string;
  message : string
}.

Record world : Type := World {
  users : Sql.table;
  jobs : Sql.table;
  statements : nat;
  attempts : list (mail * result unit);
  console : list string
}.

Definition M (A : Type) : Type := world -> result A * world.

Definition ret {A} (a : A) : M A := fun w => (Ok a, w).

Definition bind {A B} (m : M A) (k : A -> M B) : M B :=
  fun w =>
    match m w with
    | (Ok a, w') => k a w'
    | (Throw e, w') => (Throw e, w')
    end.

(** [try { m } catch (error) { handler(error.message) }] *)
Definition try_catch {A} (m : M A) (handler : string -> M A) : M A :=
  fun w =>
    match m w with
    | (Ok a, w') => (Ok a, w')
    | (Throw e, w') => handler e w'
    end.

Declare Scope cron_scope.
Delimit Scope cron_scope with cron.
Notation "x <- m ;; k" := (bind m (fun x => k))
  (at level 100, m at next level, right associativity) : cron_scope.
Notation "m ;; k" := (bind m (fun _ => k))
  (at level 100, right associativity) : cron_scope.

Fixpoint for_of {A} (xs : list A) (body : A -> M unit) : M unit :=
  match xs with
  | [] => ret tt
  | x :: rest => (body x;; for_of rest body)%cron
  end.

(** [console.log] and [console.error] append a line. *)
Definition console_log (line : string) : M unit :=
  fun w => (Ok tt, World (users w) (jobs w) (statements w) (attempts w)
                         (console w ++ [line])).

Definition nl : string := String "010"%char EmptyString.

Definition subject_of (job : obj) : string :=
  "Hot Job Alert: " +:+ toString (get job "title") +:+ " in "
    +:+ toString (get job "jobNiche") +:+ " Available Now".

Definition message_of (job user : obj) : string :=
  "Hi " +:+ toString (get user "name") +:+ "," +:+ nl +:+ nl
  +:+ "Great news! A new job that fits your niche has just been posted. The position is for a "
  +:+ toString (get job "title") +:+ " with " +:+ toString (get job "companyName")
  +:+ ", and they are looking to hire immediately." +:+ nl +:+ nl
  +:+ "Job Details:" +:+ nl
  +:+ "- **Position:** " +:+ toString (get job "title") +:+ nl
  +:+ "- **Company:** " +:+ toString (get job "companyName") +:+ nl
  +:+ "- **Location:** " +:+ toString (get job "location") +:+ nl
  +:+ "- **Salary:** " +:+ toString (get job "salary") +:+ nl +:+ nl
  +:+ "Don't wait too long! Job openings like these are filled quickly. "
  +:+ nl +:+ nl
  +:+ "We're here to support you in your job search. Best of luck!"
  +:+ nl +:+ nl
  +:+ "Best Regards," +:+ nl
  +:+ "JobSphere Team".

Definition mail_of (job user : obj) : mail :=
  Mail (get user "email") (subject_of job) (message_of job user).

Section Run.

Variable clock : nat -> Z.
Variable transport : nat -> mail -> result unit.

Definition tick (w : world) : world :=
  World (users w) (jobs w) (S (statements w)) (attempts w) (console w).

Definition getJobsForNewsletter : M (list obj) :=
  fun w =>
    (Ok (JobModel.getJobsForNewsletter (clock (statements w)) (users w) (jobs w)),
     tick w).

Definition findByJobNiche (jobNiche : val) : M (list obj) :=
  fun w => (Ok (UserModel.findByJobNiche (users w) jobNiche), tick w).

Definition updateById (id : val) (updateData : list (string * val))
  : M (option obj) :=
  fun w =>
    match JobModel.updateById (clock (statements w)) (jobs w) id updateData with
    | Ok (job, jobs') =>
        (Ok job, tick (World (users w) jobs' (statements w) (attempts w)
                             (console w)))
    | Throw e => (Throw e, w)
    end.

Definition sendEmail (m : mail) : M unit :=
  fun w =>
    let outcome := transport (List.length (attempts w)) m in
    (outcome, World (users w) (jobs w) (statements w)
                    (attempts w ++ [(m, outcome)]) (console w)).

Definition send_to (job user : obj) : M unit :=
  try_catch
    (sendEmail (mail_of job user);;
     console_log ("Newsletter sent to: " +:+ toString (get user "email")))%cron
    (fun emailError =>
       console_log ("Failed to send email to " +:+ toString (get user "email")
                      +:+ ": " +:+ emailError)).

Definition process (job : obj) : M unit :=
  try_catch
    (filteredUsers <- findByJobNiche (get job "jobNiche");;
     if Nat.eqb (List.length filteredUsers) 0 then
       console_log ("No users found for job niche: "
                      +:+ toString (get job "jobNiche"))
     else
       console_log ("Sending newsletter to "
                      +:+ Str.number_toString (Z.of_nat (List.length filteredUsers))
                      +:+ " users for job: " +:+ toString (get job "title"));;
       for_of filteredUsers (send_to job);;
       updateById (get job "id") [("newsLettersSent", VBool true)];;
       console_log ("Marked job " +:+ toString (get job "title")
                      +:+ " as newsletter sent"))%cron
    (fun jobError =>
       console_log ("Error processing job " +:+ toString (get job "id")
                      +:+ ": " +:+ jobError)).

Definition run : M unit :=
  (console_log "Running Newsletter Cron Automation (Raw PostgreSQL)";;
   try_catch
     (jobs <- getJobsForNewsletter;;
      if Nat.eqb (List.length jobs) 0 then
        console_log "No new jobs found for newsletter"
      else
        console_log ("Processing "
                       +:+ Str.number_toString (Z.of_nat (List.length jobs))
                       +:+ " jobs for newsletter");;
        for_of jobs process)
     (fun error => console_log ("ERROR IN NEWSLETTER CRON: " +:+ error)))%cron.

End Run.

End NewsLetterCron.

(** ** middlewares/error.js and the request handlers

    A handler either passes an error on,
    [next(new ErrorHandler(message, statusCode))], or answers,
    [res.status(status).json(body)].  [req.user] is the object the
    authentication middleware stored (a formatted user row), [req.params]
    and [req.query] hold what the route and the query string gave. *)

Module Http.

(** A property of a response body: a value, or an array of rows. *)
Inductive field : Type :=
| Value (v : val)
| Rows (l : list obj).

Inductive response : Type :=
| Next (message : string) (statusCode : Z)
| Json (status : val) (body : list (string * field)).

End Http.

Module ErrorMiddleware.
Import Js Http.

(** [new ErrorHandler(message, statusCode)]: an [Error] with the message,
    named "Error" and without a [code] (its stack is not read below). *)
Definition ErrorHandler (message : string) (statusCode : Z) : obj :=
  list_to_map
    [ ("message", VStr message); ("statusCode", VNum statusCode);
      ("name", VStr "Error") ].

Definition msg_includes : string :=
  "TypeError: err.message.includes is not a function".

(** [err.message.includes(sub)]: only a string has the method. *)
Definition message_includes (err : obj) (sub : string) : result bool :=
  match get err "message" with
  | VStr m => Ok (str_includes m sub)
  | _ => Throw msg_includes
  end.

(** The last test, evaluated from left to right until one operand is
    true. *)
Definition connection_failed (err : obj) : result bool :=
  if is_str (get err "code") "ECONNREFUSED" || is_str (get err "code") "ENOTFOUND"
     || is_str (get err "code") "ETIMEDOUT" || is_str (get err "code") "ECONNRESET"
  then Ok true
  else
    (a <- message_includes err "connection terminated";;
     if a : bool then Ok true
     else
       b <- message_includes err "Connection terminated";;
       if b : bool then Ok true else message_includes err "ECONNRESET")%result.

(** [if (cond) { err = new ErrorHandler(message, statusCode); }] *)
Definition replaced_if (cond : bool) (message : string) (statusCode : Z)
    (err : obj) : obj :=
  if cond then ErrorHandler message statusCode else err.

(** The lines given to [console.error], and the answer (or the error
    thrown by the last test). *)
Definition errorMiddleware (err : obj) : list val * result response :=
  let err := <["statusCode" := or_else (get err "statusCode") (VNum 500)]> err in
  let err :=
    <["message" := or_else (get err "message") (VStr "Internal server error.")]> err in
  let log :=
    [VStr ("Error (" +:+ toString (get err "statusCode") +:+ "): "
             +:+ toString (get err "message"))] in
  let log := if truthy (get err "stack") then log ++ [get err "stack"] else log in
  let err := replaced_if (is_str (get err "code") "22P02")
               "Invalid ID format provided" 400 err in
  let err := replaced_if (is_str (get err "code") "23505")
               "Duplicate entry already exists" 400 err in
  let err := replaced_if (is_str (get err "code") "23503")
               "Referenced record does not exist" 400 err in
  let err := replaced_if (is_str (get err "code") "23502")
               "Required field is missing" 400 err in
  let err := replaced_if (is_str (get err "name") "JsonWebTokenError")
               "Json Web Token is invalid, Try again." 400 err in
  let err := replaced_if (is_str (get err "name") "TokenExpiredError")
               "Json Web Token is expired, Try again." 400 err in
  (log,
   (c <- connection_failed err;;
    let err := replaced_if c "Database connection failed. Please try again later."
                 503 err in
    Ok (Json (get err "statusCode")
          [ ("success", Value (VBool false));
            ("message", Value (get err "message")) ]))%result).

End ErrorMiddleware.

(** ** controllers/applicationControllerRaw.js *)

Module ApplicationController.
Import Js Http.

Definition deleted_body : list (string * field) :=
  [ ("success", Value (VBool true));
    ("message", Value (VStr "Application deleted successfully.")) ].

(** [if (!deletedApplication) return next(...); res.status(200).json(...)] *)
Definition deleted_response (deleted : option obj * Sql.table)
  : response * Sql.table :=
  match deleted with
  | (None, applications') => (Next "Failed to delete application." 500, applications')
  | (Some _, applications') => (Json (VNum 200) deleted_body, applications')
  end.

Definition deleteApplication (now : Z) (applications : Sql.table) (user : obj)
    (id : val) : response * Sql.table :=
  match ApplicationModel.findById applications id with
  | None => (Next "Application not found." 404, applications)
  | Some application =>
      if strict_equal (get user "role") (VStr "Job Seeker") then
        if negb (strict_equal (get application "jobSeekerUserId") (get user "id"))
        then (Next "You are not authorized to delete this application." 403,
              applications)
        else deleted_response
               (ApplicationModel.deleteByJobSeeker now applications id (get user "id"))
      else if strict_equal (get user "role") (VStr "Employer") then
        if negb (strict_equal (get application "employerUserId") (get user "id"))
        then (Next "You are not authorized to delete this application." 403,
              applications)
        else deleted_response
               (ApplicationModel.deleteByEmployer now applications id (get user "id"))
      else (Next "Invalid user role." 400, applications)
  end.

Section Listings.

Variable bigint_in : val -> result Z.

Definition employerGetAllApplication (jobs users applications : Sql.table)
    (user : obj) : result response :=
  if negb (strict_equal (get user "role") (VStr "Employer")) then
    Ok (Next "Only employers can access this resource." 400)
  else
    (found <- ApplicationModel.findByEmployer bigint_in jobs users applications
                (get user "id") ∅;;
     Ok (Json (VNum 200)
           [ ("success", Value (VBool true)); ("applications", Rows found) ]))%result.

Definition jobSeekerGetAllApplication (jobs users applications : Sql.table)
    (user : obj) : result response :=
  if negb (strict_equal (get user "role") (VStr "Job Seeker")) then
    Ok (Next "Only job seekers can access this resource." 400)
  else
    (found <- ApplicationModel.findByJobSeeker bigint_in jobs users applications
                (get user "id") ∅;;
     Ok (Json (VNum 200)
           [ ("success", Value (VBool true)); ("applications", Rows found) ]))%result.

End Listings.

End ApplicationController.

(** ** controllers/jobControllerRaw.js *)

Module JobController.
Import Js Http.

Definition deleteJob (jobs : Sql.table) (user : obj) (id : val)
  : response * Sql.table :=
  match JobModel.findById jobs id with
  | None => (Next "Job not found." 404, jobs)
  | Some job =>
      if negb (strict_equal (get job "postedBy") (get user "id")) then
        (Next "You are not authorized to delete this job." 403, jobs)
      else
        let '(_, jobs') := JobModel.deleteById jobs id in
        (Json (VNum 200)
           [ ("success", Value (VBool true));
             ("message", Value (VStr "Job deleted successfully.")) ],
         jobs')
  end.

Definition getASingleJob (users jobs : Sql.table) (id : val) : response :=
  match JobModel.findByIdWithPoster users jobs id with
  | None => Next "Job not found." 404
  | Some job =>
      Json (VNum 200) [ ("success", Value (VBool true)); ("job", Value (VObj job)) ]
  end.

Section Listings.

Variable bigint_in : val -> result Z.
Variable ilike : string -> string -> bool.

(** [query] is [req.query]. *)
Definition getAllJobs (users jobs : Sql.table) (query : obj) : result response :=
  let filters : obj := ∅ in
  let filters :=
    if truthy (get query "city") then <["location" := get query "city"]> filters
    else filters in
  let filters :=
    if truthy (get query "niche") then <["jobNiche" := get query "niche"]> filters
    else filters in
  let filters :=
    if truthy (get query "searchKeyword")
    then <["search" := get query "searchKeyword"]> filters
    else filters in
  (found <- JobModel.findAll bigint_in ilike users jobs filters;;
   Ok (Json (VNum 200)
         [ ("success", Value (VBool true)); ("jobs", Rows found);
           ("message", Value (VStr "Jobs fetched successfully.")) ]))%result.

Definition getMyJobs (jobs : Sql.table) (user : obj) : result response :=
  if negb (strict_equal (get user "role") (VStr "Employer")) then
    Ok (Next "Only employers can access this resource." 400)
  else
    (found <- JobModel.findByUserId bigint_in jobs (get user "id") ∅;;
     Ok (Json (VNum 200)
           [ ("success", Value (VBool true)); ("jobs", Rows found);
             ("message", Value (VStr "Your jobs fetched successfully.")) ]))%result.

End Listings.

End JobController.

(** ** database/db-utils.js: the statistics of the health check *)

Module DbUtils.
Import Js.

(** [COUNT(CASE WHEN column = 'label' THEN 1 END)] *)
Definition count_when (column label : string) (t : Sql.table) : val :=
  Sql.count
    (List.filter (fun r => Sql.holds (Sql.eq (get r column) (VStr label))) t).

Definition getDatabaseStats (users jobs applications : Sql.table) : obj :=
  list_to_map
    [ ("users",
       VObj (list_to_map
               [ ("total", parseInt_of (Sql.count users));
                 ("jobSeekers",
                  parseInt_of (or_else (count_when "role" "Job Seeker" users) (VNum 0)));
                 ("employers",
                  parseInt_of (or_else (count_when "role" "Employer" users) (VNum 0))) ]));
      ("jobs",
       VObj (list_to_map
               [ ("total", parseInt_of (Sql.count jobs));
                 ("fullTime",
                  parseInt_of (or_else (count_when "job_type" "Full-time" jobs) (VNum 0)));
                 ("partTime",
                  parseInt_of (or_else (count_when "job_type" "Part-time" jobs) (VNum 0))) ]));
      ("applications",
       VObj (list_to_map [ ("total", parseInt_of (Sql.count applications)) ])) ].

End DbUtils.

(** ** Vocabulary of the properties

    Predicates and sample rows used to state what the code does. *)

Module Vocabulary.
Import Js.

(** The entries of a payload whose value is not [undefined]. *)
Definition present (updateData : list (string * val)) : list (string * val) :=
  List.filter (fun kv => negb (is_undefined kv.2)) updateData.

(** The builder after the columns and values of [l] were appended. *)
Definition extend (b : set_builder) (l : list (string * val)) : set_builder :=
  SetBuilder
    (fields b ++ combine (List.map fst l) (seq (paramCount b) (List.length l)))
    (values b ++ List.map snd l)
    (paramCount b + List.length l).

Definition put (r : obj) (cv : string * val) : obj := <[cv.1 := cv.2]> r.

(** The new version of a row under the assignments [l]. *)
Definition rewritten (now : Z) (l : list (string * val)) (r : obj) : obj :=
  <["updated_at" := VNum now]> (foldl put r l).

(** What an accepted statement does to a row it selects. *)
Definition row_updated (now : Z) (l : list (string * val)) (r r' : obj) : Prop :=
  (forall c x, In (c, x) l -> r' !! c = Some x)
  /\ r' !! "updated_at" = Some (VNum now)
  /\ (forall k, k <> "updated_at" -> ~ In k (List.map fst l) -> r' !! k = r !! k).

(** The table a caller is left with: a call that throws has written
    nothing. *)
Definition table_after {A} (t : Sql.table) (r : result (A * Sql.table))
  : Sql.table :=
  match r with
  | Ok (_, t') => t'
  | Throw _ => t
  end.

(** Columns and values a job payload assigns. *)
Definition job_assigned (d : list (string * val)) : list (string * val) :=
  List.map (fun kv => (JobModel.convertToSnakeCase kv.1, kv.2)) (present d).

(** Columns and values a user payload assigns; the password is stored as
    its digest, and a failing digest aborts the call. *)
Fixpoint user_assigned (bcrypt_hash : val -> result string)
    (d : list (string * val)) : result (list (string * val)) :=
  match d with
  | [] => Ok []
  | (k, v) :: rest =>
      if is_undefined v then user_assigned bcrypt_hash rest
      else if String.eqb k "password" then
        (h <- bcrypt_hash v;;
         l <- user_assigned bcrypt_hash rest;;
         Ok ((UserModel.convertToSnakeCase k, VStr h) :: l))%result
      else
        (l <- user_assigned bcrypt_hash rest;;
         Ok ((UserModel.convertToSnakeCase k, v) :: l))%result
  end.

(** An application of the pair that neither party has deleted. *)
Definition active (s j : string) (a : obj) : Prop :=
  get a "job_seeker_user_id" = VStr s /\ get a "job_id" = VStr j
  /\ get a "deleted_by_job_seeker" = VBool false
  /\ get a "deleted_by_employer" = VBool false.

(** The effect of a soft deletion on one row. *)
Definition marked (flag : string) (now : Z) (a a' : obj) : Prop :=
  a' !! flag = Some (VBool true)
  /\ a' !! "updated_at" = Some (VNum now)
  /\ forall k, k <> flag -> k <> "updated_at" -> a' !! k = a !! k.

(** The user rows a posting's [posted_by] refers to. *)
Definition owners (users : Sql.table) (j : obj) : list obj :=
  List.filter (fun u => Sql.holds (Sql.eq (get j "posted_by") (get u "id"))) users.

(** [u] is the user who posted [j]. *)
Definition posted (j u : obj) : Prop :=
  Sql.holds (Sql.eq (get j "posted_by") (get u "id")) = true.

(** The posting is unsent and not older than 24 hours at time [now]:
    24 times 3600 seconds of 10^6 microseconds. *)
Definition due (now : Z) (j : obj) : Prop :=
  get j "newsletters_sent" = VBool false
  /\ exists t, get j "created_at" = VNum t /\ now - 24 * 3600 * 10 ^ 6 <= t.

(** The posting's id selects the row. *)
Definition selects (job r : obj) : bool :=
  Sql.holds (Sql.eq (get r "id") (get job "id")).

(** What marking a posting as sent does to a row. *)
Definition mark (now : Z) (job r : obj) : obj :=
  if selects job r then rewritten now [("newsletters_sent", VBool true)] r else r.

(** The subscribers the lookup returns for a posting. *)
Definition subscribers_of (users : Sql.table) (job : obj) : list obj :=
  UserModel.findByJobNiche users (get job "jobNiche").

(** The mails of a run, in order: one per fetched posting and matched
    subscriber. *)
Definition mails_of (users : Sql.table) (postings : list obj) : list NewsLetterCron.mail :=
  List.concat
    (List.map (fun job => List.map (NewsLetterCron.mail_of job) (subscribers_of users job))
       postings).

(** A row after the run: every column but the flag and the update time is
    as before, and the row is the same row unless it is the row of a
    fetched posting that had a subscriber, which is now flagged as sent. *)
Definition kept_or_marked (postings : list obj) (users : Sql.table)
    (r r' : obj) : Prop :=
  (forall k, k <> "newsletters_sent" -> k <> "updated_at" -> r' !! k = r !! k)
  /\ (r' = r
      \/ (get r' "newsletters_sent" = VBool true
          /\ exists job, In job postings /\ subscribers_of users job <> []
                         /\ selects job r = true)).

Definition employer_row : obj :=
  list_to_map
    [ ("id", VStr "e1"); ("name", VStr "Meera"); ("email", VStr "meera@acme.example");
      ("role", VStr "Employer"); ("created_at", VNum 10) ].

Definition fresh_job : obj :=
  list_to_map
    [ ("id", VStr "j1"); ("title", VStr "Developer"); ("job_niche", VStr "Web");
      ("company_name", VStr "Acme"); ("location", VStr "Pune");
      ("salary", VStr "12 LPA"); ("newsletters_sent", VBool false);
      ("posted_by", VStr "e1"); ("created_at", VNum 100); ("updated_at", VNum 100) ].

Definition weak_application : obj :=
  list_to_map
    [ ("jobSeekerName", VStr "Asha"); ("jobSeekerEmail", VStr "asha-at-mail");
      ("jobSeekerPhone", VStr "12345"); ("jobTitle", VStr "Developer") ].

Definition weak_user : obj :=
  list_to_map
    [ ("name", VStr "Al"); ("email", VStr "asha-at-mail"); ("phone", VStr "12345");
      ("password", VStr "short"); ("role", VStr "Job Seeker") ].

(** The text in which the server prints a uuid, and in which the rows hold
    their ids: 8, 4, 4, 4 and 12 hexadecimal digits in lower case, with
    hyphens between the groups.  For an id given in this spelling,
    comparing texts is comparing uuids; another spelling of a uuid
    (upper case, braces, no hyphens) and a text that is no uuid are not
    canonical. *)
Definition is_lower_hex (c : ascii) : bool :=
  Chars.is_digit c || ((97 <=? Chars.code c)%N && (Chars.code c <=? 102)%N).

(** The rest of the text after [n] hexadecimal digits. *)
Fixpoint hex_run (n : nat) (s : string) : option string :=
  match n, s with
  | O, _ => Some s
  | S n', String c s' => if is_lower_hex c then hex_run n' s' else None
  | S _, EmptyString => None
  end.

Fixpoint uuid_groups (groups : list nat) (s : string) : bool :=
  match groups with
  | [] => false
  | [n] => match hex_run n s with
           | Some EmptyString => true
           | _ => false
           end
  | n :: rest => match hex_run n s with
                 | Some (String c s') => Ascii.eqb c "-" && uuid_groups rest s'
                 | _ => false
                 end
  end.

Definition canonical_uuid (s : string) : bool :=
  uuid_groups [8; 4; 4; 4; 12]%nat s.

(** The types of the columns of [users] and [jobs] in
    [database/init.sql], as far as they decide in which form a value is
    stored and handed back by the driver. *)
Inductive column_type : Type :=
| Uuid
| Varchar (n : nat)
| Text
| Enum (labels : list string)
| Bigint
| Boolean
| Timestamp.

Definition users_types : list (string * column_type) :=
  [ ("id", Uuid); ("name", Varchar 30); ("email", Varchar 255); ("phone", Bigint);
    ("address", Text); ("first_niche", Varchar 255); ("second_niche", Varchar 255);
    ("third_niche", Varchar 255); ("password", Varchar 255);
    ("resume_public_id", Varchar 255); ("resume_url", Varchar 255);
    ("cover_letter", Text); ("role", Enum ["Job Seeker"; "Employer"]);
    ("created_at", Timestamp); ("updated_at", Timestamp) ].

Definition jobs_types : list (string * column_type) :=
  [ ("id", Uuid); ("title", Varchar 255);
    ("job_type", Enum ["Full-time"; "Part-time"]); ("location", Varchar 255);
    ("company_name", Varchar 255); ("introduction", Text);
    ("responsibilities", Text); ("qualifications", Text); ("offers", Text);
    ("salary", Varchar 255); ("hiring_multiple_candidates", Enum ["Yes"; "No"]);
    ("personal_website_title", Varchar 255); ("personal_website_url", Varchar 255);
    ("job_niche", Varchar 255); ("newsletters_sent", Boolean);
    ("job_posted_on", Timestamp); ("posted_by", Uuid); ("created_at", Timestamp);
    ("updated_at", Timestamp) ].

Definition type_of (types : list (string * column_type)) (column : string)
  : option column_type :=
  match List.find (fun ct => String.eqb ct.1 column) types with
  | Some ct => Some ct.2
  | None => None
  end.

(** A value that a column of the type stores, and the driver hands back,
    as it was given: [null]; a text for a text column (within the length
    of a VARCHAR, a label of an enum, the canonical spelling of a uuid);
    for a BIGINT column the decimal text of a number of its range, since
    the driver hands a bigint back as text; a boolean for a BOOLEAN
    column.  Any other value that the server accepts is converted to the
    type of the column (a number given for a text to its digits, a
    number given for a bigint to its text when read back). *)
Definition kept_as_given (ty : option column_type) (v : val) : Prop :=
  match v, ty with
  | VNull, Some _ => True
  | VStr s, Some Uuid => canonical_uuid s = true
  | VStr s, Some (Varchar n) => (String.length s <= n)%nat
  | VStr s, Some Text => True
  | VStr s, Some (Enum labels) => In s labels
  | VStr s, Some Bigint =>
      exists n, - 2 ^ 63 <= n < 2 ^ 63 /\ s = Str.number_toString n
  | VBool _, Some Boolean => True
  | _, _ => False
  end.

(** Ids in this spelling, and rows that hold them. *)
Definition seeker_id : string := "5c1d2e3f-0a1b-4c2d-8e3f-4a5b6c7d8e9f".
Definition employer_id : string := "7e8f9a0b-1c2d-4e3f-9a4b-5c6d7e8f9a0b".
Definition job_id : string := "0b9f3c52-6a1e-4d7c-8f21-5e3a9c7d1b40".
Definition application_id : string := "a3b4c5d6-e7f8-4a9b-8c0d-1e2f3a4b5c6d".

Definition stored_employer : obj :=
  list_to_map
    [ ("id", VStr employer_id); ("name", VStr "Meera");
      ("email", VStr "meera@acme.example"); ("role", VStr "Employer");
      ("created_at", VNum 10) ].

Definition stored_job : obj :=
  list_to_map
    [ ("id", VStr job_id); ("title", VStr "Developer"); ("job_niche", VStr "Web");
      ("company_name", VStr "Acme"); ("location", VStr "Pune");
      ("salary", VStr "12 LPA"); ("newsletters_sent", VBool false);
      ("posted_by", VStr employer_id); ("created_at", VNum 100);
      ("updated_at", VNum 100) ].

Definition stored_application : obj :=
  list_to_map
    [ ("id", VStr application_id); ("job_seeker_user_id", VStr seeker_id);
      ("employer_user_id", VStr employer_id); ("job_id", VStr job_id);
      ("deleted_by_job_seeker", VBool false); ("deleted_by_employer", VBool false);
      ("created_at", VNum 50); ("updated_at", VNum 50) ].

(** [req.user] of the job seeker and of the employer. *)
Definition signed_in (id role : string) : obj :=
  list_to_map [ ("id", VStr id); ("role", VStr role) ].

End Vocabulary.

(** ** Vocabulary of the further properties *)

Module PhoneNotions.
Import Js.

(** Decidable form of the canonical range. *)
Definition canonicalb (n : Z) : bool := (6000000000 <=? n) && (n <=? 9999999999).

(** A phone given as a string or as a whole number: not as a fraction, an
    array or another object. *)
Definition text_or_integer (phone : val) : Prop :=
  (exists s, phone = VStr s) \/ (exists n, phone = VNum n).

(** What the strict parser answers for a number it has read. *)
Definition verdict (n : Z) : result val :=
  if n <=? 0 then Throw PhoneUtils.msg_digits_only
  else if canonicalb n then Ok (VNum n)
  else Throw PhoneUtils.msg_invalid_indian.

End PhoneNotions.

Module EmailNotions.
Import Js.

(** A text made of the characters the pattern [[^\s@]] allows. *)
Definition plain (s : string) : Prop :=
  s <> "" /\ Str.forallb not_space_or_at s = true.

(** [x@y.z] *)
Definition email_shape (e : string) : Prop :=
  exists x y z, e = x +:+ "@" +:+ y +:+ "." +:+ z /\ plain x /\ plain y /\ plain z.

End EmailNotions.

Module ValidationNotions.
Import Js.

(** A string with something besides white space. *)
Definition filled (v : val) : Prop := exists s, v = VStr s /\ Str.trim s <> "".

(** A truthy value that is not a string: it has no [trim]. *)
Definition untrimmable (v : val) : Prop :=
  truthy v = true /\ forall s, v <> VStr s.

Definition job_text_fields : list string :=
  [ "title"; "location"; "companyName"; "responsibilities"; "qualifications";
    "salary"; "jobNiche" ].

Definition application_text_fields : list string :=
  [ "jobSeekerName"; "jobSeekerAddress"; "coverLetter"; "jobTitle" ].

Definition msg_phone_format : string :=
  "Please provide a valid job seeker phone number (10-15 digits)".

End ValidationNotions.

Module FormatNotions.
Import Js.

(** The property names of a formatted job, user (data properties) and
    application. *)
Definition job_properties : list string :=
  [ "id"; "title"; "jobType"; "location"; "companyName"; "introduction";
    "responsibilities"; "qualifications"; "offers"; "salary";
    "hiringMultipleCandidates"; "personalWebsiteTitle"; "personalWebsiteUrl";
    "jobNiche"; "newsLettersSent"; "jobPostedOn"; "postedBy"; "createdAt";
    "updatedAt" ].

Definition user_properties : list string :=
  [ "id"; "name"; "email"; "phone"; "address"; "firstNiche"; "secondNiche";
    "thirdNiche"; "password"; "resumePublicId"; "resumeUrl"; "coverLetter";
    "role"; "createdAt"; "updatedAt" ].

End FormatNotions.

Module QueryNotions.
Import Js.

(** A filter applies only when it is given (truthy). *)
Definition given (v : val) (p : bool) : bool := if truthy v then p else true.

(** [column = v] holds on the row. *)
Definition column_has (column : string) (v : val) (r : obj) : bool :=
  Sql.holds (Sql.eq (get r column) v).

(** The id of the row is one of the list. *)
Definition listed (ids : list val) (r : obj) : bool :=
  Sql.holds (Sql.in_list (get r "id") ids).

(** The poster object of a formatted job. *)
Definition poster_of (u : obj) : val :=
  VObj (list_to_map
          [ ("name", get u "name"); ("email", get u "email"); ("role", get u "role") ]).

End QueryNotions.

Module PagingNotions.
Import Js.

(** Rows in the order of [ORDER BY key DESC]. *)
Definition newest_first (key : string) (l : list obj) : Prop :=
  StronglySorted (fun a b => Sql.before_desc (get a key) (get b key) = true) l.

(** LIMIT and OFFSET as a finder appends them, on their own. *)
Definition paged (bigint_in : val -> result Z) (limit offset : val)
    (rows : list obj) : result (list obj) :=
  Sql.page bigint_in
    (Sql.offset_if (Sql.limit_if (Sql.Query [] [] 1 None None) limit) offset) rows.

(** [map f] under [Ok]. *)
Definition rmap {A B} (f : A -> B) (r : result A) : result B :=
  match r with
  | Ok a => Ok (f a)
  | Throw m => Throw m
  end.

End PagingNotions.

Module FinderNotions.
Import Js QueryNotions.

(** The rows [findByUserId] selects. *)
Definition posted_by_filter (userId : val) (filters : obj) (r : obj) : bool :=
  column_has "posted_by" userId r
  && given (get filters "jobNiche") (column_has "job_niche" (get filters "jobNiche") r).

End FinderNotions.

Module ApplicationNotions.
Import Js QueryNotions.

(** The rows were created at times that differ from one another, so that
    ORDER BY [created_at] leaves no choice between two of them. *)
Definition distinct_times (rows : list obj) : Prop :=
  (forall r, In r rows -> exists t, get r "created_at" = VNum t)
  /\ List.NoDup (List.map (fun r => get r "created_at") rows).

(** The rows [findByJobSeeker] selects from: the applications joined with
    their job and their employer. *)
Definition seeker_rows (jobs users applications : Sql.table) : list obj :=
  Sql.join ApplicationModel.of_employer
    (ApplicationModel.with_columns
       [("employer_name", "name"); ("employer_email", "email")]) users
    (Sql.join ApplicationModel.of_job
       (ApplicationModel.with_columns
          [("job_title_full", "title"); ("company_name", "company_name");
           ("job_location", "location"); ("salary", "salary")])
       jobs applications).

(** The rows [findByEmployer] selects from: the applications joined with
    their job and their job seeker. *)
Definition employer_rows (jobs users applications : Sql.table) : list obj :=
  Sql.join ApplicationModel.of_job_seeker
    (ApplicationModel.with_columns
       [("job_seeker_name_full", "name"); ("job_seeker_email_full", "email")]) users
    (Sql.join ApplicationModel.of_job
       (ApplicationModel.with_columns
          [("job_title_full", "title"); ("company_name", "company_name");
           ("job_location", "location")])
       jobs applications).

Definition seeker_filter (jobSeekerUserId : val) (filters : obj) (r : obj) : bool :=
  column_has "job_seeker_user_id" jobSeekerUserId r
  && column_has "deleted_by_job_seeker" (VBool false) r
  && given (get filters "jobId") (column_has "job_id" (get filters "jobId") r).

Definition employer_filter (employerUserId : val) (filters : obj) (r : obj) : bool :=
  column_has "employer_user_id" employerUserId r
  && column_has "deleted_by_employer" (VBool false) r
  && given (get filters "jobId") (column_has "job_id" (get filters "jobId") r).

(** What a soft deletion does to one row. *)
Definition soft_mark (flag owner_column : string) (now : Z) (id owner : val)
    (a : obj) : obj :=
  if ApplicationModel.owned_by owner_column id owner a
  then <["updated_at" := VNum now]> (<[flag := VBool true]> a)
  else a.

(** The ids of the listed objects, in order. *)
Definition ids_of (l : list obj) : list val := List.map (fun o => get o "id") l.

(** The columns the finders and their joins read, besides the flag of the
    party that lists. *)
Definition listing_columns : list string :=
  [ "id"; "job_seeker_user_id"; "employer_user_id"; "job_id"; "created_at" ].

End ApplicationNotions.

Module AnswerNotions.
Import Js Http.

(** The answer of the error middleware. *)
Definition failure (status message : val) : response :=
  Json status [ ("success", Value (VBool false)); ("message", Value message) ].

(** The errors the middleware rewrites to a 400, in the order of its
    tests: the property read, the value tested for, the new message. *)
Definition rewrites : list (string * string * string) :=
  [ ("code", "22P02", "Invalid ID format provided");
    ("code", "23505", "Duplicate entry already exists");
    ("code", "23503", "Referenced record does not exist");
    ("code", "23502", "Required field is missing");
    ("name", "JsonWebTokenError", "Json Web Token is invalid, Try again.");
    ("name", "TokenExpiredError", "Json Web Token is expired, Try again.") ].

Definition rewritten_by (err : obj) (rule : string * string * string) : bool :=
  is_str (get err rule.1.1) rule.1.2.

Definition connection_codes : list string :=
  [ "ECONNREFUSED"; "ENOTFOUND"; "ETIMEDOUT"; "ECONNRESET" ].

Definition connection_texts : list string :=
  [ "connection terminated"; "Connection terminated"; "ECONNRESET" ].

(** A statistic of the health check. *)
Definition stat (stats : obj) (section key : string) : val :=
  match get stats section with
  | VObj o => get o key
  | _ => VUndef
  end.

Definition job_deleted_body : list (string * field) :=
  [ ("success", Value (VBool true));
    ("message", Value (VStr "Job deleted successfully.")) ].

End AnswerNotions.

Module CronNotions.

Definition subscriber_row : obj :=
  list_to_map
    [ ("id", VStr "s1"); ("name", VStr "Asha"); ("email", VStr "asha@mail.example");
      ("role", VStr "Job Seeker"); ("first_niche", VStr "Web");
      ("created_at", VNum 20) ].

End CronNotions.

Module ListingNotions.
Import Js QueryNotions ApplicationNotions.

(** The row [findByJobSeeker] reads for an application, its job and its
    employer. *)
Definition seeker_row (a j e : obj) : obj :=
  ApplicationModel.with_columns
    [("employer_name", "name"); ("employer_email", "email")]
    (ApplicationModel.with_columns
       [("job_title_full", "title"); ("company_name", "company_name");
        ("job_location", "location"); ("salary", "salary")] a j) e.

(** The row [findByEmployer] reads for an application, its job and its
    job seeker. *)
Definition employer_row_of (a j s : obj) : obj :=
  ApplicationModel.with_columns
    [("job_seeker_name_full", "name"); ("job_seeker_email_full", "email")]
    (ApplicationModel.with_columns
       [("job_title_full", "title"); ("company_name", "company_name");
        ("job_location", "location")] a j) s.

(** The application refers to the job and to the user by their ids. *)
Definition refers (column : string) (a b : obj) : Prop :=
  column_has column (get b "id") a = true.

End ListingNotions.

Module PublicListingNotions.
Import Js QueryNotions.

(** [column ILIKE pattern] holds on the row. *)
Definition column_like (ilike : string -> string -> bool) (column : string)
    (pattern : val) (r : obj) : bool :=
  match get r column, pattern with
  | VStr text, VStr p => ilike text p
  | _, _ => false
  end.

(** A parameter of the query string that the server takes as a text: it
    is absent, or a string without the NUL character. *)
Definition query_text (v : val) : bool :=
  match v with
  | VUndef => true
  | VStr s => Str.forallb (fun c => negb (Ascii.eqb c "000")) s
  | _ => false
  end.

(** The jobs the public listing selects for a query string. *)
Definition public_filter (ilike : string -> string -> bool) (query : obj) (j : obj)
  : bool :=
  given (get query "niche") (column_has "job_niche" (get query "niche") j)
  && given (get query "city")
       (column_like ilike "location" (JobModel.contains_pattern (get query "city")) j)
  && given (get query "searchKeyword")
       (let p := JobModel.contains_pattern (get query "searchKeyword") in
        column_like ilike "title" p j || column_like ilike "company_name" p j
        || column_like ilike "job_niche" p j).

End PublicListingNotions.

(** * Properties *)

(** ** Characters, digit strings and decimal notation *)

Module StrFacts.
Import Chars Str Js.

Lemma is_digit_cases (c : ascii) :
  is_digit c = true ->
  c = "0"%char \/ c = "1"%char \/ c = "2"%char \/ c = "3"%char \/ c = "4"%char \/
  c = "5"%char \/ c = "6"%char \/ c = "7"%char \/ c = "8"%char \/ c = "9"%char.
Proof.
  destruct c as [[] [] [] [] [] [] [] []]; cbv; intros H;
    try discriminate H; tauto.
Qed.

Lemma is_digit_range (c : ascii) :
  is_digit c = true -> 0 <= digit_of c <= 9.
Proof.
  intros H. destruct (is_digit_cases c H) as [-> | [-> | [-> | [-> | [-> |
    [-> | [-> | [-> | [-> | ->]]]]]]]]]; cbv; split; discriminate.
Qed.

Lemma digit_val_digit (c : ascii) :
  is_digit c = true -> digit_val 10 c = Some (digit_of c).
Proof.
  intros H. destruct (is_digit_cases c H) as [-> | [-> | [-> | [-> | [-> |
    [-> | [-> | [-> | [-> | ->]]]]]]]]]; reflexivity.
Qed.

Lemma is_digit_not_space (c : ascii) : is_digit c = true -> is_space c = false.
Proof.
  intros H. destruct (is_digit_cases c H) as [-> | [-> | [-> | [-> | [-> |
    [-> | [-> | [-> | [-> | ->]]]]]]]]]; reflexivity.
Qed.

Lemma digit_char_is_digit (d : Z) : 0 <= d < 10 -> is_digit (digit_char d) = true.
Proof.
  intros H.
  assert (d = 0 \/ d = 1 \/ d = 2 \/ d = 3 \/ d = 4 \/ d = 5 \/ d = 6 \/ d = 7
          \/ d = 8 \/ d = 9) as Hd by lia.
  destruct Hd as [-> | [-> | [-> | [-> | [-> | [-> | [-> | [-> | [-> | ->]]]]]]]]];
    reflexivity.
Qed.

Lemma digit_of_digit_char (d : Z) : 0 <= d < 10 -> digit_of (digit_char d) = d.
Proof.
  intros H.
  assert (d = 0 \/ d = 1 \/ d = 2 \/ d = 3 \/ d = 4 \/ d = 5 \/ d = 6 \/ d = 7
          \/ d = 8 \/ d = 9) as Hd by lia.
  destruct Hd as [-> | [-> | [-> | [-> | [-> | [-> | [-> | [-> | [-> | ->]]]]]]]]];
    reflexivity.
Qed.

Lemma digit_of_inj (c c' : ascii) : digit_of c = digit_of c' -> c = c'.
Proof.
  unfold digit_of, code. intros H.
  rewrite <- (ascii_N_embedding c), <- (ascii_N_embedding c').
  f_equal. lia.
Qed.

Lemma pow10_S (k : nat) : pow10 (S k) = 10 * pow10 k.
Proof. unfold pow10. rewrite Nat2Z.inj_succ, Z.pow_succ_r by lia. reflexivity. Qed.

Lemma pow10_pos (k : nat) : 0 < pow10 k.
Proof. unfold pow10. apply Z.pow_pos_nonneg; lia. Qed.

Lemma value_from_acc (s : string) (acc : Z) :
  value_from acc s = acc * pow10 (String.length s) + value s.
Proof.
  unfold value. revert acc. induction s as [|c s IH]; intros acc; simpl.
  - unfold pow10. simpl. lia.
  - rewrite IH, (IH (0 * 10 + digit_of c)), pow10_S. lia.
Qed.

Lemma value_cons (c : ascii) (s : string) :
  value (String c s) = digit_of c * pow10 (String.length s) + value s.
Proof. unfold value at 1. simpl. rewrite value_from_acc. lia. Qed.

Lemma value_bounds (s : string) :
  forallb is_digit s = true -> 0 <= value s < pow10 (String.length s).
Proof.
  induction s as [|c s IH]; simpl.
  - intros _. cbv. split; [discriminate | reflexivity].
  - intros [Hc Hs]%andb_prop. rewrite value_cons, pow10_S.
    pose proof (is_digit_range c Hc). pose proof (pow10_pos (String.length s)).
    specialize (IH Hs). nia.
Qed.

(** Two digit strings of the same length with the same value are the
    same string. *)
Lemma value_inj (s t : string) :
  String.length s = String.length t ->
  forallb is_digit s = true -> forallb is_digit t = true ->
  value s = value t -> s = t.
Proof.
  revert t. induction s as [|c s IH]; intros [|c' t]; simpl; try discriminate.
  - reflexivity.
  - intros Hlen [Hc Hs]%andb_prop [Hc' Ht]%andb_prop.
    injection Hlen as Hlen. rewrite !value_cons, Hlen. intros Hv.
    pose proof (value_bounds s Hs) as Bs. pose proof (value_bounds t Ht) as Bt.
    rewrite Hlen in Bs.
    pose proof (is_digit_range c Hc). pose proof (is_digit_range c' Hc').
    assert (digit_of c = digit_of c') as Hd by nia.
    rewrite (digit_of_inj _ _ Hd). f_equal. apply IH; auto. nia.
Qed.

Lemma take_digits_all (s : string) :
  forallb is_digit s = true ->
  List.length (take_digits 10 s) = String.length s /\
  forall acc, fold_left (fun a d => a * 10 + d) (take_digits 10 s) acc
              = value_from acc s.
Proof.
  induction s as [|c s IH]; simpl.
  - intros _. split; [reflexivity | intros acc; reflexivity].
  - intros [Hc Hs]%andb_prop. rewrite (digit_val_digit c Hc). simpl.
    destruct (IH Hs) as [Hl Hf]. split; [congruence | intros acc; apply Hf].
Qed.

(** [parseInt] reads a non-empty string of digits as its value. *)
Lemma parseInt_digits (s : string) :
  s <> EmptyString -> forallb is_digit s = true -> parseInt s = VNum (value s).
Proof.
  destruct s as [|c s]; [congruence | intros _]. simpl.
  intros [Hc Hs]%andb_prop.
  assert (parseInt (String c s)
          = match take_digits 10 (String c s) with
            | [] => VNaN
            | ds => VNum (digits_value 10 ds)
            end) as ->.
  { unfold parseInt. simpl trimStart. rewrite (is_digit_not_space c Hc).
    destruct (is_digit_cases c Hc) as [-> | [-> | [-> | [-> | [-> |
      [-> | [-> | [-> | [-> | ->]]]]]]]]]; try reflexivity.
    destruct s as [|c2 s2]; [reflexivity |].
    simpl in Hs. apply andb_prop in Hs as [Hc2 _].
    destruct (is_digit_cases c2 Hc2) as [-> | [-> | [-> | [-> | [-> |
      [-> | [-> | [-> | [-> | ->]]]]]]]]]; reflexivity. }
  destruct (take_digits_all (String c s)) as [Hl Hf].
  { simpl. rewrite Hc, Hs. reflexivity. }
  destruct (take_digits 10 (String c s)) as [|d ds] eqn:E.
  - simpl in Hl. discriminate.
  - unfold digits_value. rewrite Hf. reflexivity.
Qed.

End StrFacts.

Module DecimalFacts.
Import Chars Str Js StrFacts.

Local Ltac divmod := Z.div_mod_to_equations; lia.

Lemma append_cons (x : ascii) (p q : string) :
  String x p +:+ q = String x (p +:+ q).
Proof. reflexivity. Qed.

Lemma append_cons_assoc (p : string) (c : ascii) (acc : string) :
  p +:+ String c acc = (p +:+ String c EmptyString) +:+ acc.
Proof.
  induction p as [|x p IH]; [reflexivity |].
  rewrite !append_cons, IH. reflexivity.
Qed.

Lemma append_empty (p : string) : p +:+ EmptyString = p.
Proof.
  induction p as [|x p IH]; [reflexivity |]. rewrite append_cons, IH. reflexivity.
Qed.

Lemma forallb_snoc (q : ascii -> bool) (p : string) (c : ascii) :
  forallb q (p +:+ String c EmptyString) = forallb q p && q c.
Proof.
  induction p as [|x p IH].
  - simpl. destruct (q c); reflexivity.
  - rewrite append_cons. simpl. rewrite IH. destruct (q x); reflexivity.
Qed.

Lemma value_from_snoc (p : string) (c : ascii) (a : Z) :
  value_from a (p +:+ String c EmptyString) = value_from a p * 10 + digit_of c.
Proof.
  revert a. induction p as [|x p IH]; intros a; [reflexivity |].
  rewrite append_cons. simpl. apply IH.
Qed.

(** With enough fuel the digits of [n] are written in front of [acc]. *)
Lemma digits_aux_spec (fuel : nat) :
  forall n acc, 0 <= n < pow10 (S fuel) ->
    exists p, digits_aux (S fuel) n acc = p +:+ acc
              /\ forallb is_digit p = true
              /\ value p = n
              /\ p <> EmptyString
              /\ (0 < n -> exists c r, p = String c r /\ 0 < digit_of c).
Proof.
  assert (forall f n acc,
             (10 <= n -> 0 <= n < pow10 (S f) ->
              exists p, digits_aux f (n / 10) (String (digit_char (n mod 10)) acc)
                        = p +:+ String (digit_char (n mod 10)) acc
                        /\ forallb is_digit p = true
                        /\ value p = n / 10
                        /\ p <> EmptyString
                        /\ (0 < n / 10 -> exists c r, p = String c r /\ 0 < digit_of c)) ->
             0 <= n < pow10 (S f) ->
             exists p, digits_aux (S f) n acc = p +:+ acc
              /\ forallb is_digit p = true
              /\ value p = n
              /\ p <> EmptyString
              /\ (0 < n -> exists c r, p = String c r /\ 0 < digit_of c)) as Hstep.
  { intros f n acc IH Hn.
    simpl. destruct (Z.ltb_spec n 10) as [Hlt | Hge].
    + exists (String (digit_char (n mod 10)) EmptyString).
      assert (n mod 10 = n) as -> by divmod.
      repeat split.
      * simpl. rewrite digit_char_is_digit by lia. reflexivity.
      * unfold value. simpl. rewrite digit_of_digit_char by lia. reflexivity.
      * discriminate.
      * intros Hpos. eexists _, _. split; [reflexivity |].
        rewrite digit_of_digit_char by lia. lia.
    + destruct (IH Hge Hn) as (p & -> & Hd & Hv & Hne & Hlead).
      exists (p +:+ String (digit_char (n mod 10)) EmptyString).
      assert (0 <= n mod 10 < 10) as Hm by divmod.
      repeat split.
      * apply append_cons_assoc.
      * rewrite forallb_snoc, Hd, digit_char_is_digit by lia. reflexivity.
      * unfold value in *. rewrite value_from_snoc, Hv, digit_of_digit_char by lia.
        divmod.
      * destruct p; discriminate.
      * intros _. destruct Hlead as (c & r & -> & Hc); [divmod |].
        rewrite append_cons. eauto. }
  induction fuel as [|f IH]; intros n acc Hn; apply Hstep; auto.
  - intros Hge _. unfold pow10 in Hn. simpl in Hn. lia.
  - intros Hge _. apply IH. rewrite pow10_S in Hn. divmod.
Qed.

Lemma decimal_fuel (n : Z) : 0 <= n -> n < pow10 (S (Z.to_nat (Z.log2 n))).
Proof.
  intros Hn. unfold pow10. rewrite Nat2Z.inj_succ, Z2Nat.id by apply Z.log2_nonneg.
  destruct (Z.eq_dec n 0) as [-> | Hne]; [reflexivity |].
  pose proof (Z.log2_spec n ltac:(lia)) as [_ Hlt].
  eapply Z.lt_le_trans; [exact Hlt |].
  apply Z.pow_le_mono_l. lia.
Qed.

Lemma decimal_spec (n : Z) :
  0 <= n ->
  forallb is_digit (decimal n) = true
  /\ value (decimal n) = n
  /\ decimal n <> EmptyString
  /\ (0 < n -> exists c r, decimal n = String c r /\ 0 < digit_of c).
Proof.
  intros Hn. unfold decimal.
  destruct (digits_aux_spec (Z.to_nat (Z.log2 n)) n EmptyString)
    as (p & E & H); [pose proof (decimal_fuel n Hn); lia |].
  rewrite E.
  rewrite append_empty. exact H.
Qed.

(** A digit string without a leading zero is the decimal notation of its
    value. *)
Lemma decimal_value (c : ascii) (s : string) :
  forallb is_digit (String c s) = true -> 0 < digit_of c ->
  decimal (value (String c s)) = String c s.
Proof.
  intros Hd Hc.
  pose proof (value_bounds _ Hd) as Hb.
  assert (pow10 (String.length s) <= value (String c s)) as Hlow.
  { rewrite value_cons. simpl in Hd. apply andb_prop in Hd as [_ Hs].
    pose proof (value_bounds s Hs). pose proof (pow10_pos (String.length s)). nia. }
  destruct (decimal_spec (value (String c s))) as (Hd' & Hv & _ & Hlead); [lia |].
  destruct Hlead as (c' & r & E & Hc'); [pose proof (pow10_pos (String.length s)); lia |].
  apply value_inj; auto.
  rewrite E in *. pose proof (value_bounds _ Hd') as Hb'. rewrite Hv in Hb'.
  assert (pow10 (String.length r) <= value (String c s)) as Hlow'.
  { rewrite <- Hv at 1. rewrite value_cons. simpl in Hd'.
    apply andb_prop in Hd' as [_ Hr].
    pose proof (value_bounds r Hr). pose proof (pow10_pos (String.length r)). nia. }
  simpl in *. f_equal.
  destruct (Nat.lt_trichotomy (String.length r) (String.length s)) as [Hlt | [-> | Hgt]];
    [exfalso | reflexivity | exfalso].
  - assert (pow10 (S (String.length r)) <= pow10 (String.length s)).
    { unfold pow10. apply Z.pow_le_mono_r; lia. }
    lia.
  - assert (pow10 (S (String.length s)) <= pow10 (String.length r)).
    { unfold pow10. apply Z.pow_le_mono_r; lia. }
    lia.
Qed.

End DecimalFacts.

(** ** Regular expressions *)

Module RegexFacts.
Import Chars Str Regex.

Lemma test_Void (s : string) : test Void s = false.
Proof. induction s as [|c s IH]; simpl; auto. Qed.

Lemma test_Eps (s : string) :
  test Eps s = match s with EmptyString => true | _ => false end.
Proof. destruct s as [|c s]; simpl; [reflexivity | apply test_Void]. Qed.

Lemma test_Alt (r1 r2 : regex) (s : string) :
  test (Alt r1 r2) s = test r1 s || test r2 s.
Proof. revert r1 r2. induction s as [|c s IH]; intros r1 r2; simpl; auto. Qed.

Lemma test_Cat_Void (r : regex) (s : string) : test (Cat Void r) s = false.
Proof. induction s as [|c s IH]; simpl; auto. Qed.

Lemma test_Cat_Eps (r : regex) (s : string) : test (Cat Eps r) s = test r s.
Proof.
  destruct s as [|c s]; simpl; [reflexivity |].
  rewrite test_Alt, test_Cat_Void. reflexivity.
Qed.

(** A leading character class consumes exactly one character. *)
Lemma test_Cat_Chr (p : ascii -> bool) (r : regex) (s : string) :
  test (Cat (Chr p) r) s
  = match s with
    | EmptyString => false
    | String c s' => p c && test r s'
    end.
Proof.
  destruct s as [|c s]; simpl; [reflexivity |].
  destruct (p c); simpl; [apply test_Cat_Eps | apply test_Cat_Void].
Qed.

Lemma test_times (n : nat) (p : ascii -> bool) (s : string) :
  test (times n (Chr p)) s = Nat.eqb (String.length s) n && forallb p s.
Proof.
  revert s. induction n as [|n IH]; intros s.
  - simpl times. rewrite test_Eps. destruct s; reflexivity.
  - simpl times. rewrite test_Cat_Chr. destruct s as [|c s]; [reflexivity |].
    rewrite IH. simpl. destruct (p c), (Nat.eqb (String.length s) n); reflexivity.
Qed.

End RegexFacts.

(** ** utils/phoneUtils.js *)

Module PhoneFacts.
Import Chars Str Js Regex PhoneUtils StrFacts DecimalFacts RegexFacts.

Lemma test_phone_re (s : string) :
  test phone_re s = true <->
  exists c w, s = String c w /\ is_6_to_9 c = true
              /\ String.length w = 9%nat /\ forallb is_digit w = true.
Proof.
  unfold phone_re. rewrite test_Cat_Chr. destruct s as [|c w].
  - split; [discriminate | intros (? & ? & ? & _); discriminate].
  - rewrite test_times. split.
    + intros [Hc [Hl Hd]%andb_prop]%andb_prop. apply Nat.eqb_eq in Hl. eauto 6.
    + intros (c' & w' & E & Hc & Hl & Hd). injection E as <- <-.
      rewrite Hc, Hl, Hd. reflexivity.
Qed.

Lemma is_6_to_9_digit (c : ascii) :
  is_6_to_9 c = true <-> is_digit c = true /\ 6 <= digit_of c.
Proof.
  unfold is_6_to_9, is_digit, digit_of. split.
  - intros [H1 H2]%andb_prop. apply N.leb_le in H1, H2.
    split; [| lia]. apply andb_true_intro. split; apply N.leb_le; lia.
  - intros [[H1 H2]%andb_prop H3]. apply N.leb_le in H1, H2.
    apply andb_true_intro. split; apply N.leb_le; lia.
Qed.

(** The strings the pattern accepts are the decimal notations of the
    canonical numbers. *)
Lemma phone_re_canonical (s : string) :
  test phone_re s = true -> canonical (value s) /\ decimal (value s) = s.
Proof.
  intros (c & w & -> & Hc & Hl & Hd)%test_phone_re.
  apply is_6_to_9_digit in Hc as [Hc H6].
  pose proof (is_digit_range c Hc) as Hr. pose proof (value_bounds w Hd) as Hb.
  split.
  - unfold canonical. rewrite value_cons, Hl in *.
    change (pow10 9) with 1000000000 in *. lia.
  - apply decimal_value; [simpl; rewrite Hc, Hd; reflexivity | lia].
Qed.

Lemma canonical_phone_re (n : Z) :
  canonical n -> test phone_re (decimal n) = true.
Proof.
  intros [Hlo Hhi].
  destruct (decimal_spec n) as (Hd & Hv & _ & Hlead); [lia |].
  destruct Hlead as (c & w & E & Hc); [lia |]. rewrite E in *.
  simpl in Hd. apply andb_prop in Hd as [Hdc Hdw].
  pose proof (is_digit_range c Hdc) as Hr. pose proof (value_bounds w Hdw) as Hb.
  rewrite value_cons in Hv.
  assert (String.length w = 9%nat) as Hl.
  { destruct (Nat.lt_trichotomy (String.length w) 9) as [Hlt | [-> | Hgt]];
      [exfalso | reflexivity | exfalso].
    - assert (pow10 (S (String.length w)) <= pow10 9) as Hp
        by (unfold pow10; apply Z.pow_le_mono_r; lia).
      rewrite pow10_S in Hp. change (pow10 9) with 1000000000 in Hp. nia.
    - assert (pow10 10 <= pow10 (String.length w)) as Hp
        by (unfold pow10; apply Z.pow_le_mono_r; lia).
      change (pow10 10) with 10000000000 in Hp. nia. }
  apply test_phone_re. exists c, w. repeat split; auto.
  apply is_6_to_9_digit. split; [assumption |].
  rewrite Hl in *. change (pow10 9) with 1000000000 in *. lia.
Qed.

Lemma parseInt_cases (s : string) : parseInt s = VNaN \/ exists n, parseInt s = VNum n.
Proof.
  unfold parseInt.
  destruct (match trimStart s with
            | String "-" r => (true, r)
            | String "+" r => (false, r)
            | _ => (false, trimStart s)
            end) as [neg s2].
  destruct (match s2 with
            | String "0" (String "x" r) => (16, r)
            | String "0" (String "X" r) => (16, r)
            | _ => (10, s2)
            end) as [radix s3].
  destruct (take_digits radix s3); eauto.
Qed.

(** What the strict parser accepts, on every input. *)
Lemma convertPhoneToNumber_spec (phone r : val) :
  convertPhoneToNumber phone = Ok r <->
  exists n, r = VNum n /\ canonical n /\ reads_as phone n.
Proof.
  assert (forall n, (if negb (test phone_re (decimal n)) then Throw msg_invalid_indian
                     else Ok (VNum n)) = Ok r
                    -> 0 < n -> r = VNum n /\ canonical n) as Hfwd.
  { intros n H Hpos. destruct (test phone_re (decimal n)) eqn:E; [| discriminate].
    simpl in H. injection H as <-. split; [reflexivity |].
    destruct (decimal_spec n) as (_ & Hv & _); [lia |].
    apply phone_re_canonical in E as [Hc _]. rewrite Hv in Hc. exact Hc. }
  assert (forall n, canonical n ->
                    (if negb (test phone_re (decimal n)) then Throw msg_invalid_indian
                     else Ok (VNum n)) = Ok (VNum n)) as Hbwd.
  { intros n Hc. rewrite (canonical_phone_re n Hc). reflexivity. }
  unfold convertPhoneToNumber. split.
  - destruct phone as [| |[]|z| |s|a src|o]; simpl; try discriminate.
    + unfold isNaN, le_zero. simpl.
      destruct (Z.eqb_spec z 0) as [-> | Hz]; [discriminate |]. simpl.
      destruct (Z.leb_spec z 0) as [Hle | Hpos]; [discriminate |]. simpl.
      unfold number_toString. destruct (Z.ltb_spec z 0) as [Hneg | _]; [lia |].
      intros H. destruct (Hfwd z H Hpos) as [-> Hc].
      exists z. unfold reads_as. auto.
    + destruct (String.eqb s "") eqn:Es; [discriminate |]. simpl.
      destruct (parseInt_cases s) as [E | [n E]]; rewrite E; [discriminate |].
      unfold isNaN, le_zero. simpl.
      destruct (Z.leb_spec n 0) as [Hle | Hpos]; [discriminate |]. simpl.
      unfold number_toString. destruct (Z.ltb_spec n 0) as [Hneg | _]; [lia |].
      intros H. destruct (Hfwd n H Hpos) as [-> Hc].
      exists n. unfold reads_as. eauto 6.
  - intros (n & -> & Hc & [-> | (s & -> & E)]); pose proof Hc as [Hlo Hhi].
    + simpl. unfold isNaN, le_zero. simpl.
      destruct (Z.eqb_spec n 0) as [Hz | _]; [lia |]. simpl.
      destruct (Z.leb_spec n 0) as [Hle | _]; [lia |]. simpl.
      unfold number_toString. destruct (Z.ltb_spec n 0) as [Hneg | _]; [lia |]. auto.
    + simpl. destruct (String.eqb_spec s "") as [-> | Hs]; [discriminate E |].
      simpl. rewrite E. unfold isNaN, le_zero. simpl.
      destruct (Z.leb_spec n 0) as [Hle | _]; [lia |]. simpl.
      unfold number_toString. destruct (Z.ltb_spec n 0) as [Hneg | _]; [lia |]. auto.
Qed.

(** The promised direction of the contract: a string of ten digits
    starting with 6, 7, 8 or 9 is accepted and returned as its value. *)
Lemma convertPhoneToNumber_accepts (s : string) :
  test phone_re s = true ->
  convertPhoneToNumber (VStr s) = Ok (VNum (value s)) /\ 0 < value s.
Proof.
  intros H. pose proof (phone_re_canonical s H) as [Hc _].
  split; [| unfold canonical in Hc; lia].
  apply convertPhoneToNumber_spec. exists (value s). repeat split; try apply Hc.
  right. exists s. split; [reflexivity |].
  apply test_phone_re in H as (c & w & -> & Hc6 & _ & Hd).
  apply parseInt_digits; [discriminate |].
  apply is_6_to_9_digit in Hc6 as [Hdc _]. simpl. rewrite Hdc, Hd. reflexivity.
Qed.

Lemma safeConvertPhoneToNumber_spec (phone : val) :
  safeConvertPhoneToNumber phone
  = match convertPhoneToNumber phone with Ok n => n | Throw _ => VNull end.
Proof. reflexivity. Qed.

Lemma isValidPhoneNumber_spec (phone : val) :
  isValidPhoneNumber phone = true <-> exists n, convertPhoneToNumber phone = Ok n.
Proof.
  unfold isValidPhoneNumber. destruct (convertPhoneToNumber phone) as [n | m].
  - split; eauto.
  - split; [discriminate | intros [n H]; discriminate H].
Qed.

End PhoneFacts.

Module FormatFacts.
Import Chars Str Js Regex PhoneUtils StrFacts DecimalFacts RegexFacts PhoneFacts.

Lemma substring_prefix_split (n m : nat) (s : string) :
  substring 0 (n + m) s = substring 0 n s +:+ substring n m s.
Proof.
  revert s. induction n as [|n IH]; intros s.
  - destruct m, s; reflexivity.
  - destruct s as [|c s]; [reflexivity |].
    simpl. rewrite IH. reflexivity.
Qed.

Lemma substring_split (i n m : nat) (s : string) :
  substring i (n + m) s = substring i n s +:+ substring (i + n) m s.
Proof.
  revert s. induction i as [|i IH]; intros s.
  - apply substring_prefix_split.
  - destruct s as [|c s]; [reflexivity |]. simpl. apply IH.
Qed.

Lemma substring_all (s : string) : substring 0 (String.length s) s = s.
Proof.
  induction s as [|c s IH]; [reflexivity |]. simpl. rewrite IH. reflexivity.
Qed.

Lemma substring_length (i n : nat) (s : string) :
  (i + n <= String.length s)%nat -> String.length (substring i n s) = n.
Proof.
  revert n s. induction i as [|i IH]; intros n s.
  - revert s. induction n as [|n IHn]; intros [|c s]; simpl; try lia.
    intros H. rewrite IHn by (simpl; lia). reflexivity.
  - destruct s as [|c s]; simpl; [lia |]. intros H. apply IH. lia.
Qed.

(** A string of ten characters is shown as [(abc) def-ghij]. *)
Lemma format_string_10 (s : string) :
  String.length s = 10%nat ->
  exists a b c, s = a +:+ b +:+ c
    /\ String.length a = 3%nat /\ String.length b = 3%nat
    /\ String.length c = 4%nat
    /\ format_string s = "(" +:+ a +:+ ") " +:+ b +:+ "-" +:+ c.
Proof.
  intros H.
  do 10 (destruct s as [|? s]; [discriminate H |]).
  destruct s; [| discriminate H].
  eexists (String _ (String _ (String _ EmptyString))),
          (String _ (String _ (String _ EmptyString))),
          (String _ (String _ (String _ (String _ EmptyString)))).
  repeat split.
Qed.

(** Eleven characters starting with 1 are shown as [+1 (abc) def-ghij]. *)
Lemma format_string_11 (rest : string) :
  String.length rest = 10%nat ->
  exists a b c, rest = a +:+ b +:+ c
    /\ String.length a = 3%nat /\ String.length b = 3%nat
    /\ String.length c = 4%nat
    /\ format_string (String "1" rest)
       = "+1 (" +:+ a +:+ ") " +:+ b +:+ "-" +:+ c.
Proof.
  intros H.
  do 10 (destruct rest as [|? rest]; [discriminate H |]).
  destruct rest; [| discriminate H].
  eexists (String _ (String _ (String _ EmptyString))),
          (String _ (String _ (String _ EmptyString))),
          (String _ (String _ (String _ (String _ EmptyString)))).
  repeat split.
Qed.

(** Anything longer (and eleven characters not starting with 1) is shown
    as [+prefix abcd efghij], the last ten characters in two groups. *)
Lemma format_string_long (s : string) :
  (11 <= String.length s)%nat ->
  (String.length s = 11%nat -> startsWith s "1" = false) ->
  exists p a b, s = p +:+ a +:+ b
    /\ String.length p = (String.length s - 10)%nat
    /\ String.length a = 4%nat /\ String.length b = 6%nat
    /\ format_string s = "+" +:+ p +:+ " " +:+ a +:+ " " +:+ b.
Proof.
  intros Hlen H11.
  set (k := (String.length s - 10)%nat).
  exists (substring 0 k s), (substring k 4 s), (substring (k + 4) 6 s).
  split; [| split; [| split; [| split]]].
  - rewrite <- substring_split, <- substring_prefix_split.
    replace (k + (4 + 6))%nat with (String.length s) by lia.
    symmetry. apply substring_all.
  - apply substring_length. lia.
  - apply substring_length. lia.
  - apply substring_length. lia.
  - unfold format_string.
    destruct (Z.eqb_spec (Z.of_nat (String.length s)) 10) as [E | _]; [lia |].
    assert ((Z.of_nat (String.length s) =? 11) && startsWith s "1" = false) as ->.
    { destruct (Z.eqb_spec (Z.of_nat (String.length s)) 11) as [E | _];
        [apply H11; lia | reflexivity]. }
    destruct (Z.leb_spec 10 (Z.of_nat (String.length s))) as [_ | E]; [| lia].
    assert (forall a e i n,
               Z.to_nat (if a <? 0 then Z.max (Z.of_nat (String.length s) + a) 0
                         else Z.min a (Z.of_nat (String.length s))) = i ->
               Z.to_nat (Z.max (match e with
                                | Some e => if e <? 0
                                            then Z.max (Z.of_nat (String.length s) + e) 0
                                            else Z.min e (Z.of_nat (String.length s))
                                | None => Z.of_nat (String.length s)
                                end
                                - (if a <? 0 then Z.max (Z.of_nat (String.length s) + a) 0
                                   else Z.min a (Z.of_nat (String.length s)))) 0) = n ->
               slice s a e = substring i n s) as Hslice.
    { intros a e i n <- <-. reflexivity. }
    rewrite (Hslice 0 (Some (Z.of_nat (String.length s) - 10)) 0%nat k),
            (Hslice (-10) (Some (-6)) k 4%nat),
            (Hslice (-6) None (k + 4)%nat 6%nat);
      try reflexivity;
      repeat match goal with
             | |- context [if ?a <? ?b then _ else _] => destruct (Z.ltb_spec a b)
             end; lia.
Qed.

Lemma format_string_short (s : string) :
  (String.length s < 10)%nat -> format_string s = s.
Proof.
  intros H. unfold format_string.
  destruct (Z.eqb_spec (Z.of_nat (String.length s)) 10) as [E | _]; [lia |].
  destruct (Z.eqb_spec (Z.of_nat (String.length s)) 11) as [E | _]; [lia |].
  destruct (Z.leb_spec 10 (Z.of_nat (String.length s))) as [E | _]; [lia |].
  reflexivity.
Qed.

Lemma filter_app (p : ascii -> bool) (a b : string) :
  filter p (a +:+ b) = filter p a +:+ filter p b.
Proof.
  induction a as [|c a IH]; [reflexivity |].
  rewrite append_cons. simpl. rewrite IH. destruct (p c); reflexivity.
Qed.

Lemma filter_all (p : ascii -> bool) (s : string) :
  forallb p s = true -> filter p s = s.
Proof.
  induction s as [|c s IH]; simpl; [reflexivity |].
  intros [-> Hs]%andb_prop. rewrite IH by assumption. reflexivity.
Qed.

Lemma forallb_app (p : ascii -> bool) (a b : string) :
  forallb p (a +:+ b) = forallb p a && forallb p b.
Proof.
  induction a as [|c a IH]; [reflexivity |].
  rewrite append_cons. simpl. rewrite IH. destruct (p c); reflexivity.
Qed.

(** Stripping the punctuation of the national layout gives the digits
    back. *)
Lemma strip_format_10 (s : string) :
  String.length s = 10%nat -> forallb is_digit s = true ->
  filter is_digit (format_string s) = s.
Proof.
  intros Hl Hd. destruct (format_string_10 s Hl) as (a & b & c & E & _ & _ & _ & ->).
  rewrite E in Hd. rewrite !forallb_app in Hd.
  apply andb_prop in Hd as [Ha [Hb Hc]%andb_prop].
  rewrite !filter_app, (filter_all _ a Ha), (filter_all _ b Hb), (filter_all _ c Hc).
  rewrite E. reflexivity.
Qed.

Lemma decimal_length (n : Z) (k : nat) :
  pow10 k <= n < pow10 (S k) -> String.length (decimal n) = S k.
Proof.
  intros [Hlo Hhi]. pose proof (pow10_pos k) as Hk.
  destruct (decimal_spec n) as (Hd & Hv & _ & Hlead); [lia |].
  destruct Hlead as (c & w & E & Hc); [lia |]. rewrite E in *.
  simpl in Hd. apply andb_prop in Hd as [Hdc Hdw].
  pose proof (is_digit_range c Hdc) as Hr. pose proof (value_bounds w Hdw) as Hb.
  rewrite value_cons in Hv. simpl. f_equal.
  pose proof (pow10_pos (String.length w)) as Hw.
  destruct (Nat.lt_trichotomy (String.length w) k) as [Hlt | [-> | Hgt]];
    [exfalso | reflexivity | exfalso].
  - assert (pow10 (S (String.length w)) <= pow10 k) as Hp
      by (unfold pow10; apply Z.pow_le_mono_r; lia).
    rewrite pow10_S in Hp. nia.
  - assert (pow10 (S k) <= pow10 (String.length w)) as Hp
      by (unfold pow10; apply Z.pow_le_mono_r; lia).
    nia.
Qed.

End FormatFacts.

Module PhoneClaims.
Import Chars Str Js Regex PhoneUtils StrFacts DecimalFacts RegexFacts PhoneFacts
       FormatFacts.

(** C4.  The strict parser is meant to fail on every input that is not a
    string of ten digits starting with 6, 7, 8 or 9.  It does not: the
    shape test is applied to the number that [parseInt] read, so text
    after the digits, a leading zero, sign or blank, and a hexadecimal
    literal are accepted although the pattern rejects the input itself. *)
Theorem strict_parser_accepts_other_shapes :
  test phone_re "9876543210abc" = false
  /\ convertPhoneToNumber (VStr "9876543210abc") = Ok (VNum 9876543210)
  /\ convertPhoneToNumber (VStr "09876543210") = Ok (VNum 9876543210)
  /\ convertPhoneToNumber (VStr " +9876543210.75") = Ok (VNum 9876543210)
  /\ convertPhoneToNumber (VStr "0x24CB016EA") = Ok (VNum 9876543210)
  /\ safeConvertPhoneToNumber (VStr "9876543210abc") = VNum 9876543210
  /\ isValidPhoneNumber (VStr "9876543210abc") = true.
Proof. vm_compute. repeat split. Qed.

(** C9.  A number the strict parser returned survives being displayed and
    parsed back; the display has the national layout for ten characters,
    the country-coded layout for eleven characters starting with 1, the
    generic layout for anything longer, and is the input's own text
    otherwise.  The text of a number is its decimal notation for the
    whole numbers from 0 to below 2^53, which JavaScript prints digit by
    digit. *)
Theorem display_round_trip (phone : val) (n : Z) :
  convertPhoneToNumber phone = Ok (VNum n) ->
  (exists shown,
      formatPhoneForDisplay (VNum n) = Ok shown
      /\ parseFormattedPhone shown = Ok (VNum n)
      /\ exists a b c,
          decimal n = a +:+ b +:+ c
          /\ String.length a = 3%nat /\ String.length b = 3%nat
          /\ String.length c = 4%nat
          /\ shown = "(" +:+ a +:+ ") " +:+ b +:+ "-" +:+ c)
  /\ (forall s, formatPhoneForDisplay (VStr s) = Ok (format_string s))
  /\ (forall m, 0 <= m < 2 ^ 53 ->
        formatPhoneForDisplay (VNum m) = Ok (format_string (decimal m)))
  /\ (forall m k, pow10 k <= m < pow10 (S k) -> String.length (decimal m) = S k)
  /\ (forall s, String.length s = 10%nat ->
        exists a b c, s = a +:+ b +:+ c
          /\ String.length a = 3%nat /\ String.length b = 3%nat
          /\ String.length c = 4%nat
          /\ format_string s = "(" +:+ a +:+ ") " +:+ b +:+ "-" +:+ c)
  /\ (forall rest, String.length rest = 10%nat ->
        exists a b c, rest = a +:+ b +:+ c
          /\ String.length a = 3%nat /\ String.length b = 3%nat
          /\ String.length c = 4%nat
          /\ format_string (String "1" rest)
             = "+1 (" +:+ a +:+ ") " +:+ b +:+ "-" +:+ c)
  /\ (forall s, (11 <= String.length s)%nat ->
        (String.length s = 11%nat -> startsWith s "1" = false) ->
        exists p a b, s = p +:+ a +:+ b
          /\ String.length p = (String.length s - 10)%nat
          /\ String.length a = 4%nat /\ String.length b = 6%nat
          /\ format_string s = "+" +:+ p +:+ " " +:+ a +:+ " " +:+ b)
  /\ (forall s, (String.length s < 10)%nat -> format_string s = s).
Proof.
  intros Hok.
  assert (forall m, 0 <= m -> formatPhoneForDisplay (VNum m)
                              = Ok (format_string (decimal m))) as Hnum.
  { intros m Hm. simpl. unfold number_toString.
    destruct (Z.ltb_spec m 0) as [Hneg | _]; [lia | reflexivity]. }
  split; [| repeat split; auto using format_string_10, format_string_11,
                            format_string_long, format_string_short, decimal_length;
            intros m [Hm _]; apply Hnum, Hm].
  apply convertPhoneToNumber_spec in Hok as (n' & E & Hc & _).
  injection E as <-.
  pose proof (canonical_phone_re n Hc) as Hre.
  pose proof Hre as (c & w & Es & Hc6 & Hl & Hd)%test_phone_re.
  apply is_6_to_9_digit in Hc6 as [Hdc _].
  assert (String.length (decimal n) = 10%nat) as Hlen
    by (rewrite Es; simpl; rewrite Hl; reflexivity).
  assert (forallb is_digit (decimal n) = true) as Hdig
    by (rewrite Es; simpl; rewrite Hdc, Hd; reflexivity).
  exists (format_string (decimal n)). split; [apply Hnum; unfold canonical in Hc; lia |].
  split.
  - unfold parseFormattedPhone. rewrite (strip_format_10 _ Hlen Hdig).
    destruct (convertPhoneToNumber_accepts _ Hre) as [-> _].
    destruct (decimal_spec n) as (_ & -> & _); [unfold canonical in Hc; lia |].
    reflexivity.
  - destruct (format_string_10 _ Hlen) as (a & b & c' & H). exists a, b, c'. tauto.
Qed.

Lemma display_round_trip_witness :
  convertPhoneToNumber (VStr "9876543210") = Ok (VNum 9876543210)
  /\ formatPhoneForDisplay (VNum 9876543210) = Ok "(987) 654-3210"
  /\ exists shown,
      formatPhoneForDisplay (VNum 9876543210) = Ok shown
      /\ parseFormattedPhone shown = Ok (VNum 9876543210).
Proof.
  split; [reflexivity |]. split; [reflexivity |].
  destruct (display_round_trip (VStr "9876543210") 9876543210 eq_refl)
    as [(shown & H1 & H2 & _) _].
  exists shown. split; assumption.
Defined.

End PhoneClaims.

(** ** Storage predicates and ordering *)

Module SqlFacts.
Import Vocabulary.
Import Js.

Lemma holds_and3 (p q : option bool) :
  Sql.holds (Sql.and3 p q) = Sql.holds p && Sql.holds q.
Proof. destruct p as [[]|], q as [[]|]; reflexivity. Qed.

Lemma holds_or3 (p q : option bool) :
  Sql.holds (Sql.or3 p q) = Sql.holds p || Sql.holds q.
Proof. destruct p as [[]|], q as [[]|]; reflexivity. Qed.

(** Equality with a string is exact: same code units, same case. *)
Lemma holds_eq_str (a : val) (t : string) :
  Sql.holds (Sql.eq a (VStr t)) = true <-> a = VStr t.
Proof.
  destruct a as [| |b|z| |s|n src|o]; simpl; split; try discriminate.
  - destruct (String.eqb_spec s t) as [-> | Hne]; [reflexivity | discriminate].
  - intros [= ->]. rewrite String.eqb_refl. reflexivity.
Qed.

Lemma holds_eq_bool (a : val) (b : bool) :
  Sql.holds (Sql.eq a (VBool b)) = true <-> a = VBool b.
Proof.
  destruct a as [| |b'|z| |s|n src|o]; simpl; split; try discriminate.
  - destruct b, b'; simpl; congruence.
  - intros [= ->]. destruct b; reflexivity.
Qed.

Lemma holds_ge (a : val) (y : Z) :
  Sql.holds (Sql.ge a (VNum y)) = true <-> exists x, a = VNum x /\ y <= x.
Proof.
  destruct a as [| |b|z| |s|n src|o]; simpl; split;
    try discriminate; try (intros (x & E & _); discriminate E).
  - destruct (Z.leb_spec y z) as [Hle | Hgt]; [eauto | discriminate].
  - intros (x & [= <-] & H). destruct (Z.leb_spec y z) as [Hle | Hgt]; [reflexivity | lia].
Qed.

Lemma insert_desc_perm (key : string) (r : obj) (l : list obj) :
  Permutation (Sql.insert_desc key r l) (r :: l).
Proof.
  induction l as [|r' l IH]; simpl; [reflexivity |].
  destruct (Sql.before_desc (get r key) (get r' key)); [reflexivity |].
  rewrite IH. apply perm_swap.
Qed.

(** ORDER BY only rearranges the rows. *)
Lemma order_by_desc_perm (key : string) (t : list obj) :
  Permutation (Sql.order_by_desc key t) t.
Proof.
  unfold Sql.order_by_desc. induction t as [|r t IH]; simpl; [reflexivity |].
  rewrite insert_desc_perm, IH. reflexivity.
Qed.

Lemma in_order_by_desc (key : string) (t : list obj) (r : obj) :
  In r (Sql.order_by_desc key t) <-> In r t.
Proof.
  split; apply Permutation_in; [| symmetry]; apply order_by_desc_perm.
Qed.

End SqlFacts.

(** ** models/userModelRaw.js: the two formatters and the subscriber lookup *)

Module UserFacts.
Import Vocabulary.
Import Js UserModel SqlFacts.

Lemma subscribed_spec (t : string) (u : obj) :
  subscribed (VStr t) u = true <->
  get u "role" = VStr "Job Seeker"
  /\ (get u "first_niche" = VStr t \/ get u "second_niche" = VStr t
      \/ get u "third_niche" = VStr t).
Proof.
  unfold subscribed. rewrite holds_and3, !holds_or3, andb_true_iff, !orb_true_iff.
  rewrite !holds_eq_str. tauto.
Qed.

Lemma formatUser_password (user : obj) :
  formatUser user !! "password" = Some (get user "password").
Proof. reflexivity. Qed.

Lemma formatUserResponse_password (user : obj) :
  formatUserResponse user !! "password" = None.
Proof. unfold formatUserResponse. apply lookup_delete_eq. Qed.

Lemma formatUserResponse_other (user : obj) (k : string) :
  k <> "password" -> formatUserResponse user !! k = formatUser user !! k.
Proof. intros H. unfold formatUserResponse. apply lookup_delete_ne. congruence. Qed.

(** C7.  The response-facing formatter returns the authentication-facing
    object without its [password] property and with every other property
    as it is; the subscriber lookup returns response-facing objects. *)
Theorem password_only_on_authentication_path (user : obj) :
  formatUserResponse user !! "password" = None
  /\ formatUser user !! "password" = Some (get user "password")
  /\ formatUserResponse user = delete "password" (formatUser user)
  /\ (forall k, k <> "password" ->
        formatUserResponse user !! k = formatUser user !! k)
  /\ (forall users jobNiche o,
        In o (findByJobNiche users jobNiche) ->
        o !! "password" = None
        /\ exists u, In u users /\ o = formatUserResponse u).
Proof.
  split; [apply formatUserResponse_password |].
  split; [apply formatUser_password |].
  split; [reflexivity |].
  split; [intros k; apply formatUserResponse_other |].
  intros users jobNiche o Ho. unfold findByJobNiche in Ho.
  apply in_map_iff in Ho as (u & <- & Hu).
  apply in_order_by_desc, filter_In in Hu as [Hu _].
  split; [apply formatUserResponse_password | eauto].
Qed.

(** C8.  The subscriber lookup returns exactly the job seekers one of
    whose three niches is the tag itself. *)
Theorem findByJobNiche_exact (users : Sql.table) (t : string) :
  (forall o,
      In o (findByJobNiche users (VStr t)) <->
      exists u, In u users /\ o = formatUserResponse u
                /\ get u "role" = VStr "Job Seeker"
                /\ (get u "first_niche" = VStr t \/ get u "second_niche" = VStr t
                    \/ get u "third_niche" = VStr t))
  /\ Permutation (findByJobNiche users (VStr t))
       (List.map formatUserResponse (List.filter (subscribed (VStr t)) users))
  /\ (forall u,
        subscribed (VStr t) u = true <->
        get u "role" = VStr "Job Seeker"
        /\ (get u "first_niche" = VStr t \/ get u "second_niche" = VStr t
            \/ get u "third_niche" = VStr t)).
Proof.
  split; [| split].
  - intros o. unfold findByJobNiche. rewrite in_map_iff. split.
    + intros (u & <- & Hu). apply in_order_by_desc, filter_In in Hu as [Hu Hs].
      apply subscribed_spec in Hs. exists u. tauto.
    + intros (u & Hu & -> & Hr & Hn). exists u. split; [reflexivity |].
      apply in_order_by_desc, filter_In. split; [assumption |].
      apply subscribed_spec. tauto.
  - unfold findByJobNiche. apply Permutation_map, order_by_desc_perm.
  - intros u. apply subscribed_spec.
Qed.

End UserFacts.

(** ** models/applicationModel.js: duplicate check and soft deletion *)

Module ApplicationFacts.
Import Vocabulary.
Import Js ApplicationModel SqlFacts.

Lemma active_for_spec (s j : string) (a : obj) :
  active_for (VStr s) (VStr j) a = true <-> active s j a.
Proof.
  unfold active_for, active.
  rewrite !holds_and3, !andb_true_iff, !holds_eq_str, !holds_eq_bool. tauto.
Qed.

Lemma first_row_filter_Some {A} (format : obj -> A) (p : obj -> bool)
    (t : list obj) (x : A) :
  first_row format (List.filter p t) = Some x <->
  exists pre a post, t = pre ++ a :: post /\ p a = true
                     /\ (forall b, In b pre -> p b = false) /\ x = format a.
Proof.
  induction t as [|r t IH]; simpl.
  - split; [discriminate | intros ([|? ?] & ? & ? & E & _); discriminate E].
  - destruct (p r) eqn:Hr; simpl.
    + split.
      * intros [= <-]. exists [], r, t. repeat split; auto. intros b [].
      * intros ([|r' pre] & a & post & E & Ha & Hpre & ->).
        -- injection E as -> ->. reflexivity.
        -- injection E as -> ->. rewrite (Hpre r') in Hr by (left; reflexivity).
           discriminate.
    + rewrite IH. split.
      * intros (pre & a & post & -> & Ha & Hpre & ->).
        exists (r :: pre), a, post. repeat split; auto.
        intros b [<- | Hb]; auto.
      * intros ([|r' pre] & a & post & E & Ha & Hpre & ->).
        -- injection E as -> ->. congruence.
        -- injection E as -> ->. exists pre, a, post. repeat split; auto.
           intros b Hb. apply Hpre. right. assumption.
Qed.

Lemma first_row_filter_None {A} (format : obj -> A) (p : obj -> bool)
    (t : list obj) :
  first_row format (List.filter p t) = None <-> forall a, In a t -> p a = false.
Proof.
  induction t as [|r t IH]; simpl.
  - split; [intros _ a [] | reflexivity].
  - destruct (p r) eqn:Hr; simpl.
    + split; [discriminate |]. intros H. rewrite (H r) in Hr by (left; reflexivity).
      discriminate.
    + rewrite IH. split.
      * intros H a [<- | Ha]; auto.
      * intros H a Ha. apply H. right. assumption.
Qed.

(** C3.  For a job seeker id and a job id in the canonical spelling of a
    uuid, [findExisting] returns the first stored application of the pair
    on which both deletion flags are false, and nothing when every
    application of the pair has a flag that is not false; in particular
    it returns nothing once either flag is true on each of them. *)
Theorem findExisting_active_only (applications : Sql.table) (s j : string) :
  canonical_uuid s = true -> canonical_uuid j = true ->
  (forall o,
      findExisting applications (VStr s) (VStr j) = Some o <->
      exists pre a post,
        applications = pre ++ a :: post /\ active s j a
        /\ (forall b, In b pre -> ~ active s j b)
        /\ o = formatApplication a)
  /\ (findExisting applications (VStr s) (VStr j) = None <->
      forall a, In a applications -> ~ active s j a)
  /\ ((forall a, In a applications ->
         get a "job_seeker_user_id" = VStr s -> get a "job_id" = VStr j ->
         get a "deleted_by_job_seeker" = VBool true
         \/ get a "deleted_by_employer" = VBool true) ->
      findExisting applications (VStr s) (VStr j) = None)
  /\ (forall a,
        (forall b, In b applications ->
           get b "job_seeker_user_id" = VStr s -> get b "job_id" = VStr j -> b = a) ->
        In a applications ->
        get a "job_seeker_user_id" = VStr s -> get a "job_id" = VStr j ->
        (findExisting applications (VStr s) (VStr j) = Some (formatApplication a) <->
         get a "deleted_by_job_seeker" = VBool false
         /\ get a "deleted_by_employer" = VBool false)).
Proof.
  intros _ _.
  assert (forall a, active_for (VStr s) (VStr j) a = false <-> ~ active s j a) as Hneg.
  { intros a. rewrite <- active_for_spec. destruct (active_for _ _ a); split; congruence. }
  assert (findExisting applications (VStr s) (VStr j) = None <->
          forall a, In a applications -> ~ active s j a) as HNone.
  { unfold findExisting. rewrite first_row_filter_None.
    split; intros H a Ha; apply Hneg, H, Ha. }
  assert (forall o,
      findExisting applications (VStr s) (VStr j) = Some o <->
      exists pre a post,
        applications = pre ++ a :: post /\ active s j a
        /\ (forall b, In b pre -> ~ active s j b)
        /\ o = formatApplication a) as HSome.
  { intros o. unfold findExisting. rewrite first_row_filter_Some. split.
    - intros (pre & a & post & E & Ha & Hpre & ->). exists pre, a, post.
      split; [assumption |]. split; [apply active_for_spec, Ha |].
      split; [| reflexivity]. intros b Hb. apply Hneg, Hpre, Hb.
    - intros (pre & a & post & E & Ha & Hpre & ->). exists pre, a, post.
      split; [assumption |]. split; [apply active_for_spec, Ha |].
      split; [| reflexivity]. intros b Hb. apply Hneg, Hpre, Hb. }
  split; [exact HSome |]. split; [exact HNone |]. split.
  - intros H. apply HNone. intros a Ha (Hs & Hj & Hd1 & Hd2).
    destruct (H a Ha Hs Hj) as [E | E]; congruence.
  - intros a Huniq Ha Hs Hj. split.
    + intros (pre & a' & post & E & Hact & _ & _)%HSome.
      assert (a' = a) as ->.
      { apply Huniq; [rewrite E; apply in_elt | apply Hact | apply Hact]. }
      split; apply Hact.
    + intros [Hd1 Hd2].
      assert (findExisting applications (VStr s) (VStr j) = None
              \/ exists o, findExisting applications (VStr s) (VStr j) = Some o)
        as [E | [o E]] by (destruct (findExisting _ _ _); eauto).
      * exfalso. apply (proj1 HNone E a Ha). unfold active. tauto.
      * rewrite E. destruct (proj1 (HSome o) E) as (pre & a' & post & E' & Hact & _ & ->).
        assert (a' = a) as ->.
        { apply Huniq; [rewrite E'; apply in_elt | apply Hact | apply Hact]. }
        reflexivity.
Qed.

(** The theorem for the one application of a job seeker to a job. *)
Lemma findExisting_active_only_witness :
  canonical_uuid seeker_id = true /\ canonical_uuid job_id = true
  /\ findExisting [stored_application] (VStr seeker_id) (VStr job_id)
     = Some (formatApplication stored_application).
Proof.
  split; [reflexivity |]. split; [reflexivity |].
  destruct (findExisting_active_only [stored_application] seeker_id job_id
              eq_refl eq_refl) as (_ & _ & _ & H).
  apply (H stored_application).
  - intros b [<- | []] _ _. reflexivity.
  - left. reflexivity.
  - reflexivity.
  - reflexivity.
  - split; reflexivity.
Defined.

Lemma soft_delete_spec (flag owner_column : string) (now : Z)
    (applications : Sql.table) (id owner : string) :
  flag <> "updated_at" ->
  let '(result, applications') :=
    soft_delete flag owner_column now applications (VStr id) (VStr owner) in
  let mine (a : obj) : Prop :=
    get a "id" = VStr id /\ get a owner_column = VStr owner in
  Forall2 (fun a a' => (mine a -> marked flag now a a') /\ (~ mine a -> a' = a))
    applications applications'
  /\ ((forall a, In a applications -> ~ mine a) ->
      result = None /\ applications' = applications)
  /\ (forall o, result = Some o ->
        exists a a', In a applications /\ mine a /\ marked flag now a a'
                     /\ In a' applications' /\ o = formatApplication a').
Proof.
  intros Hflag. unfold soft_delete.
  set (mark := fun a : obj => <["updated_at" := VNum now]> (<[flag := VBool true]> a)).
  assert (forall a, owned_by owner_column (VStr id) (VStr owner) a = true <->
                    get a "id" = VStr id /\ get a owner_column = VStr owner) as Hown.
  { intros a. unfold owned_by. rewrite holds_and3, andb_true_iff, !holds_eq_str. tauto. }
  assert (forall a, marked flag now a (mark a)) as Hmark.
  { intros a. unfold marked, mark. repeat split.
    - rewrite lookup_insert_ne by congruence. apply lookup_insert_eq.
    - apply lookup_insert_eq.
    - intros k Hk1 Hk2. rewrite !lookup_insert_ne by congruence. reflexivity. }
  split; [| split].
  - induction applications as [|a t IH]; simpl; constructor; auto.
    destruct (owned_by owner_column (VStr id) (VStr owner) a) eqn:E.
    + split; [intros _; apply Hmark | intros H; exfalso; apply H, Hown, E].
    + split; [| reflexivity]. intros H%Hown. congruence.
  - intros Hnone.
    assert (forall a, In a applications ->
              owned_by owner_column (VStr id) (VStr owner) a = false) as Hf.
    { intros a Ha. destruct (owned_by owner_column (VStr id) (VStr owner) a) eqn:E;
        [| reflexivity]. exfalso. apply (Hnone a Ha), Hown, E. }
    split.
    + clear Hnone. induction applications as [|a t IH]; simpl; [reflexivity |].
      rewrite (Hf a) by (left; reflexivity). apply IH.
      intros b Hb. apply Hf. right. assumption.
    + clear Hnone. induction applications as [|a t IH]; simpl; [reflexivity |].
      rewrite (Hf a) by (left; reflexivity). f_equal. apply IH.
      intros b Hb. apply Hf. right. assumption.
  - intros o Ho.
    destruct (List.filter (owned_by owner_column (VStr id) (VStr owner)) applications)
      as [|a rest] eqn:E; [discriminate Ho |].
    simpl in Ho. injection Ho as <-.
    assert (In a applications /\ owned_by owner_column (VStr id) (VStr owner) a = true)
      as [Ha Hoa].
    { apply filter_In. rewrite E. left. reflexivity. }
    exists a, (mark a). repeat split; try apply Hown, Hoa; try apply Hmark; auto.
    apply in_map_iff. exists a. rewrite Hoa. auto.
Qed.

(** C10.  For an application id and a user id in the canonical spelling
    of a uuid: a soft deletion by the job seeker sets
    [deleted_by_job_seeker] and the update time on the rows with the
    given id that belong to the given job seeker, and changes nothing
    else; without such a row it returns nothing and the table is as
    before.  The employer's deletion does the same with
    [deleted_by_employer] and [employer_user_id]. *)
Theorem soft_delete_frame (now : Z) (applications : Sql.table) (a u : string) :
  canonical_uuid a = true -> canonical_uuid u = true ->
  (let '(result, applications') :=
     deleteByJobSeeker now applications (VStr a) (VStr u) in
   let mine (r : obj) : Prop :=
     get r "id" = VStr a /\ get r "job_seeker_user_id" = VStr u in
   Forall2 (fun r r' => (mine r -> marked "deleted_by_job_seeker" now r r')
                        /\ (~ mine r -> r' = r))
     applications applications'
   /\ ((forall r, In r applications -> ~ mine r) ->
       result = None /\ applications' = applications)
   /\ (forall o, result = Some o ->
         exists r r', In r applications /\ mine r
                      /\ marked "deleted_by_job_seeker" now r r'
                      /\ In r' applications' /\ o = formatApplication r'))
  /\ (let '(result, applications') :=
        deleteByEmployer now applications (VStr a) (VStr u) in
      let mine (r : obj) : Prop :=
        get r "id" = VStr a /\ get r "employer_user_id" = VStr u in
      Forall2 (fun r r' => (mine r -> marked "deleted_by_employer" now r r')
                           /\ (~ mine r -> r' = r))
        applications applications'
      /\ ((forall r, In r applications -> ~ mine r) ->
          result = None /\ applications' = applications)
      /\ (forall o, result = Some o ->
            exists r r', In r applications /\ mine r
                         /\ marked "deleted_by_employer" now r r'
                         /\ In r' applications' /\ o = formatApplication r')).
Proof.
  intros _ _. split.
  - apply (soft_delete_spec "deleted_by_job_seeker" "job_seeker_user_id").
    discriminate.
  - apply (soft_delete_spec "deleted_by_employer" "employer_user_id").
    discriminate.
Qed.

(** The theorem for the job seeker who deletes the one application sent:
    the flag of the job seeker is set, the flag of the employer is not. *)
Lemma soft_delete_frame_witness :
  canonical_uuid application_id = true /\ canonical_uuid seeker_id = true
  /\ exists r',
       (deleteByJobSeeker 60 [stored_application] (VStr application_id)
          (VStr seeker_id)).2 = [r']
       /\ marked "deleted_by_job_seeker" 60 stored_application r'.
Proof.
  split; [reflexivity |]. split; [reflexivity |].
  pose proof (soft_delete_frame 60 [stored_application] application_id seeker_id
                eq_refl eq_refl) as [H _].
  destruct (deleteByJobSeeker 60 [stored_application] (VStr application_id)
              (VStr seeker_id)) as [result applications'].
  cbn beta iota zeta in H. destruct H as (H & _).
  inversion H as [|r r' t t' [Hmine _] Hrest]; subst.
  inversion Hrest; subst.
  exists r'. split; [reflexivity |]. apply Hmine. split; reflexivity.
Defined.

End ApplicationFacts.

(** ** models/jobModelRaw.js: the newsletter candidates *)

Module JobFacts.
Import Vocabulary.
Import Js JobModel SqlFacts.

Lemma newsletter_due_spec (now : Z) (j : obj) :
  newsletter_due now j = true <-> due now j.
Proof.
  unfold newsletter_due, due.
  change (24 * 3600 * 10 ^ 6) with Sql.hours_24.
  rewrite holds_and3, andb_true_iff, holds_eq_bool, holds_ge. tauto.
Qed.

Lemma get_with_poster (j u : obj) (k : string) :
  k <> "poster_name" -> k <> "poster_email" ->
  get (with_poster j u) k = get j k.
Proof.
  intros H1 H2. unfold get, with_poster.
  rewrite !lookup_insert_ne by congruence. reflexivity.
Qed.

Lemma due_with_poster (now : Z) (j u : obj) :
  due now (with_poster j u) <-> due now j.
Proof. unfold due. rewrite !get_with_poster by discriminate. tauto. Qed.

Lemma formatJobWithPoster_fields (row : obj) :
  formatJobWithPoster row !! "newsLettersSent" = Some (get row "newsletters_sent")
  /\ formatJobWithPoster row !! "createdAt" = Some (get row "created_at")
  /\ formatJobWithPoster row !! "id" = Some (get row "id")
  /\ formatJobWithPoster row !! "jobNiche" = Some (get row "job_niche")
  /\ formatJobWithPoster row !! "title" = Some (get row "title").
Proof.
  unfold formatJobWithPoster. destruct (truthy (get row "poster_name"));
    repeat split; reflexivity.
Qed.

(** What a formatted candidate says about the row it came from. *)
Lemma due_formatted (now : Z) (j j' u u' : obj) :
  formatJobWithPoster (with_poster j u) = formatJobWithPoster (with_poster j' u') ->
  due now j' -> due now j.
Proof.
  intros E.
  pose proof (formatJobWithPoster_fields (with_poster j u)) as (H1 & H2 & _).
  pose proof (formatJobWithPoster_fields (with_poster j' u')) as (H1' & H2' & _).
  rewrite E in H1, H2. rewrite H1' in H1. rewrite H2' in H2.
  injection H1 as H1. injection H2 as H2.
  rewrite !get_with_poster in H1, H2 by discriminate.
  unfold due. rewrite <- H1, <- H2. tauto.
Qed.

Lemma in_getJobsForNewsletter (now : Z) (users jobs : Sql.table) (o : obj) :
  In o (getJobsForNewsletter now users jobs) <->
  exists j u, In j jobs /\ In u users /\ posted j u /\ due now j
              /\ o = formatJobWithPoster (with_poster j u).
Proof.
  unfold getJobsForNewsletter. rewrite in_map_iff. split.
  - intros (row & <- & Hrow).
    apply in_order_by_desc, filter_In in Hrow as [Hrow Hdue].
    apply in_concat in Hrow as (rows & Hrows & Hrow).
    apply in_map_iff in Hrows as (j & <- & Hj).
    unfold join_posters in Hrow.
    apply in_map_iff in Hrow as (u & <- & Hu).
    apply filter_In in Hu as [Hu Hp].
    exists j, u. repeat split; auto.
    + apply newsletter_due_spec, due_with_poster in Hdue. apply Hdue.
    + apply newsletter_due_spec, due_with_poster in Hdue. apply Hdue.
  - intros (j & u & Hj & Hu & Hp & Hdue & ->).
    exists (with_poster j u). split; [reflexivity |].
    apply in_order_by_desc, filter_In. split.
    + apply in_concat. exists (join_posters users j). split.
      * apply in_map_iff. eauto.
      * unfold join_posters. apply in_map_iff. exists u. split; [reflexivity |].
        apply filter_In. auto.
    + apply newsletter_due_spec, due_with_poster, Hdue.
Qed.

Lemma newsletter_due_with_poster (now : Z) (j u : obj) :
  newsletter_due now (with_poster j u) = newsletter_due now j.
Proof.
  unfold newsletter_due. rewrite !get_with_poster by discriminate. reflexivity.
Qed.

Lemma owners_posted (users : Sql.table) (j u : obj) :
  In u (owners users j) <-> In u users /\ posted j u.
Proof. unfold owners, posted. apply filter_In. Qed.

(** With one owner per posting the join neither drops nor repeats a
    posting. *)
Lemma count_candidates (now : Z) (users jobs : Sql.table) :
  (forall j, In j jobs -> exists u, owners users j = [u]) ->
  List.length (getJobsForNewsletter now users jobs)
  = List.length (List.filter (newsletter_due now) jobs).
Proof.
  intros Hone. unfold getJobsForNewsletter.
  rewrite List.length_map, (Permutation_length (order_by_desc_perm _ _)).
  induction jobs as [|j jobs IH]; [reflexivity |].
  simpl. rewrite List.filter_app, List.length_app, IH
    by (intros j' Hj'; apply Hone; right; assumption).
  destruct (Hone j) as (u & Hu); [left; reflexivity |].
  unfold join_posters. fold (owners users j). rewrite Hu. simpl.
  rewrite newsletter_due_with_poster.
  destruct (newsletter_due now j); reflexivity.
Qed.

(** C2.  In a database where every posting has exactly one owning user
    row (the key of [users] and the reference of [posted_by]), the
    candidate query returns the postings whose flag is false and whose
    creation time is not more than 24 hours before the query, each once,
    and only those; a posting created more than 24 hours before a query is
    returned neither by it nor by any later query, whatever the tables
    then hold. *)
Theorem newsletter_candidates (now : Z) (users jobs : Sql.table) :
  (forall j, In j jobs -> exists u, owners users j = [u]) ->
  (forall o,
      In o (getJobsForNewsletter now users jobs) <->
      exists j u, In j jobs /\ In u users /\ posted j u /\ due now j
                  /\ o = formatJobWithPoster (with_poster j u))
  /\ (forall j,
        In j jobs ->
        (due now j <->
         exists u, In u users /\ posted j u
                   /\ In (formatJobWithPoster (with_poster j u))
                        (getJobsForNewsletter now users jobs)))
  /\ List.length (getJobsForNewsletter now users jobs)
     = List.length (List.filter (newsletter_due now) jobs)
  /\ (forall j, newsletter_due now j = true <-> due now j)
  /\ (forall j t,
        get j "created_at" = VNum t -> t < now - 24 * 3600 * 10 ^ 6 ->
        forall now' users' jobs' u,
          now <= now' ->
          ~ In (formatJobWithPoster (with_poster j u))
               (getJobsForNewsletter now' users' jobs')).
Proof.
  intros Hone.
  assert (forall j, In j jobs -> exists u, In u users /\ posted j u) as Hfk.
  { intros j Hj. destruct (Hone j Hj) as (u & Hu). exists u.
    apply owners_posted. rewrite Hu. left. reflexivity. }
  split; [intros o; apply in_getJobsForNewsletter |]. split; [| split; [| split]].
  - intros j Hj. split.
    + intros Hdue. destruct (Hfk j Hj) as (u & Hu & Hp). exists u.
      repeat split; auto. apply in_getJobsForNewsletter. exists j, u. auto.
    + intros (u & Hu & Hp & Hin).
      apply in_getJobsForNewsletter in Hin as (j' & u' & _ & _ & _ & Hdue & E).
      exact (due_formatted now j j' u u' E Hdue).
  - apply count_candidates, Hone.
  - intros j. apply newsletter_due_spec.
  - intros j t Ht Hold now' users' jobs' u Hlater Hin.
    apply in_getJobsForNewsletter in Hin as (j' & u' & _ & _ & _ & Hdue & E).
    apply (due_formatted now' j j' u u' E) in Hdue as (_ & t' & Ht' & Hwin).
    rewrite Ht in Ht'. injection Ht' as <-.
    change (24 * 3600 * 10 ^ 6) with 86400000000 in *. lia.
Qed.

(** The theorem at a table with one posting and its employer. *)
Lemma newsletter_candidates_witness :
  (forall j, In j [stored_job] -> exists u, owners [stored_employer] j = [u])
  /\ (due 1000 stored_job <->
      exists u, In u [stored_employer] /\ posted stored_job u
                /\ In (formatJobWithPoster (with_poster stored_job u))
                     (getJobsForNewsletter 1000 [stored_employer] [stored_job])).
Proof.
  assert (forall j, In j [stored_job] -> exists u, owners [stored_employer] j = [u])
    as Hone.
  { intros j [<- | []]. exists stored_employer. reflexivity. }
  split; [exact Hone |].
  destruct (newsletter_candidates 1000 [stored_employer] [stored_job] Hone)
    as (_ & H & _).
  apply H. left. reflexivity.
Defined.

End JobFacts.

(** ** The three [updateById]: building and running the UPDATE *)

Module UpdateFacts.
Import Vocabulary.
Import Js SqlFacts.

Lemma extend_nil (b : set_builder) : extend b [] = b.
Proof.
  destruct b as [f v p]. unfold extend. simpl.
  rewrite !app_nil_r, Nat.add_0_r. reflexivity.
Qed.

Lemma extend_cons (f : list Sql.set_item) (v : list val) (p : nat)
    (c : string) (x : val) (l : list (string * val)) :
  extend (SetBuilder (f ++ [(c, p)]) (v ++ [x]) (S p)) l
  = extend (SetBuilder f v p) ((c, x) :: l).
Proof.
  unfold extend. simpl. rewrite <- !app_assoc. simpl.
  rewrite Nat.add_succ_r. reflexivity.
Qed.

Lemma present_nil_iff (d : list (string * val)) :
  present d = [] <-> forall k v, In (k, v) d -> v = VUndef.
Proof.
  unfold present. induction d as [|[k v] d IH]; simpl.
  - split; [intros _ k v [] | reflexivity].
  - destruct v; simpl; try (split; [discriminate | intros H;
      discriminate (H k _ (or_introl eq_refl))]).
    rewrite IH. split.
    + intros H k' v' [[= <- <-] | Hin]; eauto.
    + intros H k' v' Hin. apply (H k' v'). right. assumption.
Qed.

Lemma in_present (d : list (string * val)) (k : string) (v : val) :
  In (k, v) (present d) <-> In (k, v) d /\ v <> VUndef.
Proof.
  unfold present. rewrite filter_In. simpl.
  destruct v; simpl; split; intros [H1 H2]; split; auto; congruence.
Qed.

(** Running the numbered SET items against the collected values is
    putting each value in its column. *)
Lemma foldl_assign (l : list (string * val)) :
  forall (vals rest : list val) (r : obj),
    foldl (Sql.assign (vals ++ List.map snd l ++ rest)) r
      (combine (List.map fst l) (seq (S (List.length vals)) (List.length l)))
    = foldl put r l.
Proof.
  induction l as [|[c x] l IH]; intros vals rest r; [reflexivity |].
  simpl. unfold Sql.assign at 2. simpl.
  rewrite list_lookup_middle by reflexivity. simpl.
  specialize (IH (vals ++ [x]) rest (<[c := x]> r)).
  rewrite <- app_assoc in IH. simpl in IH.
  rewrite length_app in IH. simpl in IH. rewrite Nat.add_1_r in IH.
  exact IH.
Qed.

Lemma apply_set_extend (now : Z) (l : list (string * val)) (id : val) (r : obj) :
  let b := extend (SetBuilder [] [] 1) l in
  Sql.apply_set now (fields b) (values b ++ [id]) r = rewritten now l r
  /\ Sql.param (values b ++ [id]) (paramCount b) = id.
Proof.
  simpl. split.
  - unfold Sql.apply_set, rewritten. f_equal.
    apply (foldl_assign l [] [id] r).
  - rewrite list_lookup_middle by (rewrite length_map; reflexivity). reflexivity.
Qed.

Lemma mem_In (x : string) (l : list string) : Sql.mem x l = true <-> In x l.
Proof.
  unfold Sql.mem. rewrite existsb_exists. split.
  - intros (y & Hy & E). apply String.eqb_eq in E. congruence.
  - intros H. exists x. split; [assumption | apply String.eqb_refl].
Qed.

Lemma first_unknown_None (columns assigned : list string) :
  Sql.first_unknown columns assigned = None <->
  forall c, In c assigned -> In c columns.
Proof.
  induction assigned as [|c l IH]; simpl.
  - split; [intros _ c [] | reflexivity].
  - destruct (Sql.mem c columns) eqn:E.
    + rewrite IH. apply mem_In in E. split.
      * intros H c' [<- | Hc']; auto.
      * intros H c' Hc'. apply H. right. assumption.
    + split; [discriminate |]. intros H.
      assert (Sql.mem c columns = true) by (apply mem_In, H; left; reflexivity).
      congruence.
Qed.

Lemma first_repeated_None (assigned : list string) :
  Sql.first_repeated assigned = None <-> List.NoDup assigned.
Proof.
  induction assigned as [|c l IH]; simpl.
  - split; [constructor | reflexivity].
  - destruct (Sql.mem c l) eqn:E.
    + split; [discriminate |]. intros H. inversion H as [|? ? Hnotin _]; subst.
      apply mem_In in E. contradiction.
    + rewrite IH. split.
      * intros H. constructor; [| assumption].
        intros Hin%mem_In. congruence.
      * intros H. inversion H; assumption.
Qed.

(** The server accepts a SET list of known columns without repetition. *)
Lemma check_set_Ok (relation : string) (columns assigned : list string) :
  Sql.check_set relation columns assigned = Ok tt <->
  (forall c, In c assigned -> In c columns) /\ List.NoDup assigned.
Proof.
  unfold Sql.check_set. rewrite <- first_unknown_None, <- first_repeated_None.
  destruct (Sql.first_unknown columns assigned), (Sql.first_repeated assigned);
    split; try discriminate; try tauto; intros [? ?]; discriminate.
Qed.

Lemma foldl_put_notin (l : list (string * val)) (r : obj) (k : string) :
  ~ In k (List.map fst l) -> foldl put r l !! k = r !! k.
Proof.
  revert r. induction l as [|[c x] l IH]; intros r Hk; [reflexivity |].
  simpl in *. rewrite IH by tauto. unfold put. simpl.
  apply lookup_insert_ne. intros ->. tauto.
Qed.

Lemma foldl_put_in (l : list (string * val)) (r : obj) (c : string) (x : val) :
  List.NoDup (List.map fst l) -> In (c, x) l -> foldl put r l !! c = Some x.
Proof.
  revert r. induction l as [|[c' x'] l IH]; intros r Hnd Hin; [destruct Hin |].
  simpl in *. inversion Hnd as [|? ? Hnotin Hnd']; subst.
  destruct Hin as [[= -> ->] | Hin].
  - rewrite foldl_put_notin by assumption. unfold put. simpl.
    apply lookup_insert_eq.
  - apply IH; assumption.
Qed.

Lemma rewritten_updated (now : Z) (l : list (string * val)) (r : obj) :
  List.NoDup (List.map fst l ++ ["updated_at"]) ->
  row_updated now l r (rewritten now l r).
Proof.
  intros Hnd. apply NoDup_ListNoDup, NoDup_app in Hnd as (Hnd & Hdisj & _).
  apply NoDup_ListNoDup in Hnd.
  unfold row_updated, rewritten. split; [| split].
  - intros c x Hin.
    assert (c <> "updated_at") as Hc.
    { intros ->. apply (Hdisj "updated_at").
      - apply list_elem_of_In, in_map_iff. exists ("updated_at", x). auto.
      - apply list_elem_of_In. left. reflexivity. }
    rewrite lookup_insert_ne by congruence. apply foldl_put_in; assumption.
  - apply lookup_insert_eq.
  - intros k Hk Hnotin. rewrite lookup_insert_ne by congruence.
    apply foldl_put_notin. assumption.
Qed.

(** The statement of an [updateById] whose payload assigns [l]. *)
Lemma update_by_id_extend (relation : string) (columns : list string) (now : Z)
    (l : list (string * val)) (id : val) (t : Sql.table) :
  let b := extend (SetBuilder [] [] 1) l in
  let selected (r : obj) := Sql.holds (Sql.eq (get r "id") id) in
  Sql.update_by_id relation columns now (fields b) (paramCount b)
    (values b ++ [id]) t
  = match Sql.check_set relation columns (List.map fst l ++ ["updated_at"]) with
    | Throw m => Throw m
    | Ok _ =>
        Ok (List.map (fun r => if selected r then rewritten now l r else r) t,
            List.map (rewritten now l) (List.filter selected t))
    end.
Proof.
  intros b selected. unfold Sql.update_by_id.
  assert (List.map fst (fields b) = List.map fst l) as ->.
  { unfold b. simpl. clear. generalize 1%nat.
    induction l as [|[c x] l IH]; intros n; simpl; [reflexivity |].
    rewrite IH. reflexivity. }
  destruct (Sql.check_set relation columns (List.map fst l ++ ["updated_at"]));
    [| reflexivity].
  unfold Sql.update.
  destruct (apply_set_extend now l id (∅ : obj)) as [_ Hid]. fold b in Hid.
  rewrite Hid. unfold selected. f_equal. f_equal.
  - apply map_ext. intros r.
    destruct (Sql.holds (Sql.eq (get r "id") id)); [| reflexivity].
    apply (apply_set_extend now l id r).
  - apply map_ext. intros r. apply (apply_set_extend now l id r).
Qed.

Lemma updated_table (now : Z) (l : list (string * val)) (selected : obj -> bool)
    (t : Sql.table) :
  List.NoDup (List.map fst l ++ ["updated_at"]) ->
  Forall2 (fun r r' => (selected r = true -> row_updated now l r r')
                       /\ (selected r = false -> r' = r))
    t (List.map (fun r => if selected r then rewritten now l r else r) t).
Proof.
  intros Hnd. induction t as [|r t IH]; simpl; constructor; auto.
  destruct (selected r); split; try discriminate; auto.
  intros _. apply rewritten_updated. assumption.
Qed.

End UpdateFacts.

Module UpdateByIdFacts.
Import Vocabulary.
Import Js SqlFacts UpdateFacts.

Lemma job_build_from (d : list (string * val)) (b : set_builder) :
  foldl JobModel.step b d = extend b (job_assigned d).
Proof.
  revert b. induction d as [|[k v] d IH]; intros b.
  - simpl. symmetry. apply extend_nil.
  - change (foldl JobModel.step b ((k, v) :: d))
      with (foldl JobModel.step (JobModel.step b (k, v)) d).
    rewrite IH. unfold JobModel.step, job_assigned, present.
    simpl List.filter. destruct (is_undefined v); simpl; [reflexivity |].
    destruct b as [f vs p]. apply extend_cons.
Qed.

Lemma user_build_from (bcrypt_hash : val -> result string)
    (d : list (string * val)) (b : set_builder) :
  UserModel.build_from bcrypt_hash b d
  = match user_assigned bcrypt_hash d with
    | Ok l => Ok (extend b l)
    | Throw m => Throw m
    end.
Proof.
  revert b. induction d as [|[k v] d IH]; intros b.
  - simpl. rewrite extend_nil. reflexivity.
  - change (UserModel.build_from bcrypt_hash b ((k, v) :: d))
      with (rbind (UserModel.step bcrypt_hash b (k, v))
              (fun b' => UserModel.build_from bcrypt_hash b' d)).
    unfold UserModel.step. cbn [user_assigned].
    destruct (is_undefined v); [apply IH |].
    destruct (String.eqb k "password").
    + destruct (bcrypt_hash v) as [h | m]; [| reflexivity].
      cbn [rbind]. rewrite IH.
      destruct (user_assigned bcrypt_hash d); [| reflexivity].
      cbn [rbind]. destruct b as [f vs p]. cbn [fields values paramCount].
      rewrite extend_cons. reflexivity.
    + cbn [rbind]. rewrite IH.
      destruct (user_assigned bcrypt_hash d); [| reflexivity].
      cbn [rbind]. destruct b as [f vs p]. cbn [fields values paramCount].
      rewrite extend_cons. reflexivity.
Qed.

Lemma fields_extend_length (l : list (string * val)) :
  List.length (fields (extend (SetBuilder [] [] 1) l)) = List.length l.
Proof.
  unfold extend. cbn [fields paramCount]. rewrite app_nil_l.
  rewrite List.length_combine, List.length_map, List.length_seq. lia.
Qed.

Lemma JobModel_updateById (now : Z) (jobs : Sql.table) (id : val)
    (d : list (string * val)) :
  let l := job_assigned d in
  let selected (r : obj) := Sql.holds (Sql.eq (get r "id") id) in
  JobModel.updateById now jobs id d
  = match l with
    | [] => Throw msg_no_fields
    | _ =>
        match Sql.check_set "jobs" Sql.jobs_columns
                (List.map fst l ++ ["updated_at"]) with
        | Throw m => Throw m
        | Ok _ =>
            Ok (first_row JobModel.formatJob
                  (List.map (rewritten now l) (List.filter selected jobs)),
                List.map (fun r => if selected r then rewritten now l r else r) jobs)
        end
    end.
Proof.
  intros l selected. unfold JobModel.updateById, JobModel.build.
  rewrite job_build_from. fold l.
  pose proof (fields_extend_length l) as Hlen.
  destruct l as [|cv l'] eqn:El.
  - reflexivity.
  - rewrite <- El in *.
    destruct (Nat.eqb_spec (List.length (fields (extend (SetBuilder [] [] 1) l))) 0)
      as [E | _]; [rewrite Hlen, El in E; discriminate E |].
    rewrite (update_by_id_extend "jobs" Sql.jobs_columns now l id jobs).
    destruct (Sql.check_set "jobs" Sql.jobs_columns (List.map fst l ++ ["updated_at"]));
      reflexivity.
Qed.

Lemma UserModel_updateById (bcrypt_hash : val -> result string) (now : Z)
    (users : Sql.table) (id : val) (d : list (string * val)) :
  let selected (r : obj) := Sql.holds (Sql.eq (get r "id") id) in
  UserModel.updateById bcrypt_hash now users id d
  = match user_assigned bcrypt_hash d with
    | Throw m => Throw m
    | Ok [] => Throw msg_no_fields
    | Ok l =>
        match Sql.check_set "users" Sql.users_columns
                (List.map fst l ++ ["updated_at"]) with
        | Throw m => Throw m
        | Ok _ =>
            Ok (first_row UserModel.formatUser
                  (List.map (rewritten now l) (List.filter selected users)),
                List.map (fun r => if selected r then rewritten now l r else r) users)
        end
    end.
Proof.
  intros selected. unfold UserModel.updateById, UserModel.build.
  rewrite user_build_from.
  destruct (user_assigned bcrypt_hash d) as [l | m]; [| reflexivity].
  cbn [rbind]. pose proof (fields_extend_length l) as Hlen.
  destruct l as [|cv l'] eqn:El.
  - reflexivity.
  - rewrite <- El in *.
    destruct (Nat.eqb_spec (List.length (fields (extend (SetBuilder [] [] 1) l))) 0)
      as [E | _]; [rewrite Hlen, El in E; discriminate E |].
    rewrite (update_by_id_extend "users" Sql.users_columns now l id users).
    destruct (Sql.check_set "users" Sql.users_columns (List.map fst l ++ ["updated_at"]));
      reflexivity.
Qed.

Lemma in_job_assigned (d : list (string * val)) (c : string) (x : val) :
  In (c, x) (job_assigned d) <->
  exists k, c = JobModel.convertToSnakeCase k /\ In (k, x) d /\ x <> VUndef.
Proof.
  unfold job_assigned. rewrite in_map_iff. split.
  - intros ([k v] & [= <- <-] & Hin%in_present). exists k. tauto.
  - intros (k & -> & Hin). exists (k, x). split; [reflexivity |].
    apply in_present. assumption.
Qed.

Lemma user_assigned_nil (bcrypt_hash : val -> result string)
    (d : list (string * val)) :
  (forall k v, In (k, v) d -> v = VUndef) -> user_assigned bcrypt_hash d = Ok [].
Proof.
  induction d as [|[k v] d IH]; intros H; [reflexivity |].
  simpl. rewrite (H k v) by (left; reflexivity). simpl.
  apply IH. intros k' v' Hin. apply (H k' v'). right. assumption.
Qed.

(** The assignments of a user payload, entry by entry. *)
Lemma user_assigned_spec (bcrypt_hash : val -> result string)
    (d : list (string * val)) (l : list (string * val)) :
  user_assigned bcrypt_hash d = Ok l ->
  (forall k v, In (k, v) d -> v <> VUndef ->
     if String.eqb k "password"
     then exists h, bcrypt_hash v = Ok h
                    /\ In (UserModel.convertToSnakeCase k, VStr h) l
     else In (UserModel.convertToSnakeCase k, v) l)
  /\ (forall c, In c (List.map fst l) ->
        exists k v, In (k, v) d /\ v <> VUndef
                    /\ c = UserModel.convertToSnakeCase k).
Proof.
  revert l. induction d as [|[k v] d IH]; intros l.
  - simpl. intros [= <-]. split; [intros k v [] | intros c []].
  - simpl. destruct (is_undefined v) eqn:Eu.
    + intros H. destruct (IH l H) as [H1 H2]. split.
      * intros k' v' [[= <- <-] | Hin] Hv; [destruct v; simpl in Eu; congruence |].
        apply H1; assumption.
      * intros c Hc. destruct (H2 c Hc) as (k' & v' & Hin & Hv & E).
        exists k', v'. auto.
    + assert (v <> VUndef) as Hv by (intros ->; discriminate Eu).
      destruct (String.eqb k "password") eqn:Ek.
      * destruct (bcrypt_hash v) as [h | m] eqn:Eh; simpl; [| discriminate].
        destruct (user_assigned bcrypt_hash d) as [l' | m]; simpl; [| discriminate].
        intros [= <-]. destruct (IH l' eq_refl) as [H1 H2]. split.
        -- intros k' v' [[= <- <-] | Hin] Hv'.
           ++ rewrite Ek. exists h. split; [assumption | left; reflexivity].
           ++ specialize (H1 k' v' Hin Hv'). destruct (String.eqb k' "password").
              ** destruct H1 as (h' & Hh' & Hin'). exists h'. split; [assumption |].
                 right. assumption.
              ** right. assumption.
        -- intros c [<- | Hc]; [exists k, v; simpl; auto |].
           destruct (H2 c Hc) as (k' & v' & Hin & Hv' & E). exists k', v'. auto.
      * destruct (user_assigned bcrypt_hash d) as [l' | m]; simpl; [| discriminate].
        intros [= <-]. destruct (IH l' eq_refl) as [H1 H2]. split.
        -- intros k' v' [[= <- <-] | Hin] Hv'.
           ++ rewrite Ek. left. reflexivity.
           ++ specialize (H1 k' v' Hin Hv'). destruct (String.eqb k' "password").
              ** destruct H1 as (h' & Hh' & Hin'). exists h'. split; [assumption |].
                 right. assumption.
              ** right. assumption.
        -- intros c [<- | Hc]; [exists k, v; simpl; auto |].
           destruct (H2 c Hc) as (k' & v' & Hin & Hv' & E). exists k', v'. auto.
Qed.

End UpdateByIdFacts.

Module UpdateByIdClaims.
Import Vocabulary.
Import Js SqlFacts UpdateFacts UpdateByIdFacts.

(** C6, as stated, fails: a column that the payload does not name, the
    update time, is rewritten by every accepted call.  Here the payload
    names the title only; the stored update time 100 becomes the time of
    the statement, 200. *)
Lemma updateById_rewrites_updated_at :
  let payload := [("title", VStr "Lead")] in
  List.map (fun kv => JobModel.convertToSnakeCase kv.1) payload = ["title"]
  /\ get stored_job "updated_at" = VNum 100
  /\ match JobModel.updateById 200 [stored_job] (VStr job_id) payload with
     | Ok (_, jobs') =>
         List.map (fun r => (get r "title", get r "updated_at")) jobs'
     | Throw _ => []
     end = [(VStr "Lead", VNum 200)].
Proof. vm_compute. repeat split. Qed.

Section Amended.

Variable bcrypt_hash : val -> result string.
Variable now : Z.
Variable id : val.
Variable updateData : list (string * val).

Let selected (r : obj) : bool := Sql.holds (Sql.eq (get r "id") id).
Let defined (k : string) (v : val) : Prop := In (k, v) updateData /\ v <> VUndef.

(** C6 (amended).  In a call of [updateById] that the server accepts,
    the columns assigned are exactly those of the entries of the payload
    whose value is not [undefined] ([null] included) and, besides, the
    update time: every selected row has the statement's time as
    [updated_at], under the column of each such entry the value given
    when that value is one its column keeps as given (a user's password:
    its digest), and every other column as before; the rows with another
    id are as before.  A payload without such an entry fails with "No
    fields to update" and leaves the table as it was. *)
Theorem updateById_partial_update :
  (forall jobs : Sql.table,
      ((forall k v, In (k, v) updateData -> v = VUndef) ->
         JobModel.updateById now jobs id updateData = Throw msg_no_fields
         /\ table_after jobs (JobModel.updateById now jobs id updateData) = jobs)
      /\ (forall res jobs',
            JobModel.updateById now jobs id updateData = Ok (res, jobs') ->
            (exists k v, defined k v)
            /\ Forall2
                 (fun r r' =>
                    (selected r = true ->
                       (forall k v, defined k v ->
                          kept_as_given
                            (type_of jobs_types (JobModel.convertToSnakeCase k)) v ->
                          r' !! JobModel.convertToSnakeCase k = Some v)
                       /\ r' !! "updated_at" = Some (VNum now)
                       /\ (forall c, c <> "updated_at" ->
                             (forall k v, defined k v ->
                                c <> JobModel.convertToSnakeCase k) ->
                             r' !! c = r !! c))
                    /\ (selected r = false -> r' = r))
                 jobs jobs'))
  /\ (forall users : Sql.table,
        ((forall k v, In (k, v) updateData -> v = VUndef) ->
           UserModel.updateById bcrypt_hash now users id updateData
           = Throw msg_no_fields
           /\ table_after users
                (UserModel.updateById bcrypt_hash now users id updateData) = users)
        /\ (forall res users',
              UserModel.updateById bcrypt_hash now users id updateData
              = Ok (res, users') ->
              (exists k v, defined k v)
              /\ Forall2
                   (fun r r' =>
                      (selected r = true ->
                         (forall k v, defined k v -> k <> "password" ->
                            kept_as_given
                              (type_of users_types (UserModel.convertToSnakeCase k)) v ->
                            r' !! UserModel.convertToSnakeCase k = Some v)
                         /\ (forall v, defined "password" v ->
                               exists h, bcrypt_hash v = Ok h
                                         /\ r' !! "password" = Some (VStr h))
                         /\ r' !! "updated_at" = Some (VNum now)
                         /\ (forall c, c <> "updated_at" ->
                               (forall k v, defined k v ->
                                  c <> UserModel.convertToSnakeCase k) ->
                               r' !! c = r !! c))
                      /\ (selected r = false -> r' = r))
                   users users')).
Proof.
  split.
  - intros jobs. rewrite JobModel_updateById. fold selected.
    split.
    + intros Hnone. apply present_nil_iff in Hnone.
      unfold job_assigned. rewrite Hnone. simpl. auto.
    + intros res jobs' H.
      destruct (job_assigned updateData) as [|cv l'] eqn:El; [discriminate H |].
      rewrite <- El in *.
      destruct (Sql.check_set "jobs" Sql.jobs_columns
                  (List.map fst (job_assigned updateData) ++ ["updated_at"]))
        as [[] | m] eqn:Ec; [| discriminate H].
      injection H as _ <-. apply check_set_Ok in Ec as [_ Hnd].
      split.
      * destruct cv as [c x].
        assert (In (c, x) (job_assigned updateData)) as Hin
          by (rewrite El; left; reflexivity).
        apply in_job_assigned in Hin as (k & _ & Hin & Hx).
        exists k, x. split; assumption.
      * eapply Forall2_impl; [apply (updated_table now _ selected jobs Hnd) |].
        intros r r' [Hsel Hnot]. split; [| exact Hnot].
        intros Hs. destruct (Hsel Hs) as (Hset & Hat & Hframe).
        split; [| split; [exact Hat |]].
        -- intros k v [Hin Hv] _. apply Hset, in_job_assigned. eauto.
        -- intros c Hc Hother. apply Hframe; [assumption |].
           intros ([c' x] & E & (k & E' & Hin & Hx)%in_job_assigned)%in_map_iff.
           simpl in E. subst c' c. apply (Hother k x); [split; assumption | reflexivity].
  - intros users. rewrite UserModel_updateById. fold selected.
    split.
    + intros Hnone. rewrite (user_assigned_nil bcrypt_hash updateData Hnone).
      simpl. auto.
    + intros res users' H.
      destruct (user_assigned bcrypt_hash updateData) as [l | m] eqn:Eu;
        [| discriminate H].
      destruct (user_assigned_spec bcrypt_hash updateData l Eu) as [Hall Hback].
      destruct l as [|cv l'] eqn:El; [discriminate H |].
      rewrite <- El in *.
      destruct (Sql.check_set "users" Sql.users_columns
                  (List.map fst l ++ ["updated_at"]))
        as [[] | m] eqn:Ec; [| discriminate H].
      injection H as _ <-. apply check_set_Ok in Ec as [_ Hnd].
      split.
      * destruct (Hback cv.1) as (k & v & Hin & Hv & _);
          [rewrite El; left; reflexivity |].
        exists k, v. split; assumption.
      * eapply Forall2_impl; [apply (updated_table now _ selected users Hnd) |].
        intros r r' [Hsel Hnot]. split; [| exact Hnot].
        intros Hs. destruct (Hsel Hs) as (Hset & Hat & Hframe).
        split; [| split; [| split; [exact Hat |]]].
        -- intros k v [Hin Hv] Hk _. specialize (Hall k v Hin Hv).
           destruct (String.eqb_spec k "password") as [-> | _]; [congruence |].
           apply Hset, Hall.
        -- intros v [Hin Hv]. specialize (Hall "password" v Hin Hv).
           simpl in Hall. destruct Hall as (h & Hh & Hl). exists h.
           split; [assumption |]. apply (Hset _ _ Hl).
        -- intros c Hc Hother. apply Hframe; [assumption |].
           intros (k & v & Hin & Hv & ->)%Hback.
           apply (Hother k v); [split; assumption | reflexivity].
Qed.

End Amended.

End UpdateByIdClaims.

(** ** automation/newsLetterCronRaw.js *)

Module CronFacts.
Import Vocabulary.
Import Js SqlFacts UpdateFacts UpdateByIdFacts NewsLetterCron.

Lemma rewritten_sent_frame (now : Z) (r : obj) (k : string) :
  k <> "newsletters_sent" -> k <> "updated_at" ->
  rewritten now [("newsletters_sent", VBool true)] r !! k = r !! k.
Proof.
  intros H1 H2. unfold rewritten, put. simpl.
  rewrite !lookup_insert_ne by congruence. reflexivity.
Qed.

Lemma get_rewritten_sent (now : Z) (r : obj) :
  get (rewritten now [("newsletters_sent", VBool true)] r) "newsletters_sent"
  = VBool true.
Proof.
  unfold get, rewritten, put. simpl.
  rewrite lookup_insert_ne by discriminate. rewrite lookup_insert_eq. reflexivity.
Qed.

Lemma mark_frame (now : Z) (job r : obj) (k : string) :
  k <> "newsletters_sent" -> k <> "updated_at" -> mark now job r !! k = r !! k.
Proof.
  intros H1 H2. unfold mark.
  destruct (selects job r); [apply rewritten_sent_frame; assumption | reflexivity].
Qed.

Lemma updateById_mark (now : Z) (t : Sql.table) (job : obj) :
  exists res,
    JobModel.updateById now t (get job "id") [("newsLettersSent", VBool true)]
    = Ok (res, List.map (mark now job) t).
Proof. rewrite JobModel_updateById. simpl. eexists. reflexivity. Qed.

Section Run.

Variable clock : nat -> Z.
Variable transport : nat -> mail -> result unit.

Lemma send_to_spec (job user : obj) (w : world) :
  exists line,
    send_to transport job user w
    = (Ok tt,
       World (users w) (jobs w) (statements w)
         (attempts w ++ [(mail_of job user,
                          transport (List.length (attempts w)) (mail_of job user))])
         (console w ++ [line])).
Proof.
  unfold send_to, try_catch, bind, sendEmail, console_log. simpl.
  destruct (transport (List.length (attempts w)) (mail_of job user)) as [[] | e];
    simpl; eexists; reflexivity.
Qed.

Lemma sends_spec (job : obj) (subscribers : list obj) (w : world) :
  exists sends lines,
    List.map fst sends = List.map (mail_of job) subscribers
    /\ for_of subscribers (send_to transport job) w
       = (Ok tt,
          World (users w) (jobs w) (statements w) (attempts w ++ sends)
            (console w ++ lines)).
Proof.
  revert w. induction subscribers as [|u us IH]; intros w.
  - exists [], []. split; [reflexivity |]. simpl. unfold ret.
    rewrite !app_nil_r. destruct w; reflexivity.
  - destruct (send_to_spec job u w) as (line & E).
    simpl for_of. unfold bind at 1. rewrite E.
    destruct (IH (World (users w) (jobs w) (statements w)
                    (attempts w ++ [(mail_of job u,
                                     transport (List.length (attempts w)) (mail_of job u))])
                    (console w ++ [line]))) as (sends & lines & Hm & ->).
    simpl.
    exists ((mail_of job u, transport (List.length (attempts w)) (mail_of job u))
              :: sends), (line :: lines).
    split; [simpl; rewrite Hm; reflexivity |].
    rewrite <- !app_assoc. reflexivity.
Qed.

(** One turn of the loop over the postings. *)
Lemma process_spec (job : obj) (w : world) :
  let subscribers := UserModel.findByJobNiche (users w) (get job "jobNiche") in
  exists sends lines,
    List.map fst sends = List.map (mail_of job) subscribers
    /\ process clock transport job w
       = (Ok tt,
          World (users w)
            match subscribers with
            | [] => jobs w
            | _ => List.map (mark (clock (S (statements w))) job) (jobs w)
            end
            match subscribers with
            | [] => S (statements w)
            | _ => S (S (statements w))
            end
            (attempts w ++ sends) (console w ++ lines)).
Proof.
  intros subscribers. unfold process, try_catch.
  unfold bind at 1. unfold findByJobNiche at 1. fold subscribers.
  destruct subscribers as [|u us] eqn:Es.
  - simpl. unfold console_log. simpl. exists []. eexists [_].
    split; [reflexivity |]. rewrite app_nil_r. reflexivity.
  - rewrite <- Es. assert (Nat.eqb (List.length subscribers) 0 = false) as ->
      by (rewrite Es; reflexivity).
    unfold bind at 1. unfold console_log at 1. cbn [tick users jobs statements
      attempts console].
    unfold bind at 1.
    match goal with
    | |- context [for_of subscribers (send_to transport job) ?w0] =>
        destruct (sends_spec job subscribers w0) as (sends & lines & Hm & ->)
    end.
    cbn [users jobs statements attempts console].
    unfold bind at 1. unfold updateById at 1.
    cbn [users jobs statements attempts console].
    destruct (updateById_mark (clock (S (statements w))) (jobs w) job) as (res & ->).
    unfold console_log, tick. cbn [users jobs statements attempts console].
    exists sends. eexists. split; [exact Hm |].
    rewrite <- !app_assoc. reflexivity.
Qed.

End Run.

End CronFacts.

Module CronClaims.
Import Vocabulary.
Import Js SqlFacts UpdateFacts UpdateByIdFacts NewsLetterCron CronFacts.

Lemma selects_same_id (job r r' : obj) :
  r' !! "id" = r !! "id" -> selects job r' = selects job r.
Proof. unfold selects, get. intros ->. reflexivity. Qed.

Lemma Forall2_compose {A} (P Q R : A -> A -> Prop) (l1 l2 l3 : list A) :
  (forall a b c, P a b -> Q b c -> R a c) ->
  Forall2 P l1 l2 -> Forall2 Q l2 l3 -> Forall2 R l1 l3.
Proof.
  intros H H12. revert l3. induction H12 as [|a b l1 l2 Hab _ IH]; intros l3 H23;
    inversion H23; subst; constructor; eauto.
Qed.

Lemma Forall2_map_r {A} (f : A -> A) (l : list A) :
  Forall2 (fun a b => b = f a) l (List.map f l).
Proof. induction l; simpl; constructor; auto. Qed.

Lemma Forall2_refl_eq {A} (l : list A) : Forall2 eq l l.
Proof. induction l; constructor; auto. Qed.

Lemma Forall2_In_r {A} (P : A -> A -> Prop) (l1 l2 : list A) (y : A) :
  Forall2 P l1 l2 -> In y l2 -> exists x, In x l1 /\ P x y.
Proof.
  intros H. induction H as [|a b l1 l2 Hab _ IH]; intros Hin; [destruct Hin |].
  destruct Hin as [<- | Hin].
  - exists a. split; [left; reflexivity | assumption].
  - destruct (IH Hin) as (x & Hx & HP). exists x. split; [right |]; assumption.
Qed.

Section Run.

Variable clock : nat -> Z.
Variable transport : nat -> mail -> result unit.

(** The loop over the fetched postings. *)
Lemma loop_spec (postings : list obj) :
  forall w : world,
  exists sends lines n t',
    for_of postings (process clock transport) w
    = (Ok tt, World (users w) t' n (attempts w ++ sends) (console w ++ lines))
    /\ List.map fst sends = mails_of (users w) postings
    /\ Forall2 (kept_or_marked postings (users w)) (jobs w) t'
    /\ forall job, In job postings ->
         subscribers_of (users w) job <> [] ->
         forall r', In r' t' -> selects job r' = true ->
                    get r' "newsletters_sent" = VBool true.
Proof.
  induction postings as [|j rest IH]; intros w.
  - exists [], [], (statements w), (jobs w). split; [| split; [| split]].
    + simpl. unfold ret. rewrite !app_nil_r. destruct w; reflexivity.
    + reflexivity.
    + eapply Forall2_impl; [apply Forall2_refl_eq |].
      intros r r' <-. split; auto.
    + intros job [].
  - destruct (process_spec clock transport j w) as (sends1 & lines1 & Hm1 & E1).
    fold (subscribers_of (users w) j) in Hm1, E1.
    simpl for_of. unfold bind at 1. rewrite E1.
    match goal with
    | |- context [for_of rest _ ?w1] =>
        destruct (IH w1) as (sends2 & lines2 & n & t' & -> & Hm2 & Hrel & Hjobs)
    end.
    cbn [users jobs statements attempts console] in *.
    exists (sends1 ++ sends2), (lines1 ++ lines2), n, t'.
    (* the table after the first posting *)
    assert (Forall2 (fun r r1 =>
                       (forall k, k <> "newsletters_sent" -> k <> "updated_at" ->
                                  r1 !! k = r !! k)
                       /\ (r1 = r
                           \/ (subscribers_of (users w) j <> []
                               /\ selects j r = true
                               /\ get r1 "newsletters_sent" = VBool true))
                       /\ (subscribers_of (users w) j <> [] ->
                           selects j r = true ->
                           get r1 "newsletters_sent" = VBool true))
              (jobs w)
              match subscribers_of (users w) j with
              | [] => jobs w
              | _ => List.map (mark (clock (S (statements w))) j) (jobs w)
              end) as Hfirst.
    { destruct (subscribers_of (users w) j) as [|u us] eqn:Es.
      - eapply Forall2_impl; [apply Forall2_refl_eq |].
        intros r r' <-. split; [reflexivity |]. split; [auto | congruence].
      - eapply Forall2_impl; [apply Forall2_map_r |].
        intros r r1 ->. split; [intros k; apply mark_frame |].
        unfold mark. destruct (selects j r) eqn:Esel.
        + split; [right |].
          * split; [discriminate |]. split; [reflexivity | apply get_rewritten_sent].
          * intros _ _. apply get_rewritten_sent.
        + split; [left; reflexivity | discriminate]. }
    split; [rewrite <- !app_assoc; reflexivity |]. split; [| split].
    + rewrite map_app, Hm1, Hm2. reflexivity.
    + eapply Forall2_compose; [| exact Hfirst | exact Hrel].
      intros r r1 r' (Hk1 & H1 & _) [Hk2 H2]. split.
      * intros k Ha Hb. rewrite Hk2, Hk1 by assumption. reflexivity.
      * destruct H2 as [-> | (Hsent & job & Hin & Hsub & Hsel)].
        -- destruct H1 as [-> | (Hsub & Hsel & Hsent)]; [left; reflexivity |].
           right. split; [assumption |]. exists j. split; [left; reflexivity | auto].
        -- right. split; [assumption |]. exists job.
           split; [right; assumption |]. split; [assumption |].
           rewrite <- (selects_same_id job r r1); [assumption |].
           apply Hk1; discriminate.
    + intros job [<- | Hin].
      * intros Hsub r' Hr' Hsel.
        destruct (Forall2_In_r _ _ _ r' Hrel Hr') as (r1 & Hr1 & Hk2 & H2).
        destruct (Forall2_In_r _ _ _ r1 Hfirst Hr1) as (r & Hr & Hk1 & _ & H1).
        assert (selects j r = true) as Hselr.
        { rewrite <- (selects_same_id j r r1) by (apply Hk1; discriminate).
          rewrite <- (selects_same_id j r1 r') by (apply Hk2; discriminate).
          assumption. }
        destruct H2 as [-> | [Hsent _]]; [| assumption].
        apply H1; assumption.
      * apply (Hjobs job Hin).
Qed.

(** The whole callback, as one step on the world. *)
Lemma run_spec (w : world) :
  let fetched :=
    JobModel.getJobsForNewsletter (clock (statements w)) (users w) (jobs w) in
  exists sends lines n t',
    run clock transport w
    = (Ok tt, World (users w) t' n (attempts w ++ sends) (console w ++ lines))
    /\ List.map fst sends = mails_of (users w) fetched
    /\ Forall2 (kept_or_marked fetched (users w)) (jobs w) t'
    /\ forall job, In job fetched ->
         subscribers_of (users w) job <> [] ->
         forall r', In r' t' -> selects job r' = true ->
                    get r' "newsletters_sent" = VBool true.
Proof.
  intros fetched. unfold run.
  unfold bind at 1. unfold console_log at 1.
  cbn [users jobs statements attempts console].
  unfold try_catch. unfold bind at 1. unfold getJobsForNewsletter at 1.
  cbn [tick users jobs statements attempts console]. fold fetched.
  destruct fetched as [|j rest] eqn:Ef.
  - simpl. exists []. eexists [_; _], _, (jobs w).
    split; [rewrite app_nil_r, <- app_assoc; reflexivity |].
    split; [reflexivity |]. split; [| intros job []].
    eapply Forall2_impl; [apply Forall2_refl_eq |].
    intros r r' <-. split; auto.
  - rewrite <- Ef.
    assert (Nat.eqb (List.length fetched) 0 = false) as ->
      by (rewrite Ef; reflexivity).
    unfold bind at 1. unfold console_log at 1.
    cbn [users jobs statements attempts console].
    match goal with
    | |- context [for_of fetched _ ?w1] =>
        destruct (loop_spec fetched w1)
          as (sends & lines & n & t' & -> & Hm & Hrel & Hjobs)
    end.
    unfold tick in *.
    cbn [fst snd users jobs statements attempts console] in *.
    exists sends. eexists (_ :: _ :: lines), n, t'.
    split; [rewrite <- !app_assoc; reflexivity |]. repeat split; assumption.
Qed.

(** C1 (amended).  A run never throws and leaves the users as they are.
    It attempts exactly one send per fetched posting and matched
    subscriber, in order, whatever the outcome of the other sends; and
    when a fetched posting has at least one matched subscriber, every row
    with its id ends the run with the sent flag true.  Every row keeps all
    its columns but the flag and the update time, and a row is touched
    only as the row of a fetched posting with a matched subscriber: a
    fetched posting that no subscriber matches is not marked. *)
Theorem newsletter_run (w : world) :
  let fetched :=
    JobModel.getJobsForNewsletter (clock (statements w)) (users w) (jobs w) in
  let w' := (run clock transport w).2 in
  (run clock transport w).1 = Ok tt
  /\ users w' = users w
  /\ (exists sends,
        attempts w' = attempts w ++ sends
        /\ List.map fst sends = mails_of (users w) fetched)
  /\ (forall job, In job fetched ->
        (forall user, In user (subscribers_of (users w) job) ->
           exists outcome, In (mail_of job user, outcome) (attempts w'))
        /\ (subscribers_of (users w) job <> [] ->
            forall r', In r' (jobs w') -> selects job r' = true ->
                       get r' "newsletters_sent" = VBool true))
  /\ Forall2 (kept_or_marked fetched (users w)) (jobs w) (jobs w').
Proof.
  intros fetched w'. subst w'.
  destruct (run_spec w) as (sends & lines & n & t' & -> & Hm & Hrel & Hjobs).
  cbn [fst snd users jobs statements attempts console].
  split; [reflexivity |]. split; [reflexivity |].
  split; [exists sends; split; [reflexivity | exact Hm] |].
  split; [| exact Hrel].
  intros job Hin. split; [| apply (Hjobs job Hin)].
  intros user Hu.
  assert (In (mail_of job user) (List.map fst sends)) as Hmail.
  { rewrite Hm. unfold mails_of. apply in_concat.
    exists (List.map (mail_of job) (subscribers_of (users w) job)).
    split; [apply in_map_iff; eauto | apply in_map; assumption]. }
  apply in_map_iff in Hmail as ([m outcome] & E & Hs).
  simpl in E. subst m. exists outcome. apply in_or_app. right. assumption.
Qed.

End Run.

(** C1, as stated, fails for a fetched posting that no subscriber
    matches: the run skips it, and its flag is still false afterwards. *)
Lemma unmatched_posting_stays_unsent :
  let w := World [employer_row] [fresh_job] 0 [] [] in
  let clock := fun n : nat => 1000 + Z.of_nat n in
  let transport := fun (_ : nat) (_ : mail) => Ok tt in
  List.map (fun job => (get job "id", List.length (subscribers_of (users w) job)))
    (JobModel.getJobsForNewsletter (clock 0%nat) (users w) (jobs w))
  = [(VStr "j1", 0%nat)]
  /\ List.map (fun r => (get r "id", get r "newsletters_sent"))
       (jobs (run clock transport w).2)
     = [(VStr "j1", VBool false)].
Proof. vm_compute. split; reflexivity. Qed.

End CronClaims.

(** ** The validators *)

Module ValidationClaims.
Import Vocabulary.
Import Js PhoneUtils.

(** An application whose phone number the strict parser rejects is not
    validated: the parser's error leaves the validator. *)
Lemma validateApplicationData_rejected_phone (applicationData : obj) (m : string) :
  is_ok (missing_or_blank (get applicationData "jobSeekerName")) = true ->
  truthy (get applicationData "jobSeekerPhone") = true ->
  convertPhoneToNumber (get applicationData "jobSeekerPhone") = Throw m ->
  ApplicationModel.validateApplicationData applicationData = Throw m.
Proof.
  intros Hname Hphone Hthrow. unfold ApplicationModel.validateApplicationData.
  destruct (missing_or_blank (get applicationData "jobSeekerName")) as [c | e];
    [| discriminate Hname].
  cbn [rbind]. rewrite Hphone, Hthrow. reflexivity.
Qed.

(** C5.  The application validator is meant to return the message of
    every violated rule.  With a phone number the strict parser rejects
    it returns no list at all: it throws the parser's error, and the
    messages of the other violated rules are lost.  (The user validator
    catches the same error and returns all five messages.) *)
Theorem validateApplicationData_throws_on_invalid_phone :
  ApplicationModel.validateApplicationData weak_application
  = Throw msg_invalid_indian
  /\ UserModel.validateUserData weak_user
     = [ "Name must be between 3 and 30 characters";
         "Please provide a valid email";
         msg_invalid_indian;
         "Password must be between 8 and 32 characters";
         "Job Seekers must provide three job niches" ].
Proof. split; vm_compute; reflexivity. Qed.

End ValidationClaims.

(** * Further properties of the modelled code *)

(** ** utils/phoneUtils.js: what the converters decide *)

Module PhoneProperties.
Import Chars Str Js Regex PhoneUtils StrFacts DecimalFacts RegexFacts PhoneFacts
       FormatFacts PhoneNotions.

Lemma canonicalb_spec (n : Z) : canonicalb n = true <-> canonical n.
Proof.
  unfold canonicalb, canonical. rewrite andb_true_iff, !Z.leb_le. tauto.
Qed.

Lemma phone_re_decimal (n : Z) :
  0 < n -> test phone_re (decimal n) = canonicalb n.
Proof.
  intros Hn. destruct (canonicalb n) eqn:E.
  - apply canonical_phone_re, canonicalb_spec, E.
  - destruct (test phone_re (decimal n)) eqn:T; [| reflexivity].
    apply phone_re_canonical in T as [Hc _].
    destruct (decimal_spec n) as (_ & Hv & _); [lia |].
    rewrite Hv in Hc. apply canonicalb_spec in Hc. congruence.
Qed.

Lemma convert_number (n : Z) :
  n <> 0 -> convertPhoneToNumber (VNum n) = verdict n.
Proof.
  intros Hn. unfold convertPhoneToNumber, verdict. simpl.
  destruct (Z.eqb_spec n 0) as [E | _]; [contradiction |]. simpl.
  unfold isNaN, le_zero. simpl.
  destruct (Z.leb_spec n 0) as [Hle | Hpos]; [reflexivity |]. simpl.
  unfold number_toString. destruct (Z.ltb_spec n 0) as [Hneg | _]; [lia |].
  rewrite phone_re_decimal by assumption.
  destruct (canonicalb n); reflexivity.
Qed.

Lemma convert_string (s : string) :
  s <> "" ->
  convertPhoneToNumber (VStr s)
  = match parseInt s with
    | VNum n => verdict n
    | _ => Throw msg_digits_only
    end.
Proof.
  intros Hs. unfold convertPhoneToNumber. simpl.
  destruct (String.eqb_spec s "") as [E | _]; [contradiction |]. simpl.
  destruct (parseInt_cases s) as [E | [n E]]; rewrite E; [reflexivity |].
  unfold verdict, isNaN, le_zero. simpl.
  destruct (Z.leb_spec n 0) as [Hle | Hpos]; [reflexivity |]. simpl.
  unfold number_toString. destruct (Z.ltb_spec n 0) as [Hneg | _]; [lia |].
  rewrite phone_re_decimal by assumption.
  destruct (canonicalb n); reflexivity.
Qed.

(** X1.  What [convertPhoneToNumber] returns for a string or a whole
    number is a number between 6000000000 and 9999999999, its decimal
    text has ten digits, and the converter returns it unchanged when it
    is given it again. *)
Theorem convertPhoneToNumber_result (phone r : val) :
  text_or_integer phone ->
  convertPhoneToNumber phone = Ok r ->
  exists n, r = VNum n /\ canonical n
            /\ String.length (decimal n) = 10%nat
            /\ convertPhoneToNumber r = Ok r.
Proof.
  intros _ H. apply convertPhoneToNumber_spec in H as (n & -> & Hc & _).
  exists n. split; [reflexivity |]. split; [assumption |]. split.
  - apply (decimal_length n 9). unfold canonical in Hc.
    change (pow10 9) with 1000000000. change (pow10 10) with 10000000000. lia.
  - apply convertPhoneToNumber_spec. exists n. unfold reads_as. auto.
Qed.

Lemma convertPhoneToNumber_result_witness :
  text_or_integer (VStr " 9876543210")
  /\ convertPhoneToNumber (VStr " 9876543210") = Ok (VNum 9876543210)
  /\ exists n, VNum 9876543210 = VNum n /\ canonical n
               /\ String.length (decimal n) = 10%nat
               /\ convertPhoneToNumber (VNum 9876543210) = Ok (VNum 9876543210).
Proof.
  assert (text_or_integer (VStr " 9876543210")) as Hphone
    by (left; exists " 9876543210"; reflexivity).
  split; [exact Hphone |]. split; [reflexivity |].
  exact (convertPhoneToNumber_result (VStr " 9876543210") (VNum 9876543210) Hphone
           eq_refl).
Defined.

(** X2.  How [convertPhoneToNumber] decides on strings and whole
    numbers.  A falsy input is refused as missing.  A whole number other
    than 0 is judged as it is, a non-empty string by the number
    [parseInt] reads from it, and when [parseInt] reads none the answer
    is the "digits only" error.  The whole number is refused with
    "digits only" when it is not positive, returned when it lies between
    6000000000 and 9999999999, and refused as invalid otherwise.  For a
    string or a whole number the three messages are the only errors. *)
Theorem convertPhoneToNumber_decision :
  (forall phone, truthy phone = false ->
     convertPhoneToNumber phone = Throw msg_required)
  /\ (forall n, n <> 0 -> convertPhoneToNumber (VNum n) = verdict n)
  /\ (forall s, s <> "" ->
        convertPhoneToNumber (VStr s)
        = match parseInt s with
          | VNum n => verdict n
          | _ => Throw msg_digits_only
          end)
  /\ (forall n, verdict n = Ok (VNum n) <-> canonical n)
  /\ (forall phone m,
        text_or_integer phone ->
        convertPhoneToNumber phone = Throw m ->
        m = msg_required \/ m = msg_digits_only \/ m = msg_invalid_indian).
Proof.
  split; [| split; [| split; [| split]]].
  - intros phone H. unfold convertPhoneToNumber. rewrite H. reflexivity.
  - apply convert_number.
  - apply convert_string.
  - intros n. unfold verdict. rewrite <- canonicalb_spec.
    destruct (Z.leb_spec n 0) as [Hle | Hpos].
    + split; [discriminate |]. unfold canonicalb.
      intros [H _]%andb_prop. apply Z.leb_le in H. lia.
    + destruct (canonicalb n); split; congruence.
  - intros phone m _. unfold convertPhoneToNumber.
    destruct (negb (truthy phone)); [intros [= <-]; auto |].
    destruct (isNaN _ || le_zero _); [intros [= <-]; auto |].
    destruct (negb (test phone_re _)); [intros [= <-]; auto | discriminate].
Qed.

(** X3.  [safeConvertPhoneToNumber] returns [null] exactly when
    [isValidPhoneNumber] answers false, and for a valid input it returns
    what the strict converter returns.  Converting safely twice is
    converting once, and the result is valid exactly when the input
    is. *)
Theorem safeConvertPhoneToNumber_null_iff_invalid (phone : val) :
  (safeConvertPhoneToNumber phone = VNull <-> isValidPhoneNumber phone = false)
  /\ (isValidPhoneNumber phone = true <->
      convertPhoneToNumber phone = Ok (safeConvertPhoneToNumber phone))
  /\ safeConvertPhoneToNumber (safeConvertPhoneToNumber phone)
     = safeConvertPhoneToNumber phone
  /\ isValidPhoneNumber (safeConvertPhoneToNumber phone) = isValidPhoneNumber phone.
Proof.
  unfold safeConvertPhoneToNumber, isValidPhoneNumber.
  destruct (convertPhoneToNumber phone) as [r | m] eqn:E.
  - apply convertPhoneToNumber_spec in E as (n & -> & Hc & _).
    assert (convertPhoneToNumber (VNum n) = Ok (VNum n)) as ->.
    { apply convertPhoneToNumber_spec. exists n. unfold reads_as. auto. }
    repeat split; congruence.
  - repeat split; congruence.
Qed.


Lemma filter_is_digit (s : string) : forallb is_digit (filter is_digit s) = true.
Proof.
  induction s as [|c s IH]; [reflexivity |]. simpl.
  destruct (is_digit c) eqn:E; [simpl; rewrite E; exact IH | exact IH].
Qed.

(** X4.  [parseFormattedPhone] depends on the digits of its input only.
    Without a digit it throws the "required" error; otherwise it answers
    as the strict converter does on the number the digits write, so it
    returns exactly when that number is canonical, and returns that
    number. *)
Theorem parseFormattedPhone_reads_digits (s : string) :
  let digits := filter is_digit s in
  (digits = "" -> parseFormattedPhone s = Throw msg_required)
  /\ (digits <> "" -> parseFormattedPhone s = verdict (value digits))
  /\ (forall r, parseFormattedPhone s = Ok r <->
                r = VNum (value digits) /\ canonical (value digits)).
Proof.
  intros digits. unfold parseFormattedPhone. fold digits.
  assert (digits <> "" -> convertPhoneToNumber (VStr digits) = verdict (value digits))
    as Hread.
  { intros Hne. rewrite convert_string by assumption.
    rewrite parseInt_digits; [reflexivity | assumption | apply filter_is_digit]. }
  assert (forall n r, verdict n = Ok r <-> r = VNum n /\ canonical n) as Hverdict.
  { intros n r. unfold verdict. rewrite <- canonicalb_spec.
    destruct (Z.leb_spec n 0) as [Hle | Hpos].
    - split; [discriminate |]. unfold canonicalb.
      intros [_ [H _]%andb_prop]. apply Z.leb_le in H. lia.
    - destruct (canonicalb n); split; try discriminate.
      + intros [= <-]. auto.
      + intros [-> _]. reflexivity.
      + intros [_ H]. discriminate H. }
  split; [| split].
  - intros ->. reflexivity.
  - exact Hread.
  - intros r. destruct (string_dec digits "") as [E | Hne].
    + rewrite E. split; [discriminate |].
      intros [_ [H _]]. cbv in H. contradiction H. reflexivity.
    + rewrite Hread by assumption. apply Hverdict.
Qed.

Lemma startsWith_1 (s : string) :
  startsWith s "1" = true -> exists rest, s = String "1" rest.
Proof.
  unfold startsWith. destruct s as [|c s]; [discriminate |].
  change (String.prefix "1" (String c s))
    with (if ascii_dec "1"%char c then String.prefix "" s else false).
  destruct (ascii_dec "1"%char c) as [<- | Hne]; [eauto | discriminate].
Qed.

Lemma format_string_digits (d : string) :
  forallb is_digit d = true -> filter is_digit (format_string d) = d.
Proof.
  intros Hd.
  destruct (Nat.lt_ge_cases (String.length d) 10%nat) as [Hshort | Hlong].
  { rewrite format_string_short by assumption. apply filter_all, Hd. }
  destruct (Nat.eq_dec (String.length d) 10%nat) as [H10 | Hne10].
  { apply strip_format_10; assumption. }
  assert (forall p a b, d = p +:+ a +:+ b ->
            filter is_digit ("+" +:+ p +:+ " " +:+ a +:+ " " +:+ b) = d) as Hlayout.
  { intros p a b E. rewrite E in Hd. rewrite !forallb_app in Hd.
    apply andb_prop in Hd as [Hp [Ha Hb]%andb_prop].
    rewrite !filter_app, (filter_all _ p Hp), (filter_all _ a Ha), (filter_all _ b Hb).
    rewrite E. reflexivity. }
  destruct (Nat.eq_dec (String.length d) 11%nat) as [H11 | Hne11].
  - destruct (startsWith d "1") eqn:E1.
    + apply startsWith_1 in E1 as (rest & ->). simpl in H11, Hd.
      injection H11 as H11.
      destruct (format_string_11 rest H11) as (a & b & c & E & _ & _ & _ & ->).
      rewrite E in Hd |- *. rewrite !forallb_app in Hd.
      apply andb_prop in Hd as [Ha [Hb Hc]%andb_prop].
      rewrite !filter_app, (filter_all _ a Ha), (filter_all _ b Hb), (filter_all _ c Hc).
      reflexivity.
    + destruct (format_string_long d) as (p & a & b & E & _ & _ & _ & ->);
        [lia | intros _; exact E1 |].
      apply Hlayout, E.
  - destruct (format_string_long d) as (p & a & b & E & _ & _ & _ & ->);
      [lia | intros H; contradiction |].
    apply Hlayout, E.
Qed.

(** X5.  [formatPhoneForDisplay] only adds punctuation.  For a string of
    digits, and for a whole number from 0 to below 2^53 (which JavaScript
    prints digit by digit), the digits of the displayed text are the
    digits of the input, in order, and parsing the displayed text gives
    what the strict converter gives on those digits. *)
Theorem formatPhoneForDisplay_keeps_digits :
  (forall d, forallb is_digit d = true ->
     formatPhoneForDisplay (VStr d) = Ok (format_string d)
     /\ filter is_digit (format_string d) = d
     /\ parseFormattedPhone (format_string d) = convertPhoneToNumber (VStr d))
  /\ (forall m, 0 <= m < 2 ^ 53 ->
        exists shown, formatPhoneForDisplay (VNum m) = Ok shown
                      /\ filter is_digit shown = decimal m
                      /\ parseFormattedPhone shown = convertPhoneToNumber (VStr (decimal m))).
Proof.
  split.
  - intros d Hd. split; [reflexivity |].
    split; [apply format_string_digits, Hd |].
    unfold parseFormattedPhone. rewrite format_string_digits by assumption. reflexivity.
  - intros m [Hm _]. exists (format_string (decimal m)).
    destruct (decimal_spec m Hm) as (Hd & _).
    split; [| split].
    + simpl. unfold number_toString.
      destruct (Z.ltb_spec m 0) as [Hneg | _]; [lia | reflexivity].
    + apply format_string_digits, Hd.
    + unfold parseFormattedPhone. rewrite format_string_digits by assumption. reflexivity.
Qed.

End PhoneProperties.

(** ** The matcher against the language of a pattern *)

Module RegexSemantics.
Import Chars Str Regex RegexFacts DecimalFacts EmailNotions.

Lemma append_nil_inv (a b : string) : a +:+ b = "" -> a = "" /\ b = "".
Proof. destruct a; [simpl; auto | discriminate]. Qed.

Lemma matches_nil_nullable (r : regex) (s : string) :
  matches r s -> s = "" -> nullable r = true.
Proof.
  induction 1 as [| p c Hp | r1 r2 s1 s2 _ IH1 _ IH2 | r1 r2 s _ IH | r1 r2 s _ IH
                 | r | r s1 s2 _ _ _ _]; intros E; simpl; auto.
  - discriminate E.
  - apply append_nil_inv in E as [-> ->]. rewrite IH1, IH2; reflexivity.
  - rewrite IH by assumption. reflexivity.
  - rewrite IH by assumption. apply orb_true_r.
Qed.

Lemma nullable_matches (r : regex) : nullable r = true -> matches r "".
Proof.
  induction r as [| | p | r1 IH1 r2 IH2 | r1 IH1 r2 IH2 | r IH]; simpl;
    try discriminate.
  - intros _. constructor.
  - intros [H1 H2]%andb_prop. apply (MCat r1 r2 "" ""); auto.
  - intros [H | H]%orb_prop; [apply MAltL | apply MAltR]; auto.
  - intros _. constructor.
Qed.

Lemma deriv_sound (c : ascii) (r : regex) :
  forall s, matches (deriv c r) s -> matches r (String c s).
Proof.
  induction r as [| | p | r1 IH1 r2 IH2 | r1 IH1 r2 IH2 | r IH]; simpl; intros s H.
  - inversion H.
  - inversion H.
  - destruct (p c) eqn:Hp; inversion H; subst. constructor. assumption.
  - assert (forall t, matches (Cat (deriv c r1) r2) t -> matches (Cat r1 r2) (String c t))
      as Hcat.
    { intros t Ht. inversion Ht as [| | ? ? s1 s2 H1 H2 | | | |]; subst.
      apply (MCat r1 r2 (String c s1) s2); auto. }
    destruct (nullable r1) eqn:Hn; [| auto].
    inversion H as [| | | ? ? ? HL | ? ? ? HR | |]; subst; [auto |].
    apply (MCat r1 r2 "" (String c s)); [apply nullable_matches, Hn | auto].
  - inversion H; subst; [apply MAltL | apply MAltR]; auto.
  - inversion H as [| | ? ? s1 s2 H1 H2 | | | |]; subst.
    apply (MStarS r (String c s1) s2); auto.
Qed.

Lemma deriv_complete (c : ascii) (r : regex) (t : string) :
  matches r t -> forall s, t = String c s -> matches (deriv c r) s.
Proof.
  induction 1 as [| p c' Hp | r1 r2 s1 s2 H1 IH1 H2 IH2 | r1 r2 s0 _ IH
                 | r1 r2 s0 _ IH | r | r s1 s2 H1 IH1 H2 IH2]; intros s E; simpl.
  - discriminate E.
  - injection E as -> <-. rewrite Hp. constructor.
  - destruct s1 as [|c1 s1].
    + simpl in E. rewrite (matches_nil_nullable r1 "" H1 eq_refl).
      apply MAltR. auto.
    + injection E as -> <-.
      assert (matches (Cat (deriv c r1) r2) (s1 +:+ s2)) as Hc
        by (constructor; auto).
      destruct (nullable r1); [apply MAltL |]; assumption.
  - apply MAltL. auto.
  - apply MAltR. auto.
  - discriminate E.
  - destruct s1 as [|c1 s1].
    + simpl in E. apply (IH2 s E).
    + injection E as -> <-. constructor; auto.
Qed.

(** The matcher decides the language of the pattern. *)
Lemma test_matches (r : regex) (s : string) : test r s = true <-> matches r s.
Proof.
  revert r. induction s as [|c s IH]; intros r; simpl.
  - split; [apply nullable_matches | intros H; apply (matches_nil_nullable r "" H eq_refl)].
  - rewrite IH. split; [apply deriv_sound | intros H; apply (deriv_complete c r _ H s eq_refl)].
Qed.

Lemma matches_Cat (r1 r2 : regex) (s : string) :
  matches (Cat r1 r2) s <->
  exists s1 s2, s = s1 +:+ s2 /\ matches r1 s1 /\ matches r2 s2.
Proof.
  split.
  - intros H. inversion H; subst. eauto.
  - intros (s1 & s2 & -> & H1 & H2). constructor; assumption.
Qed.

Lemma matches_lit (c : ascii) (s : string) :
  matches (lit c) s <-> s = String c "".
Proof.
  unfold lit. split.
  - intros H. inversion H as [| p c' Hp | | | | |]; subst.
    apply Ascii.eqb_eq in Hp. subst. reflexivity.
  - intros ->. constructor. apply Ascii.eqb_refl.
Qed.

Lemma matches_Chr (p : ascii -> bool) (s : string) :
  matches (Chr p) s <-> exists c, s = String c "" /\ p c = true.
Proof.
  split.
  - intros H. inversion H; subst. eauto.
  - intros (c & -> & H). constructor. assumption.
Qed.

Lemma matches_Star_class (p : ascii -> bool) (s : string) :
  matches (Star (Chr p)) s <-> forallb p s = true.
Proof.
  split.
  - intros H. remember (Star (Chr p)) as r eqn:Er.
    induction H as [| | | | | r' | r' s1 s2 H1 _ H2 IH2]; try discriminate Er.
    + reflexivity.
    + injection Er as ->. apply matches_Chr in H1 as (c & -> & Hc).
      simpl. rewrite Hc. apply IH2. reflexivity.
  - induction s as [|c s IH]; simpl.
    + intros _. constructor.
    + intros [Hc Hs]%andb_prop.
      apply (MStarS (Chr p) (String c "") s); [constructor; assumption | auto].
Qed.

Lemma matches_plus_class (p : ascii -> bool) (s : string) :
  matches (plus (Chr p)) s <-> s <> "" /\ forallb p s = true.
Proof.
  unfold plus. rewrite matches_Cat. split.
  - intros (s1 & s2 & -> & (c & -> & Hc)%matches_Chr & H2%matches_Star_class).
    split; [discriminate |]. simpl. rewrite Hc. exact H2.
  - intros [Hne H]. destruct s as [|c s]; [congruence |].
    simpl in H. apply andb_prop in H as [Hc Hs].
    exists (String c ""), s. split; [reflexivity |].
    split; [apply matches_Chr; eauto | apply matches_Star_class, Hs].
Qed.

Lemma email_re_shape (e : string) : test email_re e = true <-> email_shape e.
Proof.
  rewrite test_matches. unfold email_re, email_shape, plain.
  rewrite matches_Cat. split.
  - intros (x & t1 & -> & Hx%matches_plus_class & H).
    apply matches_Cat in H as (a & t2 & -> & ->%matches_lit & H).
    apply matches_Cat in H as (y & t3 & -> & Hy%matches_plus_class & H).
    apply matches_Cat in H as (d & z & -> & ->%matches_lit & Hz%matches_plus_class).
    exists x, y, z. auto.
  - intros (x & y & z & -> & Hx & Hy & Hz).
    exists x, ("@" +:+ y +:+ "." +:+ z). split; [reflexivity |].
    split; [apply matches_plus_class, Hx |].
    apply matches_Cat. exists "@", (y +:+ "." +:+ z). split; [reflexivity |].
    split; [apply matches_lit; reflexivity |].
    apply matches_Cat. exists y, ("." +:+ z). split; [reflexivity |].
    split; [apply matches_plus_class, Hy |].
    apply matches_Cat. exists ".", z. split; [reflexivity |].
    split; [apply matches_lit; reflexivity | apply matches_plus_class, Hz].
Qed.

End RegexSemantics.

(** ** The validators: what they accept *)

Module ValidationFacts.
Import Vocabulary PhoneNotions EmailNotions ValidationNotions.
Import Chars Str Js Regex PhoneUtils PhoneFacts RegexSemantics.

Lemma push_if_nil (c : bool) (m : string) (e : list string) :
  push_if c m e = [] <-> c = false /\ e = [].
Proof.
  unfold push_if. destruct c.
  - split; [intros H; destruct e; discriminate H | intros [H _]; discriminate H].
  - split; [auto | intros [_ H]; exact H].
Qed.

Lemma in_push_if (x : string) (c : bool) (m : string) (e : list string) :
  In x (push_if c m e) <-> In x e \/ (c = true /\ x = m).
Proof.
  unfold push_if. destruct c.
  - rewrite in_app_iff. simpl. split.
    + intros [H | [H | []]]; auto.
    + intros [H | [_ ->]]; auto.
  - split; [auto | intros [H | [H _]]; [exact H | discriminate H]].
Qed.

Lemma length_zero (s : string) : Nat.eqb (String.length s) 0 = false <-> s <> "".
Proof. destruct s; simpl; split; congruence. Qed.

Lemma missing_or_blank_false (v : val) :
  missing_or_blank v = Ok false <-> filled v.
Proof.
  unfold missing_or_blank, filled. split.
  - destruct (truthy v) eqn:Ht; simpl; [| discriminate].
    destruct v; try discriminate. intros [= H]. apply length_zero in H. eauto.
  - intros (s & -> & Hs). simpl.
    destruct (String.eqb_spec s "") as [-> | Hne]; [exfalso; apply Hs; reflexivity |].
    simpl. f_equal. apply length_zero, Hs.
Qed.

Lemma missing_or_blank_throw (v : val) (m : string) :
  missing_or_blank v = Throw m <-> m = msg_trim /\ untrimmable v.
Proof.
  unfold missing_or_blank, untrimmable. split.
  - destruct (truthy v) eqn:Ht; simpl; [| discriminate].
    destruct v; try discriminate; intros [= <-]; repeat split; congruence.
  - intros (-> & Ht & Hs). rewrite Ht. simpl.
    destruct v; try reflexivity. exfalso. apply (Hs s). reflexivity.
Qed.

Lemma includes_two (a b : string) (v : val) :
  includes [a; b] v = true <-> v = VStr a \/ v = VStr b.
Proof.
  unfold includes. destruct v; simpl;
    try (split; [discriminate | intros [H | H]; discriminate H]).
  rewrite !orb_true_iff, !String.eqb_eq. split.
  - intros [-> | [-> | H]]; auto. discriminate H.
  - intros [[= ->] | [= ->]]; auto.
Qed.

Lemma convertPhoneToNumber_messages (phone : val) (m : string) :
  convertPhoneToNumber phone = Throw m ->
  m = msg_required \/ m = msg_digits_only \/ m = msg_invalid_indian.
Proof.
  unfold convertPhoneToNumber.
  destruct (negb (truthy phone)); [intros [= <-]; auto |].
  destruct (isNaN _ || le_zero _); [intros [= <-]; auto |].
  destruct (negb (test phone_re _)); [intros [= <-]; auto | discriminate].
Qed.

Lemma convertPhoneToNumber_not_null (phone r : val) :
  convertPhoneToNumber phone = Ok r -> ApplicationModel.is_null r = false.
Proof.
  intros (n & -> & _)%convertPhoneToNumber_spec. reflexivity.
Qed.

End ValidationFacts.

Module ValidationProperties.
Import Vocabulary PhoneNotions EmailNotions ValidationNotions.
Import Chars Str Js PhoneUtils PhoneFacts RegexSemantics ValidationFacts.

(** X6.  [validateJobData] returns no error exactly when each of title,
    location, companyName, responsibilities, qualifications, salary and
    jobNiche is a string with something besides white space, jobType is
    "Full-time" or "Part-time", and postedBy is truthy. *)
Theorem validateJobData_accepts (jobData : obj) :
  JobModel.validateJobData jobData = Ok [] <->
  (forall f, In f job_text_fields -> filled (get jobData f))
  /\ (get jobData "jobType" = VStr "Full-time"
      \/ get jobData "jobType" = VStr "Part-time")
  /\ truthy (get jobData "postedBy") = true.
Proof.
  unfold JobModel.validateJobData. split.
  - intros H.
    destruct (missing_or_blank (get jobData "title")) as [c1 | m] eqn:E1;
      [cbn [rbind] in H | discriminate H].
    destruct (missing_or_blank (get jobData "location")) as [c2 | m] eqn:E2;
      [cbn [rbind] in H | discriminate H].
    destruct (missing_or_blank (get jobData "companyName")) as [c3 | m] eqn:E3;
      [cbn [rbind] in H | discriminate H].
    destruct (missing_or_blank (get jobData "responsibilities")) as [c4 | m] eqn:E4;
      [cbn [rbind] in H | discriminate H].
    destruct (missing_or_blank (get jobData "qualifications")) as [c5 | m] eqn:E5;
      [cbn [rbind] in H | discriminate H].
    destruct (missing_or_blank (get jobData "salary")) as [c6 | m] eqn:E6;
      [cbn [rbind] in H | discriminate H].
    destruct (missing_or_blank (get jobData "jobNiche")) as [c7 | m] eqn:E7;
      [cbn [rbind] in H | discriminate H].
    injection H as H.
    apply push_if_nil in H as [Hposted H].
    apply push_if_nil in H as [-> H].
    apply push_if_nil in H as [-> H].
    apply push_if_nil in H as [-> H].
    apply push_if_nil in H as [-> H].
    apply push_if_nil in H as [-> H].
    apply push_if_nil in H as [-> H].
    apply push_if_nil in H as [Htype H].
    apply push_if_nil in H as [-> _].
    split; [| split].
    + intros f [<- | [<- | [<- | [<- | [<- | [<- | [<- | []]]]]]]];
        apply missing_or_blank_false; assumption.
    + apply orb_false_elim in Htype as [_ Hin].
      apply negb_false_iff, includes_two in Hin. exact Hin.
    + apply negb_false_iff in Hposted. exact Hposted.
  - intros (Hfields & Htype & Hposted).
    assert (forall f, In f job_text_fields ->
                      missing_or_blank (get jobData f) = Ok false) as Hf.
    { intros f Hin. apply missing_or_blank_false, Hfields, Hin. }
    rewrite !Hf by (simpl; tauto). cbn [rbind].
    assert (includes ["Full-time"; "Part-time"] (get jobData "jobType") = true) as ->
      by (apply includes_two, Htype).
    assert (truthy (get jobData "jobType") = true) as ->
      by (destruct Htype as [-> | ->]; reflexivity).
    rewrite Hposted. reflexivity.
Qed.

(** X7.  [validateJobData] throws, instead of returning its list, exactly
    when one of the seven text fields is truthy without being a string (a
    number, say): the call of [trim] on it is a TypeError. *)
Theorem validateJobData_throws (jobData : obj) (m : string) :
  JobModel.validateJobData jobData = Throw m <->
  m = msg_trim
  /\ exists f, In f job_text_fields /\ untrimmable (get jobData f).
Proof.
  unfold JobModel.validateJobData. split.
  - intros H.
    destruct (missing_or_blank (get jobData "title")) as [c1 | m1] eqn:E1;
      cbn [rbind] in H;
      [| injection H as <-; apply missing_or_blank_throw in E1 as [-> E1];
         split; [reflexivity | exists "title"; simpl; auto]].
    destruct (missing_or_blank (get jobData "location")) as [c2 | m1] eqn:E2;
      cbn [rbind] in H;
      [| injection H as <-; apply missing_or_blank_throw in E2 as [-> E2];
         split; [reflexivity | exists "location"; simpl; auto]].
    destruct (missing_or_blank (get jobData "companyName")) as [c3 | m1] eqn:E3;
      cbn [rbind] in H;
      [| injection H as <-; apply missing_or_blank_throw in E3 as [-> E3];
         split; [reflexivity | exists "companyName"; simpl; auto]].
    destruct (missing_or_blank (get jobData "responsibilities")) as [c4 | m1] eqn:E4;
      cbn [rbind] in H;
      [| injection H as <-; apply missing_or_blank_throw in E4 as [-> E4];
         split; [reflexivity | exists "responsibilities"; simpl; auto 6]].
    destruct (missing_or_blank (get jobData "qualifications")) as [c5 | m1] eqn:E5;
      cbn [rbind] in H;
      [| injection H as <-; apply missing_or_blank_throw in E5 as [-> E5];
         split; [reflexivity | exists "qualifications"; simpl; auto 7]].
    destruct (missing_or_blank (get jobData "salary")) as [c6 | m1] eqn:E6;
      cbn [rbind] in H;
      [| injection H as <-; apply missing_or_blank_throw in E6 as [-> E6];
         split; [reflexivity | exists "salary"; simpl; auto 8]].
    destruct (missing_or_blank (get jobData "jobNiche")) as [c7 | m1] eqn:E7;
      cbn [rbind] in H;
      [| injection H as <-; apply missing_or_blank_throw in E7 as [-> E7];
         split; [reflexivity | exists "jobNiche"; simpl; auto 9]].
    discriminate H.
  - intros (-> & f & Hin & Hf).
    assert (forall g, missing_or_blank (get jobData g) = Throw msg_trim
                      \/ exists c, missing_or_blank (get jobData g) = Ok c) as Hcases.
    { intros g. destruct (missing_or_blank (get jobData g)) as [c | m1] eqn:E; [eauto |].
      apply missing_or_blank_throw in E as [-> _]. auto. }
    assert (forall c, missing_or_blank (get jobData f) <> Ok c) as Hno.
    { intros c. rewrite (proj2 (missing_or_blank_throw _ msg_trim)) by auto.
      discriminate. }
    destruct (Hcases "title") as [-> | [c1 E1]]; [reflexivity |].
    destruct (Hcases "location") as [E2 | [c2 E2]];
      [rewrite E1, E2; reflexivity |].
    destruct (Hcases "companyName") as [E3 | [c3 E3]];
      [rewrite E1, E2, E3; reflexivity |].
    destruct (Hcases "responsibilities") as [E4 | [c4 E4]];
      [rewrite E1, E2, E3, E4; reflexivity |].
    destruct (Hcases "qualifications") as [E5 | [c5 E5]];
      [rewrite E1, E2, E3, E4, E5; reflexivity |].
    destruct (Hcases "salary") as [E6 | [c6 E6]];
      [rewrite E1, E2, E3, E4, E5, E6; reflexivity |].
    destruct (Hcases "jobNiche") as [E7 | [c7 E7]];
      [rewrite E1, E2, E3, E4, E5, E6, E7; reflexivity |].
    exfalso.
    destruct Hin as [<- | [<- | [<- | [<- | [<- | [<- | [<- | []]]]]]]];
      eapply Hno; eassumption.
Qed.

End ValidationProperties.

Module UserValidationProperties.
Import Vocabulary PhoneNotions EmailNotions ValidationNotions.
Import Chars Str Js Regex PhoneUtils PhoneFacts RegexSemantics ValidationFacts.

Lemma phone_step_nil (phone : val) (x : string) (e : list string) :
  (if negb (truthy phone) then e ++ [x]
   else match convertPhoneToNumber phone with
        | Ok _ => e
        | Throw message => e ++ [message]
        end) = [] <-> e = [] /\ isValidPhoneNumber phone = true.
Proof.
  unfold isValidPhoneNumber, convertPhoneToNumber at 2.
  destruct (truthy phone) eqn:Ht; simpl.
  - fold (convertPhoneToNumber phone).
    assert (convertPhoneToNumber phone
            = (if isNaN match phone with VStr s => parseInt s | _ => phone end
                  || le_zero match phone with VStr s => parseInt s | _ => phone end
               then Throw msg_digits_only
               else if negb (test phone_re
                               (toString match phone with VStr s => parseInt s | _ => phone end))
                    then Throw msg_invalid_indian
                    else Ok match phone with VStr s => parseInt s | _ => phone end)) as E.
    { unfold convertPhoneToNumber. rewrite Ht. reflexivity. }
    rewrite <- E. destruct (convertPhoneToNumber phone).
    + split; [auto | intros [H _]; exact H].
    + split; [intros H; destruct e; discriminate H | intros [_ H]; discriminate H].
  - split; [intros H; destruct e; discriminate H | intros [_ H]; discriminate H].
Qed.

Lemma length_range (s : string) (lo hi : Z) :
  0 < lo ->
  negb (truthy (VStr s)) || lt (length_of (VStr s)) (VNum lo)
    || lt (VNum hi) (length_of (VStr s)) = false
  <-> lo <= Z.of_nat (String.length s) <= hi.
Proof.
  intros Hlo. unfold lt. simpl.
  rewrite !orb_false_iff, negb_false_iff, negb_true_iff, !Z.ltb_ge. split.
  - intros [[_ H1] H2]. lia.
  - intros [H1 H2]. repeat split; try lia.
    destruct s; [simpl in H1; lia | reflexivity].
Qed.

(** X8.  For a user whose name, email and password are strings,
    [validateUserData] returns no error exactly when the name has 3 to 30
    characters, the email has the shape x@y.z, the phone is one the strict
    converter accepts, the password has 8 to 32 characters, and the role
    is "Employer", or "Job Seeker" with three truthy niches. *)
Theorem validateUserData_accepts (userData : obj) (name email password : string) :
  get userData "name" = VStr name ->
  get userData "email" = VStr email ->
  get userData "password" = VStr password ->
  (UserModel.validateUserData userData = [] <->
   3 <= Z.of_nat (String.length name) <= 30
   /\ email_shape email
   /\ isValidPhoneNumber (get userData "phone") = true
   /\ 8 <= Z.of_nat (String.length password) <= 32
   /\ (get userData "role" = VStr "Employer"
       \/ (get userData "role" = VStr "Job Seeker"
           /\ truthy (get userData "firstNiche") = true
           /\ truthy (get userData "secondNiche") = true
           /\ truthy (get userData "thirdNiche") = true))).
Proof.
  intros Hn He Hp. unfold UserModel.validateUserData. cbv zeta.
  rewrite Hn, He, Hp.
  rewrite !push_if_nil, phone_step_nil, !push_if_nil.
  rewrite (length_range name 3 30), (length_range password 8 32) by lia.
  change (toString (VStr email)) with email.
  assert (negb (truthy (VStr email)) || negb (test email_re email) = false
          <-> email_shape email) as ->.
  { rewrite <- email_re_shape, orb_false_iff, !negb_false_iff. split; [tauto |].
    intros H. split; [| exact H]. destruct email; [discriminate H | reflexivity]. }
  rewrite orb_false_iff, !negb_false_iff, includes_two.
  assert (truthy (get userData "role") = true
          /\ (get userData "role" = VStr "Job Seeker"
              \/ get userData "role" = VStr "Employer")
          <-> (get userData "role" = VStr "Job Seeker"
               \/ get userData "role" = VStr "Employer")) as ->.
  { split; [tauto |]. intros H. split; [| exact H].
    destruct H as [-> | ->]; reflexivity. }
  split.
  - intros (Hseeker & Hrole & Hpw & (Hemail & Hname & _) & Hphone).
    repeat (split; [assumption |]).
    destruct Hrole as [Hr | Hr]; [right | left; exact Hr].
    rewrite Hr in Hseeker. simpl in Hseeker.
    apply orb_false_elim in Hseeker as [[H1 H2]%orb_false_elim H3].
    apply negb_false_iff in H1, H2, H3. auto.
  - intros (Hname & Hemail & Hphone & Hpw & Hrole).
    repeat split; try assumption; try tauto.
    destruct Hrole as [-> | (-> & -> & -> & ->)]; reflexivity.
Qed.

Lemma validateUserData_accepts_witness :
  let userData : obj :=
    list_to_map
      [ ("name", VStr "Asha Rao"); ("email", VStr "asha@mail.example");
        ("phone", VStr "9876543210"); ("password", VStr "s3cret-pass");
        ("role", VStr "Employer") ] in
  UserModel.validateUserData userData = []
  /\ email_shape "asha@mail.example".
Proof.
  intros userData.
  pose proof (validateUserData_accepts userData "Asha Rao" "asha@mail.example"
                "s3cret-pass" eq_refl eq_refl eq_refl) as [H _].
  split; [reflexivity |]. apply (H eq_refl).
Defined.

End UserValidationProperties.

Module ApplicationValidationProperties.
Import Vocabulary PhoneNotions EmailNotions ValidationNotions.
Import Chars Str Js Regex PhoneUtils PhoneFacts RegexSemantics ValidationFacts.

Lemma isValidPhoneNumber_Ok (phone r : val) :
  convertPhoneToNumber phone = Ok r -> isValidPhoneNumber phone = true.
Proof. unfold isValidPhoneNumber. intros ->. reflexivity. Qed.

Lemma isValidPhoneNumber_truthy (phone : val) :
  isValidPhoneNumber phone = true -> truthy phone = true.
Proof.
  unfold isValidPhoneNumber, convertPhoneToNumber.
  destruct (truthy phone); [reflexivity | discriminate].
Qed.

(** X9.  When [validateApplicationData] returns, its list never holds the
    message about the phone's format, and a phone that was given is a
    valid one.  It returns no error exactly when the two user ids and the
    job id are truthy, the name, address, cover letter and job title are
    strings with something besides white space, the email is truthy and
    its text has the shape x@y.z, and the phone is valid. *)
Theorem validateApplicationData_outcomes (applicationData : obj) :
  (forall errors,
     ApplicationModel.validateApplicationData applicationData = Ok errors ->
     ~ In msg_phone_format errors
     /\ (truthy (get applicationData "jobSeekerPhone") = true ->
         isValidPhoneNumber (get applicationData "jobSeekerPhone") = true))
  /\ (ApplicationModel.validateApplicationData applicationData = Ok [] <->
      truthy (get applicationData "jobSeekerUserId") = true
      /\ (forall f, In f application_text_fields -> filled (get applicationData f))
      /\ truthy (get applicationData "jobSeekerEmail") = true
      /\ email_shape (toString (get applicationData "jobSeekerEmail"))
      /\ isValidPhoneNumber (get applicationData "jobSeekerPhone") = true
      /\ truthy (get applicationData "employerUserId") = true
      /\ truthy (get applicationData "jobId") = true).
Proof.
  unfold ApplicationModel.validateApplicationData. cbv zeta. split.
  - intros errors H.
    destruct (missing_or_blank (get applicationData "jobSeekerName")) as [c1 | m];
      [cbn [rbind] in H | discriminate H].
    destruct (truthy (get applicationData "jobSeekerPhone")) eqn:Ht;
      cbn [negb rbind] in H.
    + destruct (convertPhoneToNumber (get applicationData "jobSeekerPhone"))
        as [r | m] eqn:Er; [cbn [rbind] in H | discriminate H].
      rewrite (convertPhoneToNumber_not_null _ _ Er) in H.
      destruct (missing_or_blank (get applicationData "jobSeekerAddress")) as [c2 | m];
        [cbn [rbind] in H | discriminate H].
      destruct (missing_or_blank (get applicationData "coverLetter")) as [c3 | m];
        [cbn [rbind] in H | discriminate H].
      destruct (missing_or_blank (get applicationData "jobTitle")) as [c4 | m];
        [cbn [rbind] in H | discriminate H].
      injection H as <-. split; [| intros _; apply (isValidPhoneNumber_Ok _ _ Er)].
      rewrite !in_push_if. simpl. unfold msg_phone_format.
      intros H. decompose [or and] H; try discriminate; assumption.
    + destruct (missing_or_blank (get applicationData "jobSeekerAddress")) as [c2 | m];
        [cbn [rbind] in H | discriminate H].
      destruct (missing_or_blank (get applicationData "coverLetter")) as [c3 | m];
        [cbn [rbind] in H | discriminate H].
      destruct (missing_or_blank (get applicationData "jobTitle")) as [c4 | m];
        [cbn [rbind] in H | discriminate H].
      injection H as <-. split; [| discriminate].
      rewrite !in_push_if, in_app_iff, !in_push_if. simpl. unfold msg_phone_format.
      intros H. decompose [or and] H; try discriminate; assumption.
  - split.
    + intros H.
      destruct (missing_or_blank (get applicationData "jobSeekerName")) as [c1 | m] eqn:E1;
        [cbn [rbind] in H | discriminate H].
      destruct (truthy (get applicationData "jobSeekerPhone")) eqn:Ht;
        cbn [negb rbind] in H.
      * destruct (convertPhoneToNumber (get applicationData "jobSeekerPhone"))
          as [r | m] eqn:Er; [cbn [rbind] in H | discriminate H].
        rewrite (convertPhoneToNumber_not_null _ _ Er) in H.
        destruct (missing_or_blank (get applicationData "jobSeekerAddress"))
          as [c2 | m] eqn:E2; [cbn [rbind] in H | discriminate H].
        destruct (missing_or_blank (get applicationData "coverLetter"))
          as [c3 | m] eqn:E3; [cbn [rbind] in H | discriminate H].
        destruct (missing_or_blank (get applicationData "jobTitle"))
          as [c4 | m] eqn:E4; [cbn [rbind] in H | discriminate H].
        injection H as H.
        apply push_if_nil in H as [-> H].
        apply push_if_nil in H as [Hjob H].
        apply push_if_nil in H as [Hemp H].
        apply push_if_nil in H as [-> H].
        apply push_if_nil in H as [-> H].
        apply push_if_nil in H as [Hemail H].
        apply push_if_nil in H as [-> H].
        apply push_if_nil in H as [Hseeker _].
        apply negb_false_iff in Hjob, Hemp, Hseeker.
        apply orb_false_elim in Hemail as [Hm1 Hm2].
        apply negb_false_iff in Hm1, Hm2. apply email_re_shape in Hm2.
        pose proof (isValidPhoneNumber_Ok _ _ Er) as Hvalid.
        split; [assumption |]. split; [| auto].
        intros f [<- | [<- | [<- | [<- | []]]]];
          apply missing_or_blank_false; assumption.
      * destruct (missing_or_blank (get applicationData "jobSeekerAddress"))
          as [c2 | m] eqn:E2; [cbn [rbind] in H | discriminate H].
        destruct (missing_or_blank (get applicationData "coverLetter"))
          as [c3 | m] eqn:E3; [cbn [rbind] in H | discriminate H].
        destruct (missing_or_blank (get applicationData "jobTitle"))
          as [c4 | m] eqn:E4; [cbn [rbind] in H | discriminate H].
        injection H as H.
        apply push_if_nil in H as [_ H].
        apply push_if_nil in H as [_ H].
        apply push_if_nil in H as [_ H].
        apply push_if_nil in H as [_ H].
        apply push_if_nil in H as [_ H].
        destruct (push_if _ _ _); discriminate H.
    + intros (Hseeker & Hfields & Hm1 & Hm2 & Hphone & Hemp & Hjob).
      assert (forall f, In f application_text_fields ->
                        missing_or_blank (get applicationData f) = Ok false) as Hf.
      { intros f Hin. apply missing_or_blank_false, Hfields, Hin. }
      rewrite !Hf by (simpl; tauto). cbn [rbind].
      rewrite (isValidPhoneNumber_truthy _ Hphone). cbn [negb].
      unfold isValidPhoneNumber in Hphone.
      destruct (convertPhoneToNumber (get applicationData "jobSeekerPhone"))
        as [r | m] eqn:Er; [| discriminate Hphone].
      cbn [rbind]. rewrite (convertPhoneToNumber_not_null _ _ Er).
      apply email_re_shape in Hm2. rewrite Hseeker, Hm1, Hm2, Hemp, Hjob.
      reflexivity.
Qed.

(** X10.  The pattern of the two validators accepts exactly the texts
    x@y.z in which x, y and z are not empty and hold neither white space
    nor [@].  The user validator reports a string email exactly when it
    has not this shape, and so does the application validator whenever it
    returns. *)
Theorem email_rule :
  (forall e, test email_re e = true <-> email_shape e)
  /\ (forall userData e,
        get userData "email" = VStr e ->
        (In "Please provide a valid email" (UserModel.validateUserData userData)
         <-> ~ email_shape e))
  /\ (forall applicationData e errors,
        get applicationData "jobSeekerEmail" = VStr e ->
        ApplicationModel.validateApplicationData applicationData = Ok errors ->
        (In "Valid job seeker email is required" errors <-> ~ email_shape e)).
Proof.
  assert (forall e, negb (truthy (VStr e)) || negb (test email_re e) = true
                    <-> ~ email_shape e) as Hrule.
  { intros e. rewrite <- email_re_shape. destruct (test email_re e) eqn:T.
    - assert (truthy (VStr e) = true) as -> by (destruct e; [discriminate T | reflexivity]).
      simpl. split; [discriminate | congruence].
    - rewrite orb_true_r. split; [congruence | reflexivity]. }
  split; [exact email_re_shape |]. split.
  - intros userData e He. unfold UserModel.validateUserData. cbv zeta.
    rewrite He. change (toString (VStr e)) with e. rewrite <- Hrule.
    rewrite !in_push_if.
    assert (forall l : list string,
              In "Please provide a valid email"
                (if negb (truthy (get userData "phone"))
                 then l ++ ["Please provide a phone number"]
                 else match convertPhoneToNumber (get userData "phone") with
                      | Ok _ => l
                      | Throw message => l ++ [message]
                      end)
              <-> In "Please provide a valid email" l) as ->.
    { intros l. destruct (negb (truthy (get userData "phone"))).
      - rewrite in_app_iff. simpl. split; [intros [H | [H | []]] | auto];
          [exact H | discriminate H].
      - destruct (convertPhoneToNumber (get userData "phone")) as [r | m] eqn:Ec;
          [reflexivity |].
        rewrite in_app_iff. simpl. split; [| auto].
        intros [H | [H | []]]; [exact H |].
        apply convertPhoneToNumber_messages in Ec. subst m.
        destruct Ec as [Ec | [Ec | Ec]]; discriminate Ec. }
    rewrite !in_push_if. simpl.
    split; [| tauto].
    intros H. decompose [or and] H; try discriminate; try contradiction; assumption.
  - intros applicationData e errors He. unfold ApplicationModel.validateApplicationData.
    cbv zeta. rewrite He. change (toString (VStr e)) with e. rewrite <- Hrule.
    intros H.
    destruct (missing_or_blank (get applicationData "jobSeekerName")) as [c1 | m];
      [cbn [rbind] in H | discriminate H].
    destruct (truthy (get applicationData "jobSeekerPhone")) eqn:Ht;
      cbn [negb rbind] in H.
    + destruct (convertPhoneToNumber (get applicationData "jobSeekerPhone"))
        as [r | m] eqn:Er; [cbn [rbind] in H | discriminate H].
      destruct (missing_or_blank (get applicationData "jobSeekerAddress")) as [c2 | m];
        [cbn [rbind] in H | discriminate H].
      destruct (missing_or_blank (get applicationData "coverLetter")) as [c3 | m];
        [cbn [rbind] in H | discriminate H].
      destruct (missing_or_blank (get applicationData "jobTitle")) as [c4 | m];
        [cbn [rbind] in H | discriminate H].
      injection H as <-. rewrite !in_push_if. simpl. split; [| tauto].
      intros H. decompose [or and] H; try discriminate; try contradiction; assumption.
    + destruct (missing_or_blank (get applicationData "jobSeekerAddress")) as [c2 | m];
        [cbn [rbind] in H | discriminate H].
      destruct (missing_or_blank (get applicationData "coverLetter")) as [c3 | m];
        [cbn [rbind] in H | discriminate H].
      destruct (missing_or_blank (get applicationData "jobTitle")) as [c4 | m];
        [cbn [rbind] in H | discriminate H].
      injection H as <-. rewrite !in_push_if, in_app_iff, !in_push_if. simpl.
      split; [| tauto].
      intros H. decompose [or and] H; try discriminate; try contradiction; assumption.
Qed.

End ApplicationValidationProperties.

(** ** Deleting and finding by id *)

Module QueryFacts.
Import Vocabulary.
Import Chars Str Js SqlFacts StrFacts DecimalFacts ApplicationFacts.

(** A value a key column can hold: equality with it is decided. *)
Lemma has_id_unique (id id' : val) (r : obj) :
  has_id id r = true -> has_id id' r = true -> id = id'.
Proof.
  unfold has_id, Sql.eq. destruct (get r "id") as [| |b|z| |s|n src|o];
    destruct id as [| |b1|z1| |s1|n1 src1|o1]; simpl; try discriminate;
    destruct id' as [| |b2|z2| |s2|n2 src2|o2]; simpl; try discriminate.
  - intros H1 H2. destruct b, b1, b2; simpl in *; congruence.
  - intros H1 H2. destruct (Z.eqb_spec z z1), (Z.eqb_spec z z2); congruence.
  - intros H1 H2. destruct (String.eqb_spec s s1), (String.eqb_spec s s2); congruence.
Qed.

Lemma first_row_In {A} (format : obj -> A) (rows : list obj) (x : A) :
  first_row format rows = Some x -> exists r, In r rows /\ x = format r.
Proof.
  destruct rows as [|r rest]; [discriminate |]. intros [= <-].
  exists r. split; [left |]; reflexivity.
Qed.

Lemma first_row_None {A} (format : obj -> A) (rows : list obj) :
  first_row format rows = None <-> rows = [].
Proof. destruct rows; simpl; split; congruence. Qed.

Lemma filter_filter_neg {A} (p q : A -> bool) (l : list A) :
  (forall x, p x = true -> q x = true) ->
  List.filter p (List.filter (fun x => negb (q x)) l) = [].
Proof.
  intros H. induction l as [|x l IH]; [reflexivity |]. simpl.
  destruct (q x) eqn:Eq; simpl; [exact IH |].
  destruct (p x) eqn:Ep; [rewrite (H x Ep) in Eq; discriminate | exact IH].
Qed.

Lemma filter_filter_other {A} (p q : A -> bool) (l : list A) :
  (forall x, p x = true -> q x = false) ->
  List.filter p (List.filter (fun x => negb (q x)) l) = List.filter p l.
Proof.
  intros H. induction l as [|x l IH]; [reflexivity |]. simpl.
  destruct (q x) eqn:Eq; simpl.
  - destruct (p x) eqn:Ep; [rewrite (H x Ep) in Eq; discriminate | exact IH].
  - rewrite IH. reflexivity.
Qed.

(** Deleting by id, for any formatter. *)
Lemma delete_by_id {A} (format : obj -> A) (t : Sql.table) (id : val) :
  let find (t : Sql.table) (id : val) := first_row format (List.filter (has_id id) t) in
  let '(t', rows) := Sql.delete (has_id id) t in
  first_row format rows = find t id
  /\ find t' id = None
  /\ (forall id', id' <> id -> find t' id' = find t id')
  /\ (forall r, In r t' <-> In r t /\ has_id id r = false).
Proof.
  simpl. split; [reflexivity |]. split; [| split].
  - rewrite filter_filter_neg; auto.
  - intros id' Hne. rewrite filter_filter_other; [reflexivity |].
    intros r H. destruct (has_id id r) eqn:E; [| reflexivity].
    exfalso. apply Hne. apply (has_id_unique _ _ r); assumption.
  - intros r. rewrite filter_In, negb_true_iff. tauto.
Qed.

End QueryFacts.

Module QueryProperties.
Import Vocabulary.
Import Chars Str Js SqlFacts StrFacts DecimalFacts ApplicationFacts QueryFacts.

(** X11.  For jobs, users and applications alike, and an id in the
    canonical spelling of a uuid: deleting by id returns what [findById]
    returned before; afterwards [findById] finds nothing under that id
    and, under any other such id, what it found before; and the rows
    left are the rows the id did not select. *)
Theorem delete_then_find (a : string) :
  canonical_uuid a = true ->
  (forall jobs,
     let '(deleted, jobs') := JobModel.deleteById jobs (VStr a) in
     deleted = JobModel.findById jobs (VStr a)
     /\ JobModel.findById jobs' (VStr a) = None
     /\ (forall a', canonical_uuid a' = true -> a' <> a ->
           JobModel.findById jobs' (VStr a') = JobModel.findById jobs (VStr a'))
     /\ (forall r, In r jobs' <-> In r jobs /\ has_id (VStr a) r = false))
  /\ (forall users,
        let '(deleted, users') := UserModel.deleteById users (VStr a) in
        deleted = UserModel.findById users (VStr a)
        /\ UserModel.findById users' (VStr a) = None
        /\ (forall a', canonical_uuid a' = true -> a' <> a ->
              UserModel.findById users' (VStr a') = UserModel.findById users (VStr a'))
        /\ (forall r, In r users' <-> In r users /\ has_id (VStr a) r = false))
  /\ (forall applications,
        let '(deleted, applications') :=
          ApplicationModel.hardDelete applications (VStr a) in
        deleted = ApplicationModel.findById applications (VStr a)
        /\ ApplicationModel.findById applications' (VStr a) = None
        /\ (forall a', canonical_uuid a' = true -> a' <> a ->
              ApplicationModel.findById applications' (VStr a')
              = ApplicationModel.findById applications (VStr a'))
        /\ (forall r, In r applications' <->
                      In r applications /\ has_id (VStr a) r = false)).
Proof.
  intros _.
  assert (forall {A} (format : obj -> A) (t : Sql.table),
            let find (t : Sql.table) (id : val) :=
              first_row format (List.filter (has_id id) t) in
            let '(t', rows) := Sql.delete (has_id (VStr a)) t in
            first_row format rows = find t (VStr a)
            /\ find t' (VStr a) = None
            /\ (forall a', canonical_uuid a' = true -> a' <> a ->
                  find t' (VStr a') = find t (VStr a'))
            /\ (forall r, In r t' <-> In r t /\ has_id (VStr a) r = false)) as H.
  { intros A format t.
    pose proof (delete_by_id format t (VStr a)) as (H1 & H2 & H3 & H4).
    cbn zeta. split; [exact H1 |]. split; [exact H2 |]. split; [| exact H4].
    intros a' _ Hne. apply H3. congruence. }
  split; [| split].
  - intros jobs. apply (H _ JobModel.formatJob jobs).
  - intros users. apply (H _ UserModel.formatUser users).
  - intros applications. apply (H _ ApplicationModel.formatApplication applications).
Qed.

(** The theorem for the one job stored. *)
Lemma delete_then_find_witness :
  canonical_uuid job_id = true
  /\ JobModel.findById [stored_job] (VStr job_id) = Some (JobModel.formatJob stored_job)
  /\ JobModel.findById (JobModel.deleteById [stored_job] (VStr job_id)).2 (VStr job_id)
     = None.
Proof.
  split; [reflexivity |]. split; [reflexivity |].
  pose proof (delete_then_find job_id eq_refl) as [H _].
  specialize (H [stored_job]).
  destruct (JobModel.deleteById [stored_job] (VStr job_id)) as [deleted jobs'].
  cbn beta iota zeta in H. destruct H as (_ & H & _). exact H.
Defined.

End QueryProperties.

(** ** Reading an update back *)

Module ReadBackFacts.
Import Vocabulary FormatNotions.
Import Chars Str Js SqlFacts UpdateFacts UpdateByIdFacts ApplicationFacts QueryFacts.

Lemma formatJob_reads (row : obj) (k : string) :
  In k job_properties ->
  get (JobModel.formatJob row) k = get row (JobModel.convertToSnakeCase k).
Proof.
  unfold job_properties. simpl In.
  intros H. decompose [or] H; try contradiction; subst k; reflexivity.
Qed.

Lemma formatUser_reads (row : obj) (k : string) :
  In k user_properties ->
  get (UserModel.formatUser row) k = get row (UserModel.convertToSnakeCase k).
Proof.
  unfold user_properties. simpl In.
  intros H. decompose [or] H; try contradiction; subst k; reflexivity.
Qed.

Lemma formatJob_updatedAt (row : obj) :
  get (JobModel.formatJob row) "updatedAt" = get row "updated_at".
Proof. reflexivity. Qed.

Lemma formatUser_updatedAt (row : obj) :
  get (UserModel.formatUser row) "updatedAt" = get row "updated_at".
Proof. reflexivity. Qed.

Lemma formatUser_password_column (row : obj) :
  get (UserModel.formatUser row) "password" = get row "password".
Proof. reflexivity. Qed.

Lemma job_column_id (k : string) : JobModel.convertToSnakeCase k = "id" -> k = "id".
Proof.
  unfold JobModel.convertToSnakeCase. cbn [List.find fst snd].
  repeat match goal with
         | |- context [String.eqb ?a k] =>
             destruct (String.eqb a k); [discriminate |]
         end.
  auto.
Qed.

Lemma user_column_id (k : string) : UserModel.convertToSnakeCase k = "id" -> k = "id".
Proof.
  unfold UserModel.convertToSnakeCase. cbn [List.find fst snd].
  repeat match goal with
         | |- context [String.eqb ?a k] =>
             destruct (String.eqb a k); [discriminate |]
         end.
  auto.
Qed.

Lemma has_id_rewritten (now : Z) (l : list (string * val)) (id : val) (r : obj) :
  ~ In "id" (List.map fst l) -> has_id id (rewritten now l r) = has_id id r.
Proof.
  intros H. unfold has_id, get, rewritten.
  rewrite lookup_insert_ne by discriminate.
  rewrite foldl_put_notin by assumption. reflexivity.
Qed.

Lemma filter_updated (now : Z) (l : list (string * val)) (id : val) (t : Sql.table) :
  ~ In "id" (List.map fst l) ->
  List.filter (has_id id)
    (List.map (fun r => if has_id id r then rewritten now l r else r) t)
  = List.map (rewritten now l) (List.filter (has_id id) t).
Proof.
  intros H. induction t as [|r t IH]; [reflexivity |]. simpl.
  destruct (has_id id r) eqn:E; simpl.
  - rewrite has_id_rewritten, E, IH by assumption. reflexivity.
  - rewrite E. exact IH.
Qed.

Lemma first_row_map_None {A} (format : obj -> A) (g : obj -> obj) (p : obj -> bool)
    (t : list obj) :
  first_row format (List.map g (List.filter p t)) = None <->
  forall r, In r t -> p r = false.
Proof.
  rewrite first_row_None. split.
  - intros H r Hr. destruct (p r) eqn:E; [| reflexivity].
    assert (In (g r) (List.map g (List.filter p t))) as Hin
      by (apply in_map, filter_In; auto).
    rewrite H in Hin. destruct Hin.
  - intros H. induction t as [|r t IH]; [reflexivity |]. simpl.
    rewrite (H r) by (left; reflexivity). apply IH.
    intros r' Hr'. apply H. right. assumption.
Qed.

(** What the call gives back, for a statement that assigns [l]. *)
Lemma read_back {A} (format : obj -> A) (now : Z) (l : list (string * val))
    (id : val) (t : Sql.table) :
  ~ In "id" (List.map fst l) ->
  List.NoDup (List.map fst l ++ ["updated_at"]) ->
  let res := first_row format (List.map (rewritten now l) (List.filter (has_id id) t)) in
  let t' := List.map (fun r => if has_id id r then rewritten now l r else r) t in
  first_row format (List.filter (has_id id) t') = res
  /\ (res = None <-> forall r, In r t -> has_id id r = false)
  /\ (forall x, res = Some x ->
        exists r, In r t /\ has_id id r = true /\ x = format (rewritten now l r)
                  /\ row_updated now l r (rewritten now l r)).
Proof.
  intros Hid Hnd res t'. split; [| split].
  - unfold t'. rewrite filter_updated by assumption. reflexivity.
  - apply first_row_map_None.
  - intros x Hx. apply first_row_In in Hx as (r' & Hr' & ->).
    apply in_map_iff in Hr' as (r & <- & Hr). apply filter_In in Hr as [Hr Hsel].
    exists r. repeat split; auto; apply rewritten_updated; assumption.
Qed.

End ReadBackFacts.

Module ReadBackProperties.
Import Vocabulary FormatNotions.
Import Chars Str Js SqlFacts UpdateFacts UpdateByIdFacts ApplicationFacts QueryFacts
       ReadBackFacts.

Section ReadBack.

Variable bcrypt_hash : val -> result string.
Variable now : Z.
Variable id : val.
Variable updateData : list (string * val).

(** X12.  When the payload assigns no id, what a call of [updateById]
    of a job or of a user that the server accepts returns is what
    [findById] reads back under that id afterwards.  It is [null]
    exactly when no row has the id.  Otherwise the object carries the
    time of the update and, under every property name of a formatted
    object to which the payload assigns a value that its column keeps as
    given, that value; for a user's password, its digest. *)
Theorem updateById_read_back :
  (forall v, In ("id", v) updateData -> v = VUndef) ->
  (forall jobs res jobs',
     JobModel.updateById now jobs id updateData = Ok (res, jobs') ->
     JobModel.findById jobs' id = res
     /\ (res = None <-> forall r, In r jobs -> has_id id r = false)
     /\ (forall o, res = Some o ->
           get o "updatedAt" = VNum now
           /\ forall k v, In (k, v) updateData -> v <> VUndef ->
                          In k job_properties ->
                          kept_as_given
                            (type_of jobs_types (JobModel.convertToSnakeCase k)) v ->
                          get o k = v))
  /\ (forall users res users',
        UserModel.updateById bcrypt_hash now users id updateData = Ok (res, users') ->
        UserModel.findById users' id = res
        /\ (res = None <-> forall r, In r users -> has_id id r = false)
        /\ (forall o, res = Some o ->
              get o "updatedAt" = VNum now
              /\ (forall k v, In (k, v) updateData -> v <> VUndef ->
                              In k user_properties -> k <> "password" ->
                              kept_as_given
                                (type_of users_types (UserModel.convertToSnakeCase k))
                                v ->
                              get o k = v)
              /\ (forall v, In ("password", v) updateData -> v <> VUndef ->
                            exists h, bcrypt_hash v = Ok h
                                      /\ get o "password" = VStr h))).
Proof.
  intros Hkeep. split.
  - intros jobs res jobs' H. rewrite JobModel_updateById in H.
    destruct (job_assigned updateData) as [|cv l'] eqn:El; [discriminate H |].
    rewrite <- El in *.
    destruct (Sql.check_set "jobs" Sql.jobs_columns
                (List.map fst (job_assigned updateData) ++ ["updated_at"]))
      as [[] | m] eqn:Ec; [| discriminate H].
    injection H as <- <-. apply check_set_Ok in Ec as [_ Hnd].
    assert (~ In "id" (List.map fst (job_assigned updateData))) as Hid.
    { intros ([c x] & E & (k & E' & Hin & Hx)%in_job_assigned)%in_map_iff.
      simpl in E. subst c. symmetry in E'. apply job_column_id in E'. subst k.
      apply Hx, Hkeep, Hin. }
    destruct (read_back JobModel.formatJob now _ id jobs Hid Hnd) as (H1 & H2 & H3).
    split; [exact H1 |]. split; [exact H2 |].
    intros o Ho. destruct (H3 o Ho) as (r & Hr & Hsel & -> & Hset & Hat & _).
    split.
    + rewrite formatJob_updatedAt. unfold get. rewrite Hat. reflexivity.
    + intros k v Hin Hv Hk _. rewrite formatJob_reads by assumption.
      unfold get. rewrite (Hset (JobModel.convertToSnakeCase k) v); [reflexivity |].
      apply in_job_assigned. eauto.
  - intros users res users' H. rewrite UserModel_updateById in H.
    destruct (user_assigned bcrypt_hash updateData) as [l | m] eqn:Eu;
      [| discriminate H].
    destruct (user_assigned_spec bcrypt_hash updateData l Eu) as [Hall Hback].
    destruct l as [|cv l'] eqn:El; [discriminate H |].
    rewrite <- El in *.
    destruct (Sql.check_set "users" Sql.users_columns
                (List.map fst l ++ ["updated_at"]))
      as [[] | m] eqn:Ec; [| discriminate H].
    injection H as <- <-. apply check_set_Ok in Ec as [_ Hnd].
    assert (~ In "id" (List.map fst l)) as Hid.
    { intros (k & v & Hin & Hv & E)%Hback.
      symmetry in E. apply user_column_id in E. subst k.
      apply Hv, Hkeep, Hin. }
    destruct (read_back UserModel.formatUser now l id users Hid Hnd) as (H1 & H2 & H3).
    split; [exact H1 |]. split; [exact H2 |].
    intros o Ho. destruct (H3 o Ho) as (r & Hr & Hsel & -> & Hset & Hat & _).
    split; [| split].
    + rewrite formatUser_updatedAt. unfold get. rewrite Hat. reflexivity.
    + intros k v Hin Hv Hk Hpw _. rewrite formatUser_reads by assumption.
      specialize (Hall k v Hin Hv).
      destruct (String.eqb_spec k "password") as [-> | _]; [congruence |].
      unfold get. rewrite (Hset _ _ Hall). reflexivity.
    + intros v Hin Hv. specialize (Hall "password" v Hin Hv). simpl in Hall.
      destruct Hall as (h & Hh & Hl). exists h. split; [assumption |].
      rewrite formatUser_password_column. unfold get.
      pose proof (Hset _ _ Hl) as Hstored.
      change (UserModel.convertToSnakeCase "password") with "password" in Hstored.
      rewrite Hstored. reflexivity.
Qed.

End ReadBack.

Lemma updateById_read_back_witness :
  (forall v, In ("id", v) [("title", VStr "Lead")] -> v = VUndef)
  /\ kept_as_given (type_of jobs_types (JobModel.convertToSnakeCase "title"))
       (VStr "Lead")
  /\ exists res jobs',
       JobModel.updateById 7 [stored_job] (VStr job_id) [("title", VStr "Lead")]
       = Ok (res, jobs')
       /\ JobModel.findById jobs' (VStr job_id) = res
       /\ forall o, res = Some o -> get o "title" = VStr "Lead".
Proof.
  assert (forall v, In ("id", v) [("title", VStr "Lead")] -> v = VUndef) as Hkeep.
  { intros v [H | []]. discriminate H. }
  assert (kept_as_given (type_of jobs_types (JobModel.convertToSnakeCase "title"))
            (VStr "Lead")) as Hform.
  { change (4 <= 255)%nat. lia. }
  split; [exact Hkeep |]. split; [exact Hform |].
  destruct (JobModel.updateById 7 [stored_job] (VStr job_id) [("title", VStr "Lead")])
    as [[res jobs'] | m] eqn:E.
  - exists res, jobs'. split; [reflexivity |].
    destruct (proj1 (updateById_read_back (fun _ => Throw "no digest") 7 (VStr job_id)
                       [("title", VStr "Lead")] Hkeep) _ _ _ E) as (H1 & _ & H3).
    split; [exact H1 |]. intros o Ho. destruct (H3 o Ho) as [_ H].
    apply H; [left; reflexivity | discriminate | simpl; tauto | exact Hform].
  - exfalso. revert E. rewrite UpdateByIdFacts.JobModel_updateById. discriminate.
Defined.

End ReadBackProperties.

(** ** A job with its poster *)

Module JobQueryFacts.
Import Vocabulary FormatNotions QueryNotions.
Import Chars Str Js SqlFacts StrFacts DecimalFacts ApplicationFacts QueryFacts JobFacts.

Lemma in_join (on : obj -> obj -> option bool) (merge : obj -> obj -> obj)
    (right : Sql.table) (left : list obj) (row : obj) :
  In row (Sql.join on merge right left) <->
  exists a b, In a left /\ In b right /\ Sql.holds (on a b) = true /\ row = merge a b.
Proof.
  unfold Sql.join. rewrite in_concat. split.
  - intros (rows & Hrows & Hrow). apply in_map_iff in Hrows as (a & <- & Ha).
    apply in_map_iff in Hrow as (b & <- & Hb). apply filter_In in Hb as [Hb Hon].
    exists a, b. auto.
  - intros (a & b & Ha & Hb & Hon & ->).
    exists (List.map (merge a) (List.filter (fun b => Sql.holds (on a b)) right)).
    split; [apply in_map_iff; eauto |].
    apply in_map, filter_In. auto.
Qed.

Lemma get_with_poster_role (j u : obj) (k : string) :
  k <> "poster_name" -> k <> "poster_email" -> k <> "poster_role" ->
  get (JobModel.with_poster_role j u) k = get j k.
Proof.
  intros H1 H2 H3. unfold JobModel.with_poster_role, JobModel.with_poster, get.
  rewrite !lookup_insert_ne by congruence. reflexivity.
Qed.

Lemma formatJob_with_poster_role (j u : obj) :
  JobModel.formatJob (JobModel.with_poster_role j u) = JobModel.formatJob j.
Proof.
  unfold JobModel.formatJob. rewrite !get_with_poster_role by discriminate.
  reflexivity.
Qed.

Lemma poster_columns (j u : obj) :
  get (JobModel.with_poster_role j u) "poster_name" = get u "name"
  /\ get (JobModel.with_poster_role j u) "poster_email" = get u "email"
  /\ get (JobModel.with_poster_role j u) "poster_role" = get u "role".
Proof.
  unfold JobModel.with_poster_role, JobModel.with_poster, get.
  repeat split.
  - rewrite !lookup_insert_ne by discriminate. rewrite lookup_insert_eq. reflexivity.
  - rewrite lookup_insert_ne by discriminate. rewrite lookup_insert_eq. reflexivity.
  - rewrite lookup_insert_eq. reflexivity.
Qed.

Lemma formatJob_no_poster (j : obj) : JobModel.formatJob j !! "poster" = None.
Proof. reflexivity. Qed.

Lemma formatJobWithPoster_joined (j u : obj) :
  let o := JobModel.formatJobWithPoster (JobModel.with_poster_role j u) in
  delete "poster" o = JobModel.formatJob j
  /\ o !! "poster" = (if truthy (get u "name") then Some (poster_of u) else None).
Proof.
  unfold JobModel.formatJobWithPoster.
  destruct (poster_columns j u) as (-> & -> & ->).
  rewrite formatJob_with_poster_role.
  destruct (truthy (get u "name")).
  - split; [| apply lookup_insert_eq].
    rewrite delete_insert_eq. apply delete_id. apply formatJob_no_poster.
  - split; [apply delete_id |]; apply formatJob_no_poster.
Qed.

Lemma has_id_with_poster_role (id : val) (j u : obj) :
  has_id id (JobModel.with_poster_role j u) = has_id id j.
Proof. unfold has_id. rewrite get_with_poster_role by discriminate. reflexivity. Qed.

End JobQueryFacts.

Module JobQueryProperties.
Import Vocabulary FormatNotions QueryNotions.
Import Chars Str Js SqlFacts StrFacts DecimalFacts ApplicationFacts QueryFacts JobFacts
       JobQueryFacts.

(** X13.  For an id in the canonical spelling of a uuid,
    [findByIdWithPoster] returns [null] exactly when no job with
    the id has its poster among the users.  What it returns is the
    formatted job of such a pair, with the poster's name, email and role
    under [poster] when the name is truthy and without [poster]
    otherwise; when the id selects one job only, it is the result of
    [findById] with [poster] added. *)
Theorem findByIdWithPoster_joins (users jobs : Sql.table) (a : string) :
  canonical_uuid a = true ->
  (JobModel.findByIdWithPoster users jobs (VStr a) = None <->
   forall j u, In j jobs -> In u users -> has_id (VStr a) j = true -> ~ posted j u)
  /\ (forall o,
        JobModel.findByIdWithPoster users jobs (VStr a) = Some o ->
        exists j u,
          In j jobs /\ In u users /\ has_id (VStr a) j = true /\ posted j u
          /\ delete "poster" o = JobModel.formatJob j
          /\ o !! "poster" = (if truthy (get u "name") then Some (poster_of u) else None)
          /\ ((forall j', In j' jobs -> has_id (VStr a) j' = true -> j' = j) ->
              JobModel.findById jobs (VStr a) = Some (delete "poster" o))).
Proof.
  intros _. generalize (VStr a). intros id.
  unfold JobModel.findByIdWithPoster. split.
  - rewrite first_row_filter_None. split.
    + intros H j u Hj Hu Hid Hp.
      specialize (H (JobModel.with_poster_role j u)).
      rewrite has_id_with_poster_role, Hid in H. discriminate H.
      apply in_join. exists j, u. auto.
    + intros H row (j & u & Hj & Hu & Hp & ->)%in_join.
      rewrite has_id_with_poster_role.
      destruct (has_id id j) eqn:Hid; [| reflexivity].
      exfalso. apply (H j u); assumption.
  - intros o (row & Hrow & ->)%first_row_In.
    apply filter_In in Hrow as [(j & u & Hj & Hu & Hp & ->)%in_join Hid].
    rewrite has_id_with_poster_role in Hid.
    destruct (formatJobWithPoster_joined j u) as [Hdel Hposter].
    exists j, u.
    split; [exact Hj |]. split; [exact Hu |]. split; [exact Hid |].
    split; [exact Hp |]. split; [exact Hdel |]. split; [exact Hposter |].
    intros Huniq. rewrite Hdel. unfold JobModel.findById.
    destruct (List.filter (has_id id) jobs) as [|j' rest] eqn:E.
    + exfalso. assert (In j (List.filter (has_id id) jobs)) as Hin
        by (apply filter_In; auto).
      rewrite E in Hin. destruct Hin.
    + assert (In j' (List.filter (has_id id) jobs)) as Hin
        by (rewrite E; left; reflexivity).
      apply filter_In in Hin as [Hin Hid'].
      rewrite (Huniq j' Hin Hid'). reflexivity.
Qed.

(** The theorem for the one job stored and its employer. *)
Lemma findByIdWithPoster_joins_witness :
  canonical_uuid job_id = true
  /\ exists o,
       JobModel.findByIdWithPoster [stored_employer] [stored_job] (VStr job_id) = Some o
       /\ o !! "poster" = Some (poster_of stored_employer).
Proof.
  split; [reflexivity |].
  pose proof (findByIdWithPoster_joins [stored_employer] [stored_job] job_id eq_refl)
    as [_ H].
  destruct (JobModel.findByIdWithPoster [stored_employer] [stored_job] (VStr job_id))
    as [o |] eqn:E; [| discriminate E].
  exists o. split; [reflexivity |].
  destruct (H o eq_refl) as (j & u & _ & [<- | []] & _ & _ & _ & Hposter & _).
  exact Hposter.
Defined.

End JobQueryProperties.

(** ** Counting *)

Module CountFacts.
Import Vocabulary FormatNotions QueryNotions.
Import Chars Str Js SqlFacts StrFacts DecimalFacts ApplicationFacts QueryFacts JobFacts.

(** The text of a count, read back, is the count. *)
Lemma parseInt_count (rows : list obj) :
  parseInt_of (Sql.count rows) = VNum (Z.of_nat (List.length rows)).
Proof.
  unfold parseInt_of, Sql.count. cbn [toString]. unfold number_toString.
  destruct (Z.ltb_spec (Z.of_nat (List.length rows)) 0) as [Hneg | _]; [lia |].
  destruct (decimal_spec (Z.of_nat (List.length rows))) as (Hd & Hv & Hne & _); [lia |].
  rewrite parseInt_digits by assumption. rewrite Hv. reflexivity.
Qed.

Lemma count_truthy (rows : list obj) (v : val) :
  or_else (Sql.count rows) v = Sql.count rows.
Proof.
  unfold or_else, Sql.count, number_toString. cbn [truthy].
  destruct (Z.ltb_spec (Z.of_nat (List.length rows)) 0) as [Hneg | _]; [lia |].
  destruct (decimal_spec (Z.of_nat (List.length rows))) as (_ & _ & Hne & _); [lia |].
  destruct (decimal (Z.of_nat (List.length rows))); [congruence | reflexivity].
Qed.

Lemma holds_and3_true (p : option bool) :
  Sql.holds (Sql.and3 (Some true) p) = Sql.holds p.
Proof. destruct p as [[]|]; reflexivity. Qed.

Lemma countJobs_filter (jobs : Sql.table) (filters : obj) :
  JobModel.countJobs jobs filters
  = VNum (Z.of_nat (List.length
       (List.filter
          (fun r =>
             given (get filters "jobNiche")
               (column_has "job_niche" (get filters "jobNiche") r)
             && given (get filters "postedBy")
                  (column_has "posted_by" (get filters "postedBy") r))
          jobs))).
Proof.
  unfold JobModel.countJobs.
  rewrite parseInt_count. do 3 f_equal. apply filter_ext. intros r.
  unfold given, column_has, Sql.and_where_if.
  destruct (truthy (get filters "jobNiche")), (truthy (get filters "postedBy"));
    unfold Sql.where_, Sql.and_where, Sql.column_is; cbn;
    repeat match goal with
           | |- context [Sql.eq ?a ?b] => destruct (Sql.eq a b) as [[]|]
           end; reflexivity.
Qed.

End CountFacts.

Module CountProperties.
Import Vocabulary FormatNotions QueryNotions.
Import Chars Str Js SqlFacts StrFacts DecimalFacts ApplicationFacts QueryFacts JobFacts
       CountFacts.

(** X14.  [countJobs] and [countApplications] return, as a number, how
    many rows satisfy the filters that are given; a job seeker or an
    employer given to [countApplications] also leaves out the
    applications that party has deleted. *)
Theorem counts_are_exact :
  (forall jobs filters,
     let counted (r : obj) : bool :=
       given (get filters "jobNiche") (column_has "job_niche" (get filters "jobNiche") r)
       && given (get filters "postedBy")
            (column_has "posted_by" (get filters "postedBy") r) in
     JobModel.countJobs jobs filters
     = VNum (Z.of_nat (List.length (List.filter counted jobs))))
  /\ (forall applications filters,
        let counted (r : obj) : bool :=
          given (get filters "jobSeekerUserId")
            (column_has "job_seeker_user_id" (get filters "jobSeekerUserId") r
             && column_has "deleted_by_job_seeker" (VBool false) r)
          && given (get filters "employerUserId")
               (column_has "employer_user_id" (get filters "employerUserId") r
                && column_has "deleted_by_employer" (VBool false) r)
          && given (get filters "jobId")
               (column_has "job_id" (get filters "jobId") r) in
        ApplicationModel.countApplications applications filters
        = VNum (Z.of_nat (List.length (List.filter counted applications)))).
Proof.
  split.
  - intros jobs filters counted. apply countJobs_filter.
  - intros applications filters counted. unfold ApplicationModel.countApplications.
    rewrite parseInt_count. do 3 f_equal. apply filter_ext. intros r.
    unfold counted, given, column_has, Sql.and_where_if.
    destruct (truthy (get filters "jobSeekerUserId")),
             (truthy (get filters "employerUserId")),
             (truthy (get filters "jobId"));
      unfold Sql.where_, Sql.and_where, Sql.column_is, Sql.column_false; cbn;
      repeat match goal with
             | |- context [Sql.eq ?a ?b] => destruct (Sql.eq a b) as [[]|]
             end; reflexivity.
Qed.

End CountProperties.

(** ** Marking postings as sent *)

Module MarkFacts.
Import Vocabulary FormatNotions QueryNotions.
Import Chars Str Js SqlFacts StrFacts DecimalFacts ApplicationFacts QueryFacts JobFacts.

Lemma markNewsletterSent_map (now : Z) (jobs : Sql.table) (ids : list val) :
  JobModel.markNewsletterSent now jobs (Some ids)
  = List.map
      (fun r => if listed ids r
                then <["updated_at" := VNum now]> (<["newsletters_sent" := VBool true]> r)
                else r)
      jobs.
Proof.
  destruct ids as [|i ids]; [| reflexivity].
  simpl. induction jobs as [|r t IH]; [reflexivity |].
  simpl. rewrite <- IH. reflexivity.
Qed.

Lemma sent_row (now : Z) (r : obj) :
  let r' := <["updated_at" := VNum now]> (<["newsletters_sent" := VBool true]> r) in
  marked "newsletters_sent" now r r' /\ get r' "newsletters_sent" = VBool true.
Proof.
  unfold marked, get. repeat split.
  - rewrite lookup_insert_ne by discriminate. apply lookup_insert_eq.
  - apply lookup_insert_eq.
  - intros k H1 H2. rewrite !lookup_insert_ne by congruence. reflexivity.
  - rewrite lookup_insert_ne by discriminate. rewrite lookup_insert_eq. reflexivity.
Qed.

Lemma formatted_id (j u : obj) :
  get (JobModel.formatJobWithPoster (JobModel.with_poster j u)) "id" = get j "id".
Proof.
  destruct (formatJobWithPoster_fields (JobModel.with_poster j u)) as (_ & _ & H & _).
  unfold get at 1. rewrite H. apply get_with_poster; discriminate.
Qed.

End MarkFacts.

Module MarkProperties.
Import Vocabulary FormatNotions QueryNotions.
Import Chars Str Js SqlFacts StrFacts DecimalFacts ApplicationFacts QueryFacts JobFacts
       MarkFacts.

(** X15.  [markNewsletterSent] sets the sent flag and the update time on
    the rows whose id is in the list and leaves the other rows as they
    are.  Afterwards no job with a listed id is a newsletter candidate,
    and the candidates with other ids are the same as before.  Without a
    list, or with an empty one, nothing changes. *)
Theorem markNewsletterSent_hides (now now' : Z) (users jobs : Sql.table)
    (ids : list val) :
  let jobs' := JobModel.markNewsletterSent now jobs (Some ids) in
  Forall2 (fun r r' => (listed ids r = true -> marked "newsletters_sent" now r r')
                       /\ (listed ids r = false -> r' = r)) jobs jobs'
  /\ (forall o, In o (JobModel.getJobsForNewsletter now' users jobs') ->
                listed ids o = false)
  /\ (forall o, listed ids o = false ->
        (In o (JobModel.getJobsForNewsletter now' users jobs') <->
         In o (JobModel.getJobsForNewsletter now' users jobs)))
  /\ JobModel.markNewsletterSent now jobs None = jobs
  /\ JobModel.markNewsletterSent now jobs (Some []) = jobs.
Proof.
  intros jobs'. subst jobs'. rewrite markNewsletterSent_map.
  set (mark := fun r : obj =>
                 if listed ids r
                 then <["updated_at" := VNum now]> (<["newsletters_sent" := VBool true]> r)
                 else r).
  assert (forall j, due now' (mark j) -> listed ids j = false /\ mark j = j) as Hdue.
  { intros j Hd. unfold mark in *. destruct (listed ids j); [| auto].
    exfalso. destruct Hd as [Hflag _].
    rewrite (proj2 (sent_row now j)) in Hflag. discriminate Hflag. }
  assert (forall j u, listed ids (JobModel.formatJobWithPoster (JobModel.with_poster j u))
                      = listed ids j) as Hlisted.
  { intros j u. unfold listed. rewrite formatted_id. reflexivity. }
  assert (forall j u, posted (mark j) u <-> posted j u) as Hposted.
  { intros j u. unfold posted, mark, get. destruct (listed ids j); [| tauto].
    rewrite !lookup_insert_ne by discriminate. tauto. }
  split; [| split; [| split; [| split; reflexivity]]].
  - induction jobs as [|r t IH]; simpl; constructor; auto.
    unfold mark. destruct (listed ids r); split; try discriminate; auto.
    intros _. apply sent_row.
  - intros o (j' & u & Hj' & Hu & Hp & Hd & ->)%in_getJobsForNewsletter.
    apply in_map_iff in Hj' as (j & <- & Hj).
    destruct (Hdue j Hd) as [Hl E]. rewrite E, Hlisted. exact Hl.
  - intros o Ho. rewrite !in_getJobsForNewsletter. split.
    + intros (j' & u & Hj' & Hu & Hp & Hd & ->).
      apply in_map_iff in Hj' as (j & <- & Hj).
      destruct (Hdue j Hd) as [Hl E]. rewrite E in *. exists j, u. auto.
    + intros (j & u & Hj & Hu & Hp & Hd & ->). rewrite Hlisted in Ho.
      assert (mark j = j) as E by (unfold mark; rewrite Ho; reflexivity).
      exists j, u. split; [rewrite <- E; apply in_map, Hj | auto].
Qed.

End MarkProperties.

(** ** ORDER BY, LIMIT and OFFSET *)

Module PagingFacts.
Import Vocabulary FormatNotions QueryNotions PagingNotions.
Import Chars Str Js SqlFacts StrFacts DecimalFacts ApplicationFacts QueryFacts JobFacts.

Lemma before_desc_total (a b : val) :
  Sql.before_desc a b = false -> Sql.before_desc b a = true.
Proof.
  destruct a, b; simpl; try discriminate; try reflexivity.
  intros H. apply Z.leb_gt in H. apply Z.leb_le. lia.
Qed.

Lemma before_desc_trans (a b c : val) :
  Sql.before_desc a b = true -> Sql.before_desc b c = true ->
  Sql.before_desc a c = true.
Proof.
  destruct a; simpl; try reflexivity.
  destruct b; simpl; try discriminate.
  destruct c; simpl; try discriminate.
  rewrite !Z.leb_le. lia.
Qed.

Lemma insert_desc_sorted (key : string) (r : obj) (l : list obj) :
  newest_first key l -> newest_first key (Sql.insert_desc key r l).
Proof.
  unfold newest_first. induction l as [|r' l IH]; intros Hs; simpl.
  - constructor; constructor.
  - inversion Hs as [|? ? Hs' Hall]; subst.
    destruct (Sql.before_desc (get r key) (get r' key)) eqn:E.
    + constructor; [assumption |]. constructor; [assumption |].
      eapply Forall_impl; [exact Hall |].
      intros x Hx. eapply before_desc_trans; eassumption.
    + constructor; [apply IH, Hs' |].
      eapply Permutation_Forall; [symmetry; apply insert_desc_perm |].
      constructor; [apply before_desc_total, E | assumption].
Qed.

Lemma order_by_desc_sorted (key : string) (t : list obj) :
  newest_first key (Sql.order_by_desc key t).
Proof.
  unfold Sql.order_by_desc. induction t as [|r t IH]; simpl.
  - constructor.
  - apply insert_desc_sorted, IH.
Qed.

Lemma sorted_skipn {A} (R : A -> A -> Prop) (n : nat) (l : list A) :
  StronglySorted R l -> StronglySorted R (skipn n l).
Proof.
  revert l. induction n as [|n IH]; intros l H; [exact H |].
  destruct l as [|x l]; [constructor |]. simpl. apply IH.
  inversion H; assumption.
Qed.

Lemma In_firstn {A} (n : nat) (l : list A) (x : A) : In x (firstn n l) -> In x l.
Proof.
  revert l. induction n as [|n IH]; intros l; [intros [] |].
  destruct l as [|y l]; simpl; [auto |]. intros [H | H]; [auto | right; apply IH, H].
Qed.

Lemma sorted_firstn {A} (R : A -> A -> Prop) (n : nat) (l : list A) :
  StronglySorted R l -> StronglySorted R (firstn n l).
Proof.
  revert l. induction n as [|n IH]; intros l H; [constructor |].
  destruct l as [|x l]; [constructor |]. simpl.
  inversion H as [|? ? Hs Hall]; subst. constructor; [apply IH, Hs |].
  apply List.Forall_forall. intros y Hy. rewrite List.Forall_forall in Hall.
  apply Hall. eapply In_firstn; eassumption.
Qed.

Lemma sorted_map {A B} (R : A -> A -> Prop) (S : B -> B -> Prop) (f : A -> B)
    (l : list A) :
  (forall a b, R a b -> S (f a) (f b)) ->
  StronglySorted R l -> StronglySorted S (List.map f l).
Proof.
  intros H. induction 1 as [|x l Hs IH Hall]; simpl; constructor; auto.
  apply Forall_map. eapply Forall_impl; [exact Hall |]. intros y. apply H.
Qed.

Lemma In_skipn {A} (n : nat) (l : list A) (x : A) : In x (skipn n l) -> In x l.
Proof.
  revert l. induction n as [|n IH]; intros l; [auto |].
  destruct l as [|y l]; simpl; [auto |]. intros H. right. apply IH, H.
Qed.

Section Paging.

Variable bigint_in : val -> result Z.

(** What LIMIT and OFFSET leave of the ordered rows. *)
Lemma paged_Ok (limit offset : val) (rows l : list obj) :
  paged bigint_in limit offset rows = Ok l ->
  (exists n m, l = firstn n (skipn m rows)
               /\ (truthy limit = true ->
                   exists z, Sql.bigint bigint_in limit = Ok z /\ 0 <= z
                             /\ n = Z.to_nat z)
               /\ (truthy offset = true ->
                   exists z, Sql.bigint bigint_in offset = Ok z /\ 0 <= z
                             /\ m = Z.to_nat z)
               /\ (truthy limit = false -> n = List.length rows)
               /\ (truthy offset = false -> m = 0%nat)).
Proof.
  unfold paged, Sql.page, Sql.limit_if, Sql.offset_if.
  destruct (truthy limit) eqn:Tl, (truthy offset) eqn:To;
    cbn [Sql.limit Sql.offset Sql.values Sql.paramCount Sql.conditions Sql.bigint_at
         Sql.param app lookup list_lookup default rbind].
  - cbn. destruct (Sql.bigint bigint_in limit) as [zl | e]; [| discriminate].
    cbn [rbind]. destruct (Sql.bigint bigint_in offset) as [zo | e]; [| discriminate].
    cbn [rbind]. destruct (Z.ltb_spec zo 0); [discriminate |].
    destruct (Z.ltb_spec zl 0); [discriminate |]. intros [= <-].
    exists (Z.to_nat zl), (Z.to_nat zo). repeat split; eauto; discriminate.
  - cbn. destruct (Sql.bigint bigint_in limit) as [zl | e]; [| discriminate].
    cbn [rbind]. destruct (Z.ltb_spec zl 0); [discriminate |]. intros [= <-].
    exists (Z.to_nat zl), 0%nat. repeat split; eauto; discriminate.
  - cbn. destruct (Sql.bigint bigint_in offset) as [zo | e]; [| discriminate].
    cbn [rbind]. destruct (Z.ltb_spec zo 0); [discriminate |]. intros [= <-].
    exists (List.length rows), (Z.to_nat zo). repeat split; eauto; try discriminate.
    symmetry. apply firstn_all2. rewrite length_skipn. lia.
  - cbn. intros [= <-]. exists (List.length rows), 0%nat.
    repeat split; try discriminate. simpl. symmetry. apply firstn_all.
Qed.

Lemma paged_none (limit offset : val) (rows : list obj) :
  truthy limit = false -> truthy offset = false ->
  paged bigint_in limit offset rows = Ok rows.
Proof.
  intros Hl Ho. unfold paged, Sql.page, Sql.limit_if, Sql.offset_if.
  rewrite Hl, Ho. reflexivity.
Qed.

Lemma paged_facts (key : string) (limit offset : val) (rows l : list obj) :
  paged bigint_in limit offset rows = Ok l ->
  (forall r, In r l -> In r rows)
  /\ (newest_first key rows -> newest_first key l)
  /\ (forall z, truthy limit = true -> Sql.bigint bigint_in limit = Ok z ->
                Z.of_nat (List.length l) <= z)
  /\ (truthy limit = false -> truthy offset = false -> l = rows).
Proof.
  intros H. pose proof H as (n & m & -> & Hl & Ho & Hl' & Ho')%paged_Ok.
  split; [| split; [| split]].
  - intros r Hr. eapply In_skipn, In_firstn, Hr.
  - intros Hs. apply sorted_firstn, sorted_skipn, Hs.
  - intros z Ht Hz. destruct (Hl Ht) as (z' & Hz' & Hpos & ->).
    rewrite Hz in Hz'. injection Hz' as <-. rewrite length_firstn. lia.
  - intros Ht1 Ht2. rewrite paged_none in H by assumption. congruence.
Qed.

End Paging.

End PagingFacts.

(** ** The jobs of a user *)

Module FinderFacts.
Import Vocabulary FormatNotions QueryNotions PagingNotions FinderNotions.
Import Chars Str Js SqlFacts StrFacts DecimalFacts ApplicationFacts QueryFacts JobFacts
       PagingFacts.

Ltac decide_eqs :=
  repeat match goal with
         | |- context [Sql.eq ?a ?b] => destruct (Sql.eq a b) as [[]|]
         end; reflexivity.

Section Finders.

Variable bigint_in : val -> result Z.

Lemma findByUserId_eq (jobs : Sql.table) (userId : val) (filters : obj) :
  JobModel.findByUserId bigint_in jobs userId filters
  = rmap (List.map JobModel.formatJob)
      (paged bigint_in (get filters "limit") (get filters "offset")
         (Sql.order_by_desc "created_at"
            (List.filter (posted_by_filter userId filters) jobs))).
Proof.
  unfold JobModel.findByUserId, Sql.select_desc.
  match goal with
  | |- context [List.filter (Sql.where_ ?q) jobs] =>
      replace (List.filter (Sql.where_ q) jobs)
        with (List.filter (posted_by_filter userId filters) jobs)
  end.
  - unfold paged, Sql.and_where_if, Sql.limit_if, Sql.offset_if.
    destruct (truthy (get filters "jobNiche")), (truthy (get filters "limit")),
             (truthy (get filters "offset"));
      unfold Sql.page, Sql.bigint_at, Sql.and_where; cbn;
      match goal with
      | |- context [Sql.order_by_desc ?k ?l] =>
          generalize (Sql.order_by_desc k l); intros rows
      end;
      repeat match goal with
             | |- context [Sql.bigint bigint_in ?v] =>
                 destruct (Sql.bigint bigint_in v); cbn; try reflexivity
             end;
      repeat match goal with
             | |- context [?a <? ?b] => destruct (a <? b); cbn; try reflexivity
             end; reflexivity.
  - apply filter_ext. intros r.
    unfold posted_by_filter, given, column_has, Sql.and_where_if, Sql.limit_if,
      Sql.offset_if.
    destruct (truthy (get filters "jobNiche")), (truthy (get filters "limit")),
             (truthy (get filters "offset"));
      unfold Sql.where_, Sql.and_where, Sql.column_is; cbn; decide_eqs.
Qed.

End Finders.

End FinderFacts.

Module FinderProperties.
Import Vocabulary FormatNotions QueryNotions PagingNotions FinderNotions.
Import Chars Str Js Http SqlFacts StrFacts DecimalFacts ApplicationFacts QueryFacts
       JobFacts CountFacts PagingFacts FinderFacts.

Lemma formatJob_createdAt (a b : obj) :
  Sql.before_desc (get a "created_at") (get b "created_at") = true ->
  Sql.before_desc (get (JobModel.formatJob a) "createdAt")
                  (get (JobModel.formatJob b) "createdAt") = true.
Proof. intros H. exact H. Qed.

Section Finders.

Variable bigint_in : val -> result Z.

Lemma findByUserId_Ok (jobs : Sql.table) (userId : val) (filters : obj) (l : list obj) :
  JobModel.findByUserId bigint_in jobs userId filters = Ok l ->
  exists rows,
    l = List.map JobModel.formatJob rows
    /\ paged bigint_in (get filters "limit") (get filters "offset")
         (Sql.order_by_desc "created_at"
            (List.filter (posted_by_filter userId filters) jobs)) = Ok rows.
Proof.
  rewrite findByUserId_eq. unfold rmap.
  destruct (paged _ _ _ _) as [rows | m]; [| discriminate].
  intros [= <-]. eauto.
Qed.

(** X16.  Every job [findByUserId] returns is the formatted row of a job
    posted by the user (of the niche, when one is given); the list is
    ordered newest first and is not longer than LIMIT.  Without LIMIT and
    OFFSET the call succeeds and returns all these jobs, and, when no
    niche is given, as many as [countJobs] counts for the user. *)
Theorem findByUserId_lists (jobs : Sql.table) (userId : val) (filters : obj) :
  (forall l,
     JobModel.findByUserId bigint_in jobs userId filters = Ok l ->
     (forall o, In o l ->
        exists j, In j jobs /\ posted_by_filter userId filters j = true
                  /\ o = JobModel.formatJob j)
     /\ newest_first "createdAt" l
     /\ (forall z, truthy (get filters "limit") = true ->
                   Sql.bigint bigint_in (get filters "limit") = Ok z ->
                   Z.of_nat (List.length l) <= z))
  /\ (truthy (get filters "limit") = false ->
      truthy (get filters "offset") = false ->
      exists l,
        JobModel.findByUserId bigint_in jobs userId filters = Ok l
        /\ Permutation l
             (List.map JobModel.formatJob
                (List.filter (posted_by_filter userId filters) jobs))
        /\ (truthy userId = true -> truthy (get filters "jobNiche") = false ->
            JobModel.countJobs jobs {[ "postedBy" := userId ]}
            = VNum (Z.of_nat (List.length l)))).
Proof.
  split.
  - intros l (rows & -> & Hp)%findByUserId_Ok.
    destruct (paged_facts bigint_in "created_at" _ _ _ _ Hp) as (Hin & Hs & Hl & _).
    split; [| split].
    + intros o (j & <- & Hj)%in_map_iff.
      apply Hin, in_order_by_desc, filter_In in Hj as [Hj Hm]. eauto.
    + eapply sorted_map; [| apply Hs, order_by_desc_sorted].
      intros a b. apply formatJob_createdAt.
    + intros z Ht Hz. rewrite length_map. apply Hl; assumption.
  - intros Hl Ho. rewrite findByUserId_eq, paged_none by assumption.
    eexists. split; [reflexivity |]. split.
    + apply Permutation_map, order_by_desc_perm.
    + intros Hu Hn. rewrite countJobs_filter.
      rewrite length_map, (Permutation_length (order_by_desc_perm _ _)).
      do 3 f_equal. apply filter_ext. intros r.
      unfold posted_by_filter, given. rewrite Hn.
      change (get {[ "postedBy" := userId ]} "jobNiche") with VUndef.
      change (get {[ "postedBy" := userId ]} "postedBy") with userId.
      rewrite Hu. cbn [truthy]. rewrite andb_true_r. reflexivity.
Qed.

(** X17.  [getMyJobs] passes a 400 error on for a user who is not an
    employer; for an employer it answers 200 with the jobs whose
    [posted_by] is the user's id, all of them, newest first. *)
Theorem getMyJobs_lists_own_jobs (jobs : Sql.table) (user : obj) :
  (get user "role" <> VStr "Employer" ->
   JobController.getMyJobs bigint_in jobs user
   = Ok (Next "Only employers can access this resource." 400))
  /\ (get user "role" = VStr "Employer" ->
      exists l,
        JobController.getMyJobs bigint_in jobs user
        = Ok (Json (VNum 200)
                [ ("success", Value (VBool true)); ("jobs", Rows l);
                  ("message", Value (VStr "Your jobs fetched successfully.")) ])
        /\ Permutation l
             (List.map JobModel.formatJob
                (List.filter (column_has "posted_by" (get user "id")) jobs))
        /\ newest_first "createdAt" l).
Proof.
  unfold JobController.getMyJobs. split.
  - intros Hrole.
    assert (strict_equal (get user "role") (VStr "Employer") = false) as ->.
    { destruct (get user "role") as [| |b|z| |s|n src|o]; try reflexivity.
      simpl. destruct (String.eqb_spec s "Employer") as [-> | _]; [congruence | reflexivity]. }
    reflexivity.
  - intros ->. cbn [strict_equal String.eqb negb].
    rewrite findByUserId_eq.
    rewrite paged_none by reflexivity. cbn [rmap rbind].
    eexists. split; [reflexivity |]. split.
    + eapply Permutation_trans; [apply Permutation_map, order_by_desc_perm |].
      erewrite filter_ext; [reflexivity |]. intros r.
      unfold posted_by_filter, given. apply andb_true_r.
    + eapply sorted_map; [| apply order_by_desc_sorted].
      intros a b. apply formatJob_createdAt.
Qed.

End Finders.

End FinderProperties.

(** ** Listings of applications under soft deletion *)

Module ApplicationQueryFacts.
Import Vocabulary FormatNotions QueryNotions PagingNotions FinderNotions ApplicationNotions.
Import Chars Str Js SqlFacts StrFacts DecimalFacts ApplicationFacts QueryFacts JobFacts
       JobQueryFacts PagingFacts FinderFacts.

Section Finders.

Variable bigint_in : val -> result Z.

Lemma findByJobSeeker_eq (jobs users applications : Sql.table) (s : val)
    (filters : obj) :
  ApplicationModel.findByJobSeeker bigint_in jobs users applications s filters
  = rmap (List.map ApplicationModel.formatApplicationWithDetails)
      (paged bigint_in (get filters "limit") (get filters "offset")
         (Sql.order_by_desc "created_at"
            (List.filter (seeker_filter s filters)
               (seeker_rows jobs users applications)))).
Proof.
  unfold ApplicationModel.findByJobSeeker, Sql.select_desc.
  fold (seeker_rows jobs users applications).
  generalize (seeker_rows jobs users applications). intros from.
  match goal with
  | |- context [List.filter (Sql.where_ ?q) from] =>
      replace (List.filter (Sql.where_ q) from)
        with (List.filter (seeker_filter s filters) from)
  end.
  - unfold paged, Sql.and_where_if, Sql.limit_if, Sql.offset_if.
    destruct (truthy (get filters "jobId")), (truthy (get filters "limit")),
             (truthy (get filters "offset"));
      unfold Sql.page, Sql.bigint_at, Sql.and_where; cbn;
      match goal with
      | |- context [Sql.order_by_desc ?k ?l] =>
          generalize (Sql.order_by_desc k l); intros rows
      end;
      repeat match goal with
             | |- context [Sql.bigint bigint_in ?v] =>
                 destruct (Sql.bigint bigint_in v); cbn; try reflexivity
             end;
      repeat match goal with
             | |- context [?a <? ?b] => destruct (a <? b); cbn; try reflexivity
             end; reflexivity.
  - apply filter_ext. intros r.
    unfold seeker_filter, given, column_has, Sql.and_where_if, Sql.limit_if,
      Sql.offset_if.
    destruct (truthy (get filters "jobId")), (truthy (get filters "limit")),
             (truthy (get filters "offset"));
      unfold Sql.where_, Sql.and_where, Sql.column_is, Sql.column_false; cbn;
      decide_eqs.
Qed.

Lemma findByEmployer_eq (jobs users applications : Sql.table) (e : val)
    (filters : obj) :
  ApplicationModel.findByEmployer bigint_in jobs users applications e filters
  = rmap (List.map ApplicationModel.formatApplicationWithDetails)
      (paged bigint_in (get filters "limit") (get filters "offset")
         (Sql.order_by_desc "created_at"
            (List.filter (employer_filter e filters)
               (employer_rows jobs users applications)))).
Proof.
  unfold ApplicationModel.findByEmployer, Sql.select_desc.
  fold (employer_rows jobs users applications).
  generalize (employer_rows jobs users applications). intros from.
  match goal with
  | |- context [List.filter (Sql.where_ ?q) from] =>
      replace (List.filter (Sql.where_ q) from)
        with (List.filter (employer_filter e filters) from)
  end.
  - unfold paged, Sql.and_where_if, Sql.limit_if, Sql.offset_if.
    destruct (truthy (get filters "jobId")), (truthy (get filters "limit")),
             (truthy (get filters "offset"));
      unfold Sql.page, Sql.bigint_at, Sql.and_where; cbn;
      match goal with
      | |- context [Sql.order_by_desc ?k ?l] =>
          generalize (Sql.order_by_desc k l); intros rows
      end;
      repeat match goal with
             | |- context [Sql.bigint bigint_in ?v] =>
                 destruct (Sql.bigint bigint_in v); cbn; try reflexivity
             end;
      repeat match goal with
             | |- context [?a <? ?b] => destruct (a <? b); cbn; try reflexivity
             end; reflexivity.
  - apply filter_ext. intros r.
    unfold employer_filter, given, column_has, Sql.and_where_if, Sql.limit_if,
      Sql.offset_if.
    destruct (truthy (get filters "jobId")), (truthy (get filters "limit")),
             (truthy (get filters "offset"));
      unfold Sql.where_, Sql.and_where, Sql.column_is, Sql.column_false; cbn;
      decide_eqs.
Qed.

End Finders.

End ApplicationQueryFacts.

Module VisibilityFacts.
Import Vocabulary FormatNotions QueryNotions PagingNotions FinderNotions ApplicationNotions.
Import Chars Str Js SqlFacts StrFacts DecimalFacts ApplicationFacts QueryFacts JobFacts
       JobQueryFacts PagingFacts FinderFacts ApplicationQueryFacts.

Lemma soft_delete_table (flag owner_column : string) (now : Z)
    (applications : Sql.table) (id owner : val) :
  (ApplicationModel.soft_delete flag owner_column now applications id owner).2
  = List.map (soft_mark flag owner_column now id owner) applications.
Proof. reflexivity. Qed.

Lemma get_with_columns (aliases : list (string * string)) (a b : obj) (k : string) :
  ~ In k (List.map fst aliases) ->
  get (ApplicationModel.with_columns aliases a b) k = get a k.
Proof.
  unfold ApplicationModel.with_columns. revert a.
  induction aliases as [|al rest IH]; intros a Hk; [reflexivity |].
  simpl in *. rewrite IH by tauto. unfold get.
  rewrite lookup_insert_ne by (intros E; apply Hk; left; congruence). reflexivity.
Qed.

Lemma with_columns_insert (aliases : list (string * string)) (a b : obj)
    (k : string) (v : val) :
  ~ In k (List.map fst aliases) ->
  ApplicationModel.with_columns aliases (<[k := v]> a) b
  = <[k := v]> (ApplicationModel.with_columns aliases a b).
Proof.
  unfold ApplicationModel.with_columns. revert a.
  induction aliases as [|al rest IH]; intros a Hk; [reflexivity |].
  simpl in *. rewrite <- IH by tauto. f_equal.
  apply insert_insert_ne. intros E. apply Hk. left. congruence.
Qed.

(** A soft deletion keeps every column but its flag and the update time. *)
Lemma get_soft_mark (flag owner_column : string) (now : Z) (id owner : val)
    (a : obj) (k : string) :
  k <> flag -> k <> "updated_at" ->
  get (soft_mark flag owner_column now id owner a) k = get a k.
Proof.
  intros H1 H2. unfold soft_mark, get.
  destruct (ApplicationModel.owned_by owner_column id owner a); [| reflexivity].
  rewrite !lookup_insert_ne by congruence. reflexivity.
Qed.

Section Marked.

Variable flag owner_column : string.
Variable now : Z.
Variable id owner : val.

Local Abbreviation m := (soft_mark flag owner_column now id owner).

Hypothesis flag_not_listing : ~ In flag listing_columns.
Hypothesis owner_listing : In owner_column listing_columns.

Lemma listing_kept (a : obj) (k : string) :
  In k listing_columns -> get (m a) k = get a k.
Proof using All.
  intros Hk. apply get_soft_mark.
  - intros ->. contradiction.
  - intros ->. simpl in Hk. decompose [or] Hk; try discriminate; contradiction.
Qed.

Lemma merge_marked (aliases : list (string * string)) (a b : obj) :
  (forall k, In k listing_columns -> ~ In k (List.map fst aliases)) ->
  ~ In flag (List.map fst aliases) -> ~ In "updated_at" (List.map fst aliases) ->
  ApplicationModel.with_columns aliases (m a) b
  = m (ApplicationModel.with_columns aliases a b).
Proof using All.
  intros Hl Hf Hu. unfold soft_mark, ApplicationModel.owned_by.
  rewrite (get_with_columns aliases a b "id") by (apply Hl; simpl; tauto).
  rewrite (get_with_columns aliases a b owner_column) by (apply Hl, owner_listing).
  destruct (Sql.holds _); [| reflexivity].
  rewrite !with_columns_insert by assumption. reflexivity.
Qed.

Lemma join_marked (on : obj -> obj -> option bool) (aliases : list (string * string))
    (right : Sql.table) (left : list obj) :
  (forall a b, on (m a) b = on a b) ->
  (forall k, In k listing_columns -> ~ In k (List.map fst aliases)) ->
  ~ In flag (List.map fst aliases) -> ~ In "updated_at" (List.map fst aliases) ->
  Sql.join on (ApplicationModel.with_columns aliases) right (List.map m left)
  = List.map m (Sql.join on (ApplicationModel.with_columns aliases) right left).
Proof using All.
  intros Hon Hl Hf Hu. unfold Sql.join.
  induction left as [|a left IH]; [reflexivity |].
  simpl. rewrite IH, List.map_app. f_equal.
  rewrite List.map_map.
  erewrite (filter_ext (fun b => Sql.holds (on (m a) b)))
    by (intros b; rewrite Hon; reflexivity).
  apply map_ext. intros b. apply merge_marked; assumption.
Qed.

Lemma filter_marked (p : obj -> bool) (l : list obj) :
  (forall r, p (m r) = p r) ->
  List.filter p (List.map m l) = List.map m (List.filter p l).
Proof using All.
  intros H. induction l as [|r l IH]; [reflexivity |]. simpl.
  rewrite H. destruct (p r); simpl; rewrite IH; reflexivity.
Qed.

Lemma insert_desc_marked (r : obj) (l : list obj) :
  Sql.insert_desc "created_at" (m r) (List.map m l)
  = List.map m (Sql.insert_desc "created_at" r l).
Proof using All.
  induction l as [|r' l IH]; [reflexivity |]. simpl.
  rewrite !listing_kept by (simpl; tauto).
  destruct (Sql.before_desc _ _); [reflexivity |]. simpl. rewrite IH. reflexivity.
Qed.

Lemma order_marked (l : list obj) :
  Sql.order_by_desc "created_at" (List.map m l)
  = List.map m (Sql.order_by_desc "created_at" l).
Proof using All.
  unfold Sql.order_by_desc. induction l as [|r l IH]; [reflexivity |].
  simpl. rewrite IH. apply insert_desc_marked.
Qed.

End Marked.

Section Paging.

Variable bigint_in : val -> result Z.

Lemma paged_map (f : obj -> obj) (limit offset : val) (rows : list obj) :
  paged bigint_in limit offset (List.map f rows)
  = rmap (List.map f) (paged bigint_in limit offset rows).
Proof.
  unfold paged, Sql.page, Sql.limit_if, Sql.offset_if.
  destruct (truthy limit), (truthy offset);
    unfold Sql.bigint_at; cbn;
    repeat match goal with
           | |- context [Sql.bigint bigint_in ?v] =>
               destruct (Sql.bigint bigint_in v); cbn; try reflexivity
           end;
    repeat match goal with
           | |- context [?a <? ?b] => destruct (a <? b); cbn; try reflexivity
           end;
    rewrite ?skipn_map, ?firstn_map; reflexivity.
Qed.

End Paging.

Lemma formatted_application_id (row : obj) :
  get (ApplicationModel.formatApplicationWithDetails row) "id" = get row "id".
Proof.
  unfold ApplicationModel.formatApplicationWithDetails.
  destruct (truthy (get row "job_title_full")),
           (truthy (get row "job_seeker_name_full")),
           (truthy (get row "employer_name"));
    unfold get; rewrite ?lookup_insert_ne by discriminate; reflexivity.
Qed.

End VisibilityFacts.

Module VisibilityLemmas.
Import Vocabulary FormatNotions QueryNotions PagingNotions FinderNotions ApplicationNotions.
Import Chars Str Js SqlFacts StrFacts DecimalFacts ApplicationFacts QueryFacts JobFacts
       JobQueryFacts PagingFacts FinderFacts ApplicationQueryFacts VisibilityFacts.

Lemma column_has_str (column s : string) (r : obj) :
  column_has column (VStr s) r = true <-> get r column = VStr s.
Proof. apply holds_eq_str. Qed.

Lemma column_has_bool (column : string) (b : bool) (r : obj) :
  column_has column (VBool b) r = true <-> get r column = VBool b.
Proof. apply holds_eq_bool. Qed.

Lemma soft_mark_owned (flag owner_column : string) (now : Z) (a u : string) (r : obj) :
  flag <> "updated_at" ->
  get r "id" = VStr a -> get r owner_column = VStr u ->
  get (soft_mark flag owner_column now (VStr a) (VStr u) r) flag = VBool true.
Proof.
  intros Hf Hid Ho. unfold soft_mark, ApplicationModel.owned_by.
  rewrite holds_and3, Hid, Ho. simpl. rewrite !String.eqb_refl. simpl.
  unfold get. rewrite lookup_insert_ne by congruence.
  rewrite lookup_insert_eq. reflexivity.
Qed.

Lemma ids_of_marked (flag owner_column : string) (now : Z) (id owner : val)
    (rows : list obj) :
  flag <> "id" ->
  ids_of (List.map ApplicationModel.formatApplicationWithDetails
            (List.map (soft_mark flag owner_column now id owner) rows))
  = ids_of (List.map ApplicationModel.formatApplicationWithDetails rows).
Proof.
  intros Hf. unfold ids_of. rewrite !List.map_map. apply map_ext. intros r.
  rewrite !formatted_application_id. apply get_soft_mark; congruence.
Qed.

Ltac not_among :=
  let H := fresh "Hamong" in
  simpl; intros H; decompose [or] H; try discriminate; try contradiction.

Lemma seeker_rows_marked (flag owner_column : string) (now : Z) (id owner : val)
    (jobs users applications : Sql.table) :
  ~ In flag listing_columns -> In owner_column listing_columns ->
  flag = "deleted_by_job_seeker" \/ flag = "deleted_by_employer" ->
  seeker_rows jobs users
    (List.map (soft_mark flag owner_column now id owner) applications)
  = List.map (soft_mark flag owner_column now id owner)
      (seeker_rows jobs users applications).
Proof.
  intros Hf Ho Hflag. unfold seeker_rows.
  rewrite (join_marked flag owner_column now id owner Hf Ho ApplicationModel.of_job).
  - rewrite (join_marked flag owner_column now id owner Hf Ho
               ApplicationModel.of_employer); [reflexivity | | | |].
    + intros a b. unfold ApplicationModel.of_employer.
      rewrite (listing_kept flag owner_column now id owner Hf Ho) by (simpl; tauto).
      reflexivity.
    + intros k Hk. simpl in Hk. decompose [or] Hk; subst; not_among.
    + destruct Hflag as [-> | ->]; not_among.
    + not_among.
  - intros a b. unfold ApplicationModel.of_job.
    rewrite (listing_kept flag owner_column now id owner Hf Ho) by (simpl; tauto).
    reflexivity.
  - intros k Hk. simpl in Hk. decompose [or] Hk; subst; not_among.
  - destruct Hflag as [-> | ->]; not_among.
  - not_among.
Qed.

Lemma employer_rows_marked (flag owner_column : string) (now : Z) (id owner : val)
    (jobs users applications : Sql.table) :
  ~ In flag listing_columns -> In owner_column listing_columns ->
  flag = "deleted_by_job_seeker" \/ flag = "deleted_by_employer" ->
  employer_rows jobs users
    (List.map (soft_mark flag owner_column now id owner) applications)
  = List.map (soft_mark flag owner_column now id owner)
      (employer_rows jobs users applications).
Proof.
  intros Hf Ho Hflag. unfold employer_rows.
  rewrite (join_marked flag owner_column now id owner Hf Ho ApplicationModel.of_job).
  - rewrite (join_marked flag owner_column now id owner Hf Ho
               ApplicationModel.of_job_seeker); [reflexivity | | | |].
    + intros a b. unfold ApplicationModel.of_job_seeker.
      rewrite (listing_kept flag owner_column now id owner Hf Ho) by (simpl; tauto).
      reflexivity.
    + intros k Hk. simpl in Hk. decompose [or] Hk; subst; not_among.
    + destruct Hflag as [-> | ->]; not_among.
    + not_among.
  - intros a b. unfold ApplicationModel.of_job.
    rewrite (listing_kept flag owner_column now id owner Hf Ho) by (simpl; tauto).
    reflexivity.
  - intros k Hk. simpl in Hk. decompose [or] Hk; subst; not_among.
  - destruct Hflag as [-> | ->]; not_among.
  - not_among.
Qed.

Lemma seeker_flag_not_listing : ~ In "deleted_by_job_seeker" listing_columns.
Proof. not_among. Qed.

Lemma employer_flag_not_listing : ~ In "deleted_by_employer" listing_columns.
Proof. not_among. Qed.

End VisibilityLemmas.

Module VisibilityProperties.
Import Vocabulary FormatNotions QueryNotions PagingNotions FinderNotions ApplicationNotions.
Import Chars Str Js SqlFacts StrFacts DecimalFacts ApplicationFacts QueryFacts JobFacts
       JobQueryFacts PagingFacts FinderFacts ApplicationQueryFacts VisibilityFacts
       VisibilityLemmas.

Section Finders.

Variable bigint_in : val -> result Z.

(** X18.  After a job seeker has deleted an application, no listing of
    that job seeker contains its id, whatever the filters; and when the
    applications were created at times that differ from one another, the
    listing of every employer holds the same ids as before, in the same
    order.  The same holds with the two parties exchanged. *)
Theorem soft_delete_visibility (now : Z) (jobs users applications : Sql.table)
    (a u : string) :
  (let applications' :=
     (ApplicationModel.deleteByJobSeeker now applications (VStr a) (VStr u)).2 in
   (forall filters l,
      ApplicationModel.findByJobSeeker bigint_in jobs users applications' (VStr u)
        filters = Ok l ->
      ~ In (VStr a) (ids_of l))
   /\ (forall e filters,
         distinct_times applications ->
         rmap ids_of
           (ApplicationModel.findByEmployer bigint_in jobs users applications' e filters)
         = rmap ids_of
             (ApplicationModel.findByEmployer bigint_in jobs users applications e
                filters)))
  /\ (let applications' :=
        (ApplicationModel.deleteByEmployer now applications (VStr a) (VStr u)).2 in
      (forall filters l,
         ApplicationModel.findByEmployer bigint_in jobs users applications' (VStr u)
           filters = Ok l ->
         ~ In (VStr a) (ids_of l))
      /\ (forall s filters,
            distinct_times applications ->
            rmap ids_of
              (ApplicationModel.findByJobSeeker bigint_in jobs users applications' s
                 filters)
            = rmap ids_of
                (ApplicationModel.findByJobSeeker bigint_in jobs users applications s
                   filters))).
Proof.
  assert (In "job_seeker_user_id" listing_columns) as Hs by (simpl; tauto).
  assert (In "employer_user_id" listing_columns) as He by (simpl; tauto).
  pose proof seeker_flag_not_listing as Hfs.
  pose proof employer_flag_not_listing as Hfe.
  split.
  - unfold ApplicationModel.deleteByJobSeeker. rewrite soft_delete_table.
    set (m := soft_mark "deleted_by_job_seeker" "job_seeker_user_id" now (VStr a) (VStr u)).
    split.
    + intros filters l. rewrite findByJobSeeker_eq. unfold rmap.
      destruct (paged _ _ _ _) as [rows | e] eqn:Hp; [| discriminate].
      intros [= <-] Hin. unfold ids_of in Hin. rewrite List.map_map in Hin.
      apply in_map_iff in Hin as (row & Hid & Hrow).
      rewrite formatted_application_id in Hid.
      destruct (paged_facts bigint_in "created_at" _ _ _ _ Hp) as (Hsub & _).
      apply Hsub, in_order_by_desc, filter_In in Hrow as [Hrow Hsel].
      unfold m in Hrow. rewrite seeker_rows_marked in Hrow by auto.
      apply in_map_iff in Hrow as (r0 & <- & _). fold m in Hsel, Hid.
      unfold seeker_filter in Hsel.
      apply andb_prop in Hsel as [[Hmine Hflag]%andb_prop _].
      apply column_has_str in Hmine. apply column_has_bool in Hflag.
      unfold m in Hmine, Hid.
      rewrite (listing_kept _ _ _ _ _ Hfs Hs) in Hmine, Hid by (simpl; tauto).
      unfold m in Hflag. rewrite soft_mark_owned in Hflag by (auto; discriminate).
      discriminate Hflag.
    + intros e filters _. rewrite !findByEmployer_eq. unfold m.
      rewrite employer_rows_marked by auto.
      rewrite (filter_marked _ _ _ _ _ Hfs Hs), (order_marked _ _ _ _ _ Hfs Hs), paged_map.
      * destruct (paged _ _ _ _) as [rows | e']; [| reflexivity].
        simpl. f_equal. apply ids_of_marked. discriminate.
      * intros r. unfold employer_filter, given, column_has.
        rewrite !get_soft_mark by discriminate. reflexivity.
  - unfold ApplicationModel.deleteByEmployer. rewrite soft_delete_table.
    set (m := soft_mark "deleted_by_employer" "employer_user_id" now (VStr a) (VStr u)).
    split.
    + intros filters l. rewrite findByEmployer_eq. unfold rmap.
      destruct (paged _ _ _ _) as [rows | e] eqn:Hp; [| discriminate].
      intros [= <-] Hin. unfold ids_of in Hin. rewrite List.map_map in Hin.
      apply in_map_iff in Hin as (row & Hid & Hrow).
      rewrite formatted_application_id in Hid.
      destruct (paged_facts bigint_in "created_at" _ _ _ _ Hp) as (Hsub & _).
      apply Hsub, in_order_by_desc, filter_In in Hrow as [Hrow Hsel].
      unfold m in Hrow. rewrite employer_rows_marked in Hrow by auto.
      apply in_map_iff in Hrow as (r0 & <- & _). fold m in Hsel, Hid.
      unfold employer_filter in Hsel.
      apply andb_prop in Hsel as [[Hmine Hflag]%andb_prop _].
      apply column_has_str in Hmine. apply column_has_bool in Hflag.
      unfold m in Hmine, Hid.
      rewrite (listing_kept _ _ _ _ _ Hfe He) in Hmine, Hid by (simpl; tauto).
      unfold m in Hflag. rewrite soft_mark_owned in Hflag by (auto; discriminate).
      discriminate Hflag.
    + intros s filters _. rewrite !findByJobSeeker_eq. unfold m.
      rewrite seeker_rows_marked by auto.
      rewrite (filter_marked _ _ _ _ _ Hfe He), (order_marked _ _ _ _ _ Hfe He), paged_map.
      * destruct (paged _ _ _ _) as [rows | e']; [| reflexivity].
        simpl. f_equal. apply ids_of_marked. discriminate.
      * intros r. unfold seeker_filter, given, column_has.
        rewrite !get_soft_mark by discriminate. reflexivity.
Qed.

End Finders.

End VisibilityProperties.

(** ** Withdrawing an application *)

Module WithdrawalFacts.
Import Vocabulary QueryNotions ApplicationNotions.
Import Js SqlFacts ApplicationFacts QueryFacts VisibilityFacts VisibilityLemmas.

Lemma owned_by_spec (owner_column : string) (a u : string) (r : obj) :
  ApplicationModel.owned_by owner_column (VStr a) (VStr u) r = true <->
  get r "id" = VStr a /\ get r owner_column = VStr u.
Proof.
  unfold ApplicationModel.owned_by.
  rewrite holds_and3, andb_true_iff, !holds_eq_str. tauto.
Qed.

Lemma has_id_spec (a : string) (r : obj) :
  has_id (VStr a) r = true <-> get r "id" = VStr a.
Proof. apply holds_eq_str. Qed.

Lemma strict_equal_str (v : val) (u : string) :
  strict_equal v (VStr u) = true <-> v = VStr u.
Proof.
  destruct v as [| |b|z| |s|n src|o]; simpl; split; try discriminate.
  - destruct (String.eqb_spec s u) as [-> | _]; [reflexivity | discriminate].
  - intros [= ->]. apply String.eqb_refl.
Qed.

(** The outcome of a soft deletion is a row exactly when a row was
    marked. *)
Lemma soft_delete_result (flag owner_column : string) (now : Z)
    (applications : Sql.table) (a u : string) :
  let deleted :=
    ApplicationModel.soft_delete flag owner_column now applications (VStr a) (VStr u) in
  (deleted.1 = None ->
   (forall r, In r applications ->
      ~ (get r "id" = VStr a /\ get r owner_column = VStr u))
   /\ deleted.2 = applications)
  /\ ((exists r, In r applications /\ get r "id" = VStr a
                 /\ get r owner_column = VStr u) ->
      exists o, deleted.1 = Some o).
Proof.
  cbn zeta. unfold ApplicationModel.soft_delete. cbn [fst snd]. split.
  - intros Hnone. apply first_row_None in Hnone.
    apply List.map_eq_nil in Hnone.
    assert (forall r, In r applications ->
              ApplicationModel.owned_by owner_column (VStr a) (VStr u) r = false) as Hf.
    { intros r Hr.
      destruct (ApplicationModel.owned_by owner_column (VStr a) (VStr u) r) eqn:E;
        [| reflexivity].
      assert (In r []) as [].
      rewrite <- Hnone. apply filter_In. auto. }
    split.
    + intros r Hr Hmine. apply owned_by_spec in Hmine. rewrite (Hf r Hr) in Hmine.
      discriminate.
    + clear Hnone. induction applications as [|r t IH]; [reflexivity |].
      simpl. rewrite (Hf r) by (left; reflexivity). f_equal.
      apply IH. intros r' Hr'. apply Hf. right. assumption.
  - intros (r & Hr & Hid & Ho).
    destruct (List.filter _ applications) as [|r0 rest] eqn:E.
    + assert (In r []) as [].
      rewrite <- E. apply filter_In. split; [assumption |].
      apply owned_by_spec. auto.
    + simpl. eauto.
Qed.

Lemma active_soft_mark (flag owner_column : string) (now : Z) (a u s j : string)
    (r : obj) :
  flag = "deleted_by_job_seeker" \/ flag = "deleted_by_employer" ->
  (active s j r -> get r "id" = VStr a /\ get r owner_column = VStr u) ->
  ~ active s j (soft_mark flag owner_column now (VStr a) (VStr u) r).
Proof.
  intros Hflag Hmine. unfold soft_mark.
  destruct (ApplicationModel.owned_by owner_column (VStr a) (VStr u) r) eqn:E.
  - intros (_ & _ & H1 & H2).
    assert (get (<["updated_at" := VNum now]> (<[flag := VBool true]> r)) flag
            = VBool true) as Hset.
    { unfold get. rewrite lookup_insert_ne by (destruct Hflag; subst; discriminate).
      rewrite lookup_insert_eq. reflexivity. }
    destruct Hflag as [-> | ->]; congruence.
  - intros Hact. apply Hmine, owned_by_spec in Hact. congruence.
Qed.

Lemma findExisting_marked (flag owner_column : string) (now : Z)
    (applications : Sql.table) (a u s j : string) :
  flag = "deleted_by_job_seeker" \/ flag = "deleted_by_employer" ->
  (forall r, In r applications -> active s j r ->
     get r "id" = VStr a /\ get r owner_column = VStr u) ->
  ApplicationModel.findExisting
    (ApplicationModel.soft_delete flag owner_column now applications (VStr a) (VStr u)).2
    (VStr s) (VStr j) = None.
Proof.
  intros Hflag Hmine. rewrite soft_delete_table. unfold ApplicationModel.findExisting.
  apply first_row_filter_None. intros r' (r & <- & Hr)%in_map_iff.
  destruct (ApplicationModel.active_for (VStr s) (VStr j) _) eqn:E; [| reflexivity].
  apply active_for_spec in E. exfalso. revert E.
  apply active_soft_mark; auto.
Qed.

End WithdrawalFacts.

Module WithdrawalProperties.
Import Vocabulary QueryNotions ApplicationNotions.
Import Js Http SqlFacts ApplicationFacts QueryFacts VisibilityFacts WithdrawalFacts.

(** X19.  For ids in the canonical spelling of a uuid: when a soft
    deletion, by either party, covers every active application of a job
    seeker for a job, [findExisting] finds nothing for the pair
    afterwards, so the duplicate check lets the job seeker apply again.
    And a soft deletion never makes [findExisting] find an application
    where it found none. *)
Theorem soft_delete_frees_the_pair (now : Z) (applications : Sql.table)
    (a u s j : string) :
  canonical_uuid a = true -> canonical_uuid u = true ->
  canonical_uuid s = true -> canonical_uuid j = true ->
  ((forall r, In r applications -> active s j r ->
      get r "id" = VStr a /\ get r "job_seeker_user_id" = VStr u) ->
   ApplicationModel.findExisting
     (ApplicationModel.deleteByJobSeeker now applications (VStr a) (VStr u)).2
     (VStr s) (VStr j) = None)
  /\ ((forall r, In r applications -> active s j r ->
         get r "id" = VStr a /\ get r "employer_user_id" = VStr u) ->
      ApplicationModel.findExisting
        (ApplicationModel.deleteByEmployer now applications (VStr a) (VStr u)).2
        (VStr s) (VStr j) = None)
  /\ (ApplicationModel.findExisting applications (VStr s) (VStr j) = None ->
      ApplicationModel.findExisting
        (ApplicationModel.deleteByJobSeeker now applications (VStr a) (VStr u)).2
        (VStr s) (VStr j) = None
      /\ ApplicationModel.findExisting
           (ApplicationModel.deleteByEmployer now applications (VStr a) (VStr u)).2
           (VStr s) (VStr j) = None).
Proof.
  intros _ _ _ _. split; [| split].
  - apply findExisting_marked. left. reflexivity.
  - apply findExisting_marked. right. reflexivity.
  - intros Hnone. unfold ApplicationModel.findExisting in Hnone.
    rewrite first_row_filter_None in Hnone.
    assert (forall owner_column r, In r applications -> active s j r ->
              get r "id" = VStr a /\ get r owner_column = VStr u) as Hvac.
    { intros c r Hr Hact%active_for_spec. rewrite (Hnone r Hr) in Hact. discriminate. }
    split; apply findExisting_marked; auto.
Qed.

(** The theorem for the job seeker who deletes the one application sent
    and then passes the duplicate check. *)
Lemma soft_delete_frees_the_pair_witness :
  canonical_uuid application_id = true /\ canonical_uuid seeker_id = true
  /\ canonical_uuid job_id = true
  /\ ApplicationModel.findExisting [stored_application] (VStr seeker_id) (VStr job_id)
     = Some (ApplicationModel.formatApplication stored_application)
  /\ ApplicationModel.findExisting
       (ApplicationModel.deleteByJobSeeker 60 [stored_application]
          (VStr application_id) (VStr seeker_id)).2
       (VStr seeker_id) (VStr job_id) = None.
Proof.
  split; [reflexivity |]. split; [reflexivity |]. split; [reflexivity |].
  split; [reflexivity |].
  destruct (soft_delete_frees_the_pair 60 [stored_application] application_id
              seeker_id seeker_id job_id eq_refl eq_refl eq_refl eq_refl) as [H _].
  apply H. intros r [<- | []] _. split; reflexivity.
Defined.

(** X20.  [deleteApplication], for an id in the canonical spelling of a
    uuid and a user whose id is a string.  It
    passes 404 on exactly when no application has the id.  It answers 200
    only to a job seeker, or an employer, to whom an application with the
    id belongs, and the table is then the one the party's soft deletion
    leaves; after any other outcome the table is as before.  The 500
    error is never passed on.  When every application with the id belongs
    to the user in the user's role, the answer is 200. *)
Theorem deleteApplication_outcomes (now : Z) (applications : Sql.table)
    (user : obj) (a u : string) :
  canonical_uuid a = true ->
  get user "id" = VStr u ->
  let '(response, applications') :=
    ApplicationController.deleteApplication now applications user (VStr a) in
  (response = Next "Application not found." 404 <->
   forall r, In r applications -> get r "id" <> VStr a)
  /\ (response = Json (VNum 200) ApplicationController.deleted_body ->
      (get user "role" = VStr "Job Seeker"
       /\ (exists r, In r applications /\ get r "id" = VStr a
                     /\ get r "job_seeker_user_id" = VStr u)
       /\ applications'
          = (ApplicationModel.deleteByJobSeeker now applications (VStr a) (VStr u)).2)
      \/ (get user "role" = VStr "Employer"
          /\ (exists r, In r applications /\ get r "id" = VStr a
                        /\ get r "employer_user_id" = VStr u)
          /\ applications'
             = (ApplicationModel.deleteByEmployer now applications (VStr a) (VStr u)).2))
  /\ (response <> Json (VNum 200) ApplicationController.deleted_body ->
      applications' = applications)
  /\ response <> Next "Failed to delete application." 500
  /\ ((exists r, In r applications /\ get r "id" = VStr a) ->
      (get user "role" = VStr "Job Seeker" ->
       (forall r, In r applications -> get r "id" = VStr a ->
                  get r "job_seeker_user_id" = VStr u) ->
       response = Json (VNum 200) ApplicationController.deleted_body)
      /\ (get user "role" = VStr "Employer" ->
          (forall r, In r applications -> get r "id" = VStr a ->
                     get r "employer_user_id" = VStr u) ->
          response = Json (VNum 200) ApplicationController.deleted_body)).
Proof.
  intros _ Hu. unfold ApplicationController.deleteApplication.
  assert (ApplicationModel.findById applications (VStr a) = None <->
          forall r, In r applications -> get r "id" <> VStr a) as Hnone.
  { unfold ApplicationModel.findById. rewrite first_row_filter_None.
    split; intros H r Hr.
    - intros E%has_id_spec. rewrite (H r Hr) in E. discriminate.
    - destruct (has_id (VStr a) r) eqn:E; [| reflexivity].
      apply has_id_spec in E. destruct (H r Hr E). }
  destruct (ApplicationModel.findById applications (VStr a)) as [application |] eqn:Ef.
  2: { split; [split; [intros _; apply Hnone; reflexivity | reflexivity] |].
       split; [discriminate |]. split; [reflexivity |]. split; [discriminate |].
       intros (r & Hr & Hid). destruct (proj1 Hnone eq_refl r Hr Hid). }
  assert (exists r0, In r0 applications /\ get r0 "id" = VStr a
                     /\ application = ApplicationModel.formatApplication r0)
    as (r0 & Hr0 & Hid0 & ->).
  { unfold ApplicationModel.findById in Ef.
    apply first_row_In in Ef as (r0 & [Hr0 Hid]%filter_In & ->).
    apply has_id_spec in Hid. exists r0. auto. }
  assert (~ (forall r, In r applications -> get r "id" <> VStr a)) as Hsome.
  { intros H. exact (H r0 Hr0 Hid0). }
  rewrite Hu.
  change (get (ApplicationModel.formatApplication r0) "jobSeekerUserId")
    with (get r0 "job_seeker_user_id").
  change (get (ApplicationModel.formatApplication r0) "employerUserId")
    with (get r0 "employer_user_id").
  destruct (strict_equal (get user "role") (VStr "Job Seeker")) eqn:Erole.
  - apply strict_equal_str in Erole.
    destruct (strict_equal (get r0 "job_seeker_user_id") (VStr u)) eqn:Eown; cbn [negb].
    + apply strict_equal_str in Eown.
      unfold ApplicationModel.deleteByJobSeeker.
      destruct (soft_delete_result "deleted_by_job_seeker" "job_seeker_user_id" now
                  applications a u) as (_ & Hsomerow).
      destruct Hsomerow as (o & Ho); [eauto |].
      destruct (ApplicationModel.soft_delete _ _ _ _ _ _) as [deleted t'] eqn:Ed.
      cbn [fst snd] in *. subst deleted. cbn [ApplicationController.deleted_response].
      split; [split; [discriminate | intros H; destruct (Hsome H)] |].
      split; [intros _; left; eauto 10 |].
      split; [congruence |]. split; [discriminate |].
      intros _. split; reflexivity.
    + split; [split; [discriminate | intros H; destruct (Hsome H)] |].
      split; [discriminate |]. split; [reflexivity |]. split; [discriminate |].
      intros _. split.
      * intros _ Hall. rewrite (Hall r0 Hr0 Hid0) in Eown.
        simpl in Eown. rewrite String.eqb_refl in Eown. discriminate.
      * intros Hrole. rewrite Erole in Hrole. discriminate.
  - assert (get user "role" <> VStr "Job Seeker") as Hnot.
    { intros E%strict_equal_str. congruence. }
    destruct (strict_equal (get user "role") (VStr "Employer")) eqn:Erole2.
    + apply strict_equal_str in Erole2.
      destruct (strict_equal (get r0 "employer_user_id") (VStr u)) eqn:Eown; cbn [negb].
      * apply strict_equal_str in Eown.
        unfold ApplicationModel.deleteByEmployer.
        destruct (soft_delete_result "deleted_by_employer" "employer_user_id" now
                    applications a u) as (_ & Hsomerow).
        destruct Hsomerow as (o & Ho); [eauto |].
        destruct (ApplicationModel.soft_delete _ _ _ _ _ _) as [deleted t'] eqn:Ed.
        cbn [fst snd] in *. subst deleted. cbn [ApplicationController.deleted_response].
        split; [split; [discriminate | intros H; destruct (Hsome H)] |].
        split; [intros _; right; eauto 10 |].
        split; [congruence |]. split; [discriminate |].
        intros _. split; [intros Hrole; congruence | reflexivity].
      * split; [split; [discriminate | intros H; destruct (Hsome H)] |].
        split; [discriminate |]. split; [reflexivity |]. split; [discriminate |].
        intros _. split; [intros Hrole; congruence |].
        intros _ Hall. rewrite (Hall r0 Hr0 Hid0) in Eown.
        simpl in Eown. rewrite String.eqb_refl in Eown. discriminate.
    + assert (get user "role" <> VStr "Employer") as Hnot2.
      { intros E%strict_equal_str. congruence. }
      split; [split; [discriminate | intros H; destruct (Hsome H)] |].
      split; [discriminate |]. split; [reflexivity |]. split; [discriminate |].
      intros _. split; intros Hrole; congruence.
Qed.

(** The theorem for a job seeker who deletes the one application sent. *)
Lemma deleteApplication_outcomes_witness :
  canonical_uuid application_id = true
  /\ get (signed_in seeker_id "Job Seeker") "id" = VStr seeker_id
  /\ (ApplicationController.deleteApplication 60 [stored_application]
        (signed_in seeker_id "Job Seeker") (VStr application_id)).1
     = Json (VNum 200) ApplicationController.deleted_body.
Proof.
  split; [reflexivity |]. split; [reflexivity |].
  pose proof (deleteApplication_outcomes 60 [stored_application]
                (signed_in seeker_id "Job Seeker") application_id seeker_id
                eq_refl eq_refl) as H.
  destruct (ApplicationController.deleteApplication 60 [stored_application]
              (signed_in seeker_id "Job Seeker") (VStr application_id))
    as [response applications'].
  cbn beta iota zeta in H. destruct H as (_ & _ & _ & _ & H).
  assert (exists r, In r [stored_application] /\ get r "id" = VStr application_id)
    as Hsome
    by (exists stored_application; split; [left; reflexivity | reflexivity]).
  destruct (H Hsome) as [Hseeker _]. cbn [fst]. apply Hseeker.
  - reflexivity.
  - intros r [<- | []] _. reflexivity.
Defined.

End WithdrawalProperties.

(** ** Deleting a job; the statistics of database/db-utils.js *)

Module ControllerProperties.
Import Vocabulary QueryNotions ApplicationNotions AnswerNotions.
Import Js Http SqlFacts ApplicationFacts QueryFacts CountFacts VisibilityLemmas WithdrawalFacts.

(** X21.  [deleteJob], for an id in the canonical spelling of a uuid and
    a user whose id is a string.  It passes 404
    on exactly when no job has the id.  It answers 200 only when a job
    with the id was posted by the user; the jobs left are then the jobs
    with another id, in their order, and [findById] no longer finds the
    id.  After any other outcome the table is as before.  When every job
    with the id was posted by the user, the answer is 200. *)
Theorem deleteJob_outcomes (jobs : Sql.table) (user : obj) (a u : string) :
  canonical_uuid a = true ->
  get user "id" = VStr u ->
  let '(response, jobs') := JobController.deleteJob jobs user (VStr a) in
  (response = Next "Job not found." 404 <->
   forall r, In r jobs -> get r "id" <> VStr a)
  /\ (response = Json (VNum 200) job_deleted_body ->
      (exists r, In r jobs /\ get r "id" = VStr a /\ get r "posted_by" = VStr u)
      /\ jobs' = List.filter (fun r => negb (has_id (VStr a) r)) jobs
      /\ (forall r, In r jobs' <-> In r jobs /\ get r "id" <> VStr a)
      /\ JobModel.findById jobs' (VStr a) = None)
  /\ (response <> Json (VNum 200) job_deleted_body -> jobs' = jobs)
  /\ ((exists r, In r jobs /\ get r "id" = VStr a) ->
      (forall r, In r jobs -> get r "id" = VStr a -> get r "posted_by" = VStr u) ->
      response = Json (VNum 200) job_deleted_body).
Proof.
  intros _ Hu. unfold JobController.deleteJob.
  assert (forall r, has_id (VStr a) r = false <-> get r "id" <> VStr a) as Hneg.
  { intros r. rewrite <- has_id_spec. destruct (has_id (VStr a) r); split; congruence. }
  assert (JobModel.findById jobs (VStr a) = None <->
          forall r, In r jobs -> get r "id" <> VStr a) as Hnone.
  { unfold JobModel.findById. rewrite first_row_filter_None.
    split; intros H r Hr; apply Hneg, H, Hr. }
  destruct (JobModel.findById jobs (VStr a)) as [job |] eqn:Ef.
  2: { split; [split; [intros _; apply Hnone; reflexivity | reflexivity] |].
       split; [discriminate |]. split; [reflexivity |].
       intros (r & Hr & Hid). destruct (proj1 Hnone eq_refl r Hr Hid). }
  assert (exists r0, In r0 jobs /\ get r0 "id" = VStr a /\ job = JobModel.formatJob r0)
    as (r0 & Hr0 & Hid0 & ->).
  { unfold JobModel.findById in Ef.
    apply first_row_In in Ef as (r0 & [Hr0 Hid]%filter_In & ->).
    apply has_id_spec in Hid. exists r0. auto. }
  assert (~ (forall r, In r jobs -> get r "id" <> VStr a)) as Hsome.
  { intros H. exact (H r0 Hr0 Hid0). }
  rewrite Hu.
  change (get (JobModel.formatJob r0) "postedBy") with (get r0 "posted_by").
  destruct (strict_equal (get r0 "posted_by") (VStr u)) eqn:Eown; cbn [negb].
  - apply strict_equal_str in Eown.
    pose proof (delete_by_id JobModel.formatJob jobs (VStr a)) as Hdel.
    unfold JobModel.deleteById.
    destruct (Sql.delete (has_id (VStr a)) jobs) as [jobs' rows] eqn:Ed.
    cbn zeta in Hdel. destruct Hdel as (_ & Hgone & _ & Hin).
    cbn iota beta zeta.
    split; [split; [discriminate | intros H; destruct (Hsome H)] |].
    split; [| split; [intros H; destruct H; reflexivity | reflexivity]].
    intros _. split; [eauto |]. split; [| split].
    + unfold Sql.delete in Ed. congruence.
    + intros r. rewrite Hin, Hneg. reflexivity.
    + exact Hgone.
  - split; [split; [discriminate | intros H; destruct (Hsome H)] |].
    split; [discriminate |]. split; [reflexivity |].
    intros _ Hall. rewrite (Hall r0 Hr0 Hid0) in Eown.
    simpl in Eown. rewrite String.eqb_refl in Eown. discriminate.
Qed.

(** The theorem for the employer who posted the one job stored. *)
Lemma deleteJob_outcomes_witness :
  canonical_uuid job_id = true
  /\ get (signed_in employer_id "Employer") "id" = VStr employer_id
  /\ (JobController.deleteJob [stored_job] (signed_in employer_id "Employer")
        (VStr job_id)).1
     = Json (VNum 200) job_deleted_body.
Proof.
  split; [reflexivity |]. split; [reflexivity |].
  pose proof (deleteJob_outcomes [stored_job] (signed_in employer_id "Employer")
                job_id employer_id eq_refl eq_refl) as H.
  destruct (JobController.deleteJob [stored_job] (signed_in employer_id "Employer")
              (VStr job_id)) as [response jobs'].
  cbn beta iota zeta in H. destruct H as (_ & _ & _ & H).
  cbn [fst]. apply H.
  - exists stored_job. split; [left; reflexivity | reflexivity].
  - intros r [<- | []] _. reflexivity.
Defined.

Lemma count_when_eq (column label : string) (t : Sql.table) :
  parseInt_of (or_else (DbUtils.count_when column label t) (VNum 0))
  = VNum (Z.of_nat (List.length (List.filter (column_has column (VStr label)) t))).
Proof. unfold DbUtils.count_when. rewrite count_truthy. apply parseInt_count. Qed.

Lemma two_way_split {A} (p q : A -> bool) (l : list A) :
  (forall x, In x l -> p x = negb (q x)) ->
  (List.length (List.filter p l) + List.length (List.filter q l))%nat = List.length l.
Proof.
  induction l as [|x l IH]; intros H; [reflexivity |].
  simpl. rewrite (H x) by (left; reflexivity).
  specialize (IH (fun y Hy => H y (or_intror Hy))).
  destruct (q x); simpl; lia.
Qed.

Lemma filter_length_le {A} (p : A -> bool) (l : list A) :
  (List.length (List.filter p l) <= List.length l)%nat.
Proof. induction l as [|x l IH]; simpl; [lia |]. destruct (p x); simpl; lia. Qed.

Lemma two_way_le {A} (p q : A -> bool) (l : list A) :
  (forall x, p x = true -> q x = false) ->
  (List.length (List.filter p l) + List.length (List.filter q l) <= List.length l)%nat.
Proof.
  intros H. induction l as [|x l IH]; [reflexivity |].
  simpl. destruct (p x) eqn:Ep; [rewrite (H x Ep) |]; simpl; [lia |].
  destruct (q x); simpl; lia.
Qed.

(** X22.  Every statistic of [getDatabaseStats] is a number: the number
    of users, jobs and applications, of users with the role "Job Seeker"
    and "Employer", of jobs of type "Full-time" and "Part-time".  Job
    seekers and employers together are never more than the users, and are
    all of them when every user has one of the two roles. *)
Theorem getDatabaseStats_counts (users jobs applications : Sql.table) :
  let stats := DbUtils.getDatabaseStats users jobs applications in
  let number (section key : string) (rows : list obj) : Prop :=
    stat stats section key = VNum (Z.of_nat (List.length rows)) in
  let seekers := List.filter (column_has "role" (VStr "Job Seeker")) users in
  let employers := List.filter (column_has "role" (VStr "Employer")) users in
  number "users" "total" users
  /\ number "users" "jobSeekers" seekers
  /\ number "users" "employers" employers
  /\ number "jobs" "total" jobs
  /\ number "jobs" "fullTime"
       (List.filter (column_has "job_type" (VStr "Full-time")) jobs)
  /\ number "jobs" "partTime"
       (List.filter (column_has "job_type" (VStr "Part-time")) jobs)
  /\ number "applications" "total" applications
  /\ (List.length seekers + List.length employers <= List.length users)%nat
  /\ ((forall r, In r users ->
         get r "role" = VStr "Job Seeker" \/ get r "role" = VStr "Employer") ->
      (List.length seekers + List.length employers)%nat = List.length users).
Proof.
  cbn zeta. unfold DbUtils.getDatabaseStats.
  repeat match goal with
         | |- _ /\ _ => split
         end;
    try (unfold stat; first [apply parseInt_count | apply count_when_eq]).
  - apply two_way_le. intros r H. apply column_has_str in H.
    unfold column_has. rewrite H. reflexivity.
  - intros Hroles. apply two_way_split. intros r Hr. unfold column_has.
    destruct (Hroles r Hr) as [-> | ->]; reflexivity.
Qed.

End ControllerProperties.

(** ** middlewares/error.js *)

Module ErrorFacts.
Import Vocabulary AnswerNotions.
Import Js Http ErrorMiddleware.

Lemma ErrorHandler_reads (message : string) (statusCode : Z) :
  get (ErrorHandler message statusCode) "code" = VUndef
  /\ get (ErrorHandler message statusCode) "name" = VStr "Error"
  /\ get (ErrorHandler message statusCode) "message" = VStr message
  /\ get (ErrorHandler message statusCode) "statusCode" = VNum statusCode.
Proof. repeat split; reflexivity. Qed.

Lemma connection_failed_eq (err : obj) (m : string) :
  get err "message" = VStr m ->
  connection_failed err
  = Ok (existsb (is_str (get err "code")) connection_codes
        || existsb (str_includes m) connection_texts).
Proof.
  intros Hm. unfold connection_failed, message_includes. rewrite Hm.
  cbn [existsb connection_codes connection_texts rbind].
  rewrite !orb_false_r.
  destruct (is_str (get err "code") "ECONNREFUSED"), (is_str (get err "code") "ENOTFOUND"),
    (is_str (get err "code") "ETIMEDOUT"), (is_str (get err "code") "ECONNRESET");
    try reflexivity; cbn [orb];
    destruct (str_includes m "connection terminated"); try reflexivity;
    destruct (str_includes m "Connection terminated"); reflexivity.
Qed.

End ErrorFacts.

Module ErrorProperties.
Import Vocabulary AnswerNotions.
Import Js Http ErrorMiddleware ErrorFacts.

(** X23.  The answer of [errorMiddleware] to an error whose message is a
    string, or is missing.  The first of the six tests on [code] and
    [name] that the error passes decides: the answer is 400 with the
    message of that test, whatever the error's own status and message.
    When it passes none, the answer is 503 if its code is one of the four
    connection codes or its message contains one of the three connection
    texts, and otherwise its own status (500 when it has none) with its
    own message ("Internal server error." when it has none). *)
Theorem errorMiddleware_answer (err : obj) (m : string) :
  or_else (get err "message") (VStr "Internal server error.") = VStr m ->
  (errorMiddleware err).2
  = Ok match List.find (rewritten_by err) rewrites with
       | Some rule => failure (VNum 400) (VStr rule.2)
       | None =>
           if existsb (is_str (get err "code")) connection_codes
              || existsb (str_includes m) connection_texts
           then failure (VNum 503)
                  (VStr "Database connection failed. Please try again later.")
           else failure (or_else (get err "statusCode") (VNum 500)) (VStr m)
       end.
Proof.
  intros Hm. unfold errorMiddleware. cbn [snd].
  set (e0 := <["statusCode" := or_else (get err "statusCode") (VNum 500)]> err).
  assert (get e0 "message" = get err "message") as Hm0.
  { unfold e0, get. rewrite lookup_insert_ne by discriminate. reflexivity. }
  rewrite Hm0, Hm.
  set (e1 := <["message" := VStr m]> e0).
  assert (get e1 "code" = get err "code") as Hcode.
  { unfold e1, e0, get. rewrite !lookup_insert_ne by discriminate. reflexivity. }
  assert (get e1 "name" = get err "name") as Hname.
  { unfold e1, e0, get. rewrite !lookup_insert_ne by discriminate. reflexivity. }
  assert (get e1 "message" = VStr m) as Hmsg.
  { unfold e1, get. rewrite lookup_insert_eq. reflexivity. }
  assert (get e1 "statusCode" = or_else (get err "statusCode") (VNum 500)) as Hstatus.
  { unfold e1, e0, get. rewrite lookup_insert_ne by discriminate.
    rewrite lookup_insert_eq. reflexivity. }
  cbn [List.find rewrites]. unfold rewritten_by. cbn [fst snd].
  rewrite !Hcode.
  destruct (is_str (get err "code") "22P02"); cbn [replaced_if];
    [reflexivity | rewrite ?Hcode].
  destruct (is_str (get err "code") "23505"); cbn [replaced_if];
    [reflexivity | rewrite ?Hcode].
  destruct (is_str (get err "code") "23503"); cbn [replaced_if];
    [reflexivity | rewrite ?Hcode].
  destruct (is_str (get err "code") "23502"); cbn [replaced_if];
    [reflexivity | rewrite ?Hname].
  destruct (is_str (get err "name") "JsonWebTokenError"); cbn [replaced_if];
    [reflexivity | rewrite ?Hname].
  destruct (is_str (get err "name") "TokenExpiredError"); cbn [replaced_if];
    [reflexivity |].
  rewrite (connection_failed_eq e1 m Hmsg), Hcode. cbn [rbind].
  destruct (_ || _); cbn [replaced_if]; [reflexivity |].
  rewrite Hmsg, Hstatus. reflexivity.
Qed.

(** The theorem for the error a handler passes on for a missing job. *)
Lemma errorMiddleware_answer_witness :
  or_else (get (ErrorHandler "Job not found." 404) "message")
    (VStr "Internal server error.") = VStr "Job not found."
  /\ (errorMiddleware (ErrorHandler "Job not found." 404)).2
     = Ok (failure (VNum 404) (VStr "Job not found.")).
Proof.
  split; [reflexivity |].
  rewrite (errorMiddleware_answer (ErrorHandler "Job not found." 404) "Job not found."
             eq_refl).
  reflexivity.
Defined.

End ErrorProperties.

(** ** automation/newsLetterCronRaw.js: a run after a run *)

Module RepeatedRunProperties.
Import Vocabulary CronNotions.
Import Js SqlFacts JobFacts UpdateFacts UpdateByIdFacts NewsLetterCron CronFacts CronClaims.

Section Run.

Variable clock : nat -> Z.
Variable transport : nat -> mail -> result unit.

(** X24.  When the ids of the jobs are strings and the clock does not
    go back, a run of the newsletter job that follows a run sends no
    mail: the postings the first run mailed are flagged, and the postings
    it fetched without a subscriber still have none. *)
Theorem second_run_sends_nothing (w : world) :
  let w1 := (run clock transport w).2 in
  let w2 := (run clock transport w1).2 in
  (forall r, In r (jobs w) -> exists i, get r "id" = VStr i) ->
  clock (statements w) <= clock (statements w1) ->
  attempts w2 = attempts w1.
Proof.
  intros w1 w2 Hids Hclock. subst w2 w1.
  destruct (run_spec clock transport w) as (sends & lines & n & t' & E1 & _ & Hrel & Hsent).
  rewrite E1 in *. cbn [fst snd users jobs statements attempts console] in *.
  set (w1 := World (users w) t' n (attempts w ++ sends) (console w ++ lines)) in *.
  destruct (run_spec clock transport w1) as (sends2 & lines2 & n2 & t2 & E2 & Hm2 & _).
  rewrite E2. cbn [fst snd users jobs statements attempts console w1] in *.
  assert (mails_of (users w) (JobModel.getJobsForNewsletter (clock n) (users w) t') = [])
    as Hnone.
  { unfold mails_of. apply concat_nil_Forall, List.Forall_forall.
    intros ms (o & <- & Ho)%in_map_iff.
    destruct (subscribers_of (users w) o) as [|s0 rest] eqn:Es; [reflexivity |].
    exfalso.
    apply in_getJobsForNewsletter in Ho as (j & u & Hj & Hu & Hp & Hdue & ->).
    destruct (Forall2_In_r _ _ _ j Hrel Hj) as (r & Hr & _ & Hkept).
    pose proof Hdue as (Hflag & t & Ht & Hwin).
    destruct Hkept as [-> | (Hmarked & _)]; [| congruence].
    assert (In (JobModel.formatJobWithPoster (JobModel.with_poster r u))
               (JobModel.getJobsForNewsletter (clock (statements w)) (users w) (jobs w)))
      as Hfetched.
    { apply in_getJobsForNewsletter. exists r, u. repeat split; auto.
      exists t. split; [assumption | lia]. }
    assert (get r "newsletters_sent" = VBool true) as Hset.
    { apply (Hsent _ Hfetched); [rewrite Es; discriminate | assumption |].
      unfold selects.
      pose proof (formatJobWithPoster_fields (JobModel.with_poster r u)) as (_ & _ & Hid & _).
      unfold get at 2. rewrite Hid. rewrite get_with_poster by discriminate.
      destruct (Hids r Hr) as (i & ->). simpl. rewrite String.eqb_refl. reflexivity. }
    congruence. }
  rewrite Hnone in Hm2. apply List.map_eq_nil in Hm2. subst sends2.
  apply app_nil_r.
Qed.

End Run.

(** The theorem on a table with one fresh posting, its employer and one
    subscriber of its niche. *)
Lemma second_run_sends_nothing_witness :
  let clock := fun n : nat => 1000 + Z.of_nat n in
  let transport := fun (_ : nat) (_ : mail) => Ok tt in
  let w := World [employer_row; subscriber_row] [fresh_job] 0 [] [] in
  List.length (attempts (run clock transport w).2) = 1%nat
  /\ attempts (run clock transport (run clock transport w).2).2
     = attempts (run clock transport w).2.
Proof.
  cbn zeta. split; [vm_compute; reflexivity |].
  apply second_run_sends_nothing.
  - intros r [<- | []]. exists "j1". reflexivity.
  - vm_compute. discriminate.
Defined.

End RepeatedRunProperties.

(** ** What the listings of applications hold *)

Module ListingFacts.
Import Vocabulary QueryNotions PagingNotions ApplicationNotions ListingNotions.
Import Js SqlFacts ApplicationFacts QueryFacts JobQueryFacts PagingFacts
       ApplicationQueryFacts VisibilityFacts VisibilityLemmas.

Lemma formatted_application_createdAt (row : obj) :
  get (ApplicationModel.formatApplicationWithDetails row) "createdAt"
  = get row "created_at".
Proof.
  unfold ApplicationModel.formatApplicationWithDetails.
  destruct (truthy (get row "job_title_full")),
           (truthy (get row "job_seeker_name_full")),
           (truthy (get row "employer_name"));
    unfold get; rewrite ?lookup_insert_ne by discriminate; reflexivity.
Qed.

Lemma in_seeker_rows (jobs users applications : Sql.table) (row : obj) :
  In row (seeker_rows jobs users applications) <->
  exists a j e, In a applications /\ In j jobs /\ In e users
                /\ refers "job_id" a j /\ refers "employer_user_id" a e
                /\ row = seeker_row a j e.
Proof.
  unfold seeker_rows, refers, column_has. rewrite in_join. split.
  - intros (aj & e & (a & j & Ha & Hj & Hon & ->)%in_join & He & Hone & ->).
    unfold ApplicationModel.of_employer in Hone.
    rewrite get_with_columns in Hone by (simpl; intuition discriminate).
    exists a, j, e. auto 10.
  - intros (a & j & e & Ha & Hj & He & Hon & Hone & ->).
    eexists _, e. split; [apply in_join; exists a, j; eauto |].
    split; [assumption |]. split; [| reflexivity].
    unfold ApplicationModel.of_employer.
    rewrite get_with_columns by (simpl; intuition discriminate). exact Hone.
Qed.

Lemma in_employer_rows (jobs users applications : Sql.table) (row : obj) :
  In row (employer_rows jobs users applications) <->
  exists a j s, In a applications /\ In j jobs /\ In s users
                /\ refers "job_id" a j /\ refers "job_seeker_user_id" a s
                /\ row = employer_row_of a j s.
Proof.
  unfold employer_rows, refers, column_has. rewrite in_join. split.
  - intros (aj & s & (a & j & Ha & Hj & Hon & ->)%in_join & Hs & Hone & ->).
    unfold ApplicationModel.of_job_seeker in Hone.
    rewrite get_with_columns in Hone by (simpl; intuition discriminate).
    exists a, j, s. auto 10.
  - intros (a & j & s & Ha & Hj & Hs & Hon & Hone & ->).
    eexists _, s. split; [apply in_join; exists a, j; eauto |].
    split; [assumption |]. split; [| reflexivity].
    unfold ApplicationModel.of_job_seeker.
    rewrite get_with_columns by (simpl; intuition discriminate). exact Hone.
Qed.

Lemma get_seeker_row (a j e : obj) (k : string) :
  In k listing_columns \/ k = "deleted_by_job_seeker" \/ k = "deleted_by_employer" ->
  get (seeker_row a j e) k = get a k.
Proof.
  intros Hk. unfold seeker_row.
  rewrite !get_with_columns; [reflexivity | |];
    simpl in *; intuition (subst; discriminate).
Qed.

Lemma get_employer_row_of (a j s : obj) (k : string) :
  In k listing_columns \/ k = "deleted_by_job_seeker" \/ k = "deleted_by_employer" ->
  get (employer_row_of a j s) k = get a k.
Proof.
  intros Hk. unfold employer_row_of.
  rewrite !get_with_columns; [reflexivity | |];
    simpl in *; intuition (subst; discriminate).
Qed.

Lemma seeker_filter_row (u : val) (filters a j e : obj) :
  seeker_filter u filters (seeker_row a j e) = seeker_filter u filters a.
Proof.
  unfold seeker_filter, column_has.
  rewrite !get_seeker_row by (simpl; tauto). reflexivity.
Qed.

Lemma employer_filter_row (u : val) (filters a j s : obj) :
  employer_filter u filters (employer_row_of a j s) = employer_filter u filters a.
Proof.
  unfold employer_filter, column_has.
  rewrite !get_employer_row_of by (simpl; tauto). reflexivity.
Qed.

Lemma sorted_formatted (rows : list obj) :
  newest_first "created_at" rows ->
  newest_first "createdAt" (List.map ApplicationModel.formatApplicationWithDetails rows).
Proof.
  apply sorted_map. intros a b H.
  rewrite !formatted_application_createdAt. exact H.
Qed.

End ListingFacts.

Module ListingProperties.
Import Vocabulary QueryNotions PagingNotions ApplicationNotions ListingNotions.
Import Js Http SqlFacts ApplicationFacts QueryFacts JobQueryFacts PagingFacts
       ApplicationQueryFacts VisibilityFacts VisibilityLemmas WithdrawalFacts
       ListingFacts.

Section Finders.

Variable bigint_in : val -> result Z.

(** X25.  What [findByJobSeeker] returns are formatted rows, newest
    first, each made of an application of the job seeker that the job
    seeker has not deleted (and of the job given as filter, if any), of
    the job it refers to and of the employer it refers to; without LIMIT
    and OFFSET it returns exactly these.  [findByEmployer] does the same
    for the employer, with the job and the job seeker. *)
Theorem application_listings (jobs users applications : Sql.table) (u : val)
    (filters : obj) :
  (let listed (o : obj) : Prop :=
     exists a j e, In a applications /\ In j jobs /\ In e users
                   /\ refers "job_id" a j /\ refers "employer_user_id" a e
                   /\ seeker_filter u filters a = true
                   /\ o = ApplicationModel.formatApplicationWithDetails
                            (seeker_row a j e) in
   (forall l,
      ApplicationModel.findByJobSeeker bigint_in jobs users applications u filters
      = Ok l ->
      (forall o, In o l -> listed o) /\ newest_first "createdAt" l)
   /\ (truthy (get filters "limit") = false ->
       truthy (get filters "offset") = false ->
       exists l,
         ApplicationModel.findByJobSeeker bigint_in jobs users applications u filters
         = Ok l
         /\ forall o, In o l <-> listed o))
  /\ (let listed (o : obj) : Prop :=
        exists a j s, In a applications /\ In j jobs /\ In s users
                      /\ refers "job_id" a j /\ refers "job_seeker_user_id" a s
                      /\ employer_filter u filters a = true
                      /\ o = ApplicationModel.formatApplicationWithDetails
                               (employer_row_of a j s) in
      (forall l,
         ApplicationModel.findByEmployer bigint_in jobs users applications u filters
         = Ok l ->
         (forall o, In o l -> listed o) /\ newest_first "createdAt" l)
      /\ (truthy (get filters "limit") = false ->
          truthy (get filters "offset") = false ->
          exists l,
            ApplicationModel.findByEmployer bigint_in jobs users applications u filters
            = Ok l
            /\ forall o, In o l <-> listed o)).
Proof.
  assert (forall row,
            In row (List.filter (seeker_filter u filters)
                      (seeker_rows jobs users applications)) <->
            exists a j e, In a applications /\ In j jobs /\ In e users
                          /\ refers "job_id" a j /\ refers "employer_user_id" a e
                          /\ seeker_filter u filters a = true
                          /\ row = seeker_row a j e) as Hseeker.
  { intros row. rewrite filter_In, in_seeker_rows. split.
    - intros [(a & j & e & Ha & Hj & He & H1 & H2 & ->) Hf].
      rewrite seeker_filter_row in Hf. exists a, j, e. auto 10.
    - intros (a & j & e & Ha & Hj & He & H1 & H2 & Hf & ->).
      rewrite seeker_filter_row. split; [exists a, j, e; auto 10 | assumption]. }
  assert (forall row,
            In row (List.filter (employer_filter u filters)
                      (employer_rows jobs users applications)) <->
            exists a j s, In a applications /\ In j jobs /\ In s users
                          /\ refers "job_id" a j /\ refers "job_seeker_user_id" a s
                          /\ employer_filter u filters a = true
                          /\ row = employer_row_of a j s) as Hemployer.
  { intros row. rewrite filter_In, in_employer_rows. split.
    - intros [(a & j & s & Ha & Hj & Hs & H1 & H2 & ->) Hf].
      rewrite employer_filter_row in Hf. exists a, j, s. auto 10.
    - intros (a & j & s & Ha & Hj & Hs & H1 & H2 & Hf & ->).
      rewrite employer_filter_row. split; [exists a, j, s; auto 10 | assumption]. }
  split; cbn zeta.
  - split.
    + intros l. rewrite findByJobSeeker_eq. unfold rmap.
      destruct (paged _ _ _ _) as [rows | m] eqn:Hp; [| discriminate].
      intros [= <-].
      destruct (paged_facts bigint_in "created_at" _ _ _ _ Hp) as (Hin & Hs & _).
      split; [| apply sorted_formatted, Hs, order_by_desc_sorted].
      intros o (row & <- & Hrow)%in_map_iff.
      apply Hin, in_order_by_desc, Hseeker in Hrow
        as (a & j & e & Ha & Hj & He & H1 & H2 & Hf & ->).
      exists a, j, e. auto 10.
    + intros Hl Ho. rewrite findByJobSeeker_eq, paged_none by assumption.
      eexists. split; [reflexivity |]. intros o. rewrite in_map_iff. split.
      * intros (row & <- & Hrow). apply in_order_by_desc, Hseeker in Hrow
          as (a & j & e & Ha & Hj & He & H1 & H2 & Hf & ->).
        exists a, j, e. auto 10.
      * intros (a & j & e & Ha & Hj & He & H1 & H2 & Hf & ->).
        eexists. split; [reflexivity |]. apply in_order_by_desc, Hseeker.
        exists a, j, e. auto 10.
  - split.
    + intros l. rewrite findByEmployer_eq. unfold rmap.
      destruct (paged _ _ _ _) as [rows | m] eqn:Hp; [| discriminate].
      intros [= <-].
      destruct (paged_facts bigint_in "created_at" _ _ _ _ Hp) as (Hin & Hs & _).
      split; [| apply sorted_formatted, Hs, order_by_desc_sorted].
      intros o (row & <- & Hrow)%in_map_iff.
      apply Hin, in_order_by_desc, Hemployer in Hrow
        as (a & j & s & Ha & Hj & Hs' & H1 & H2 & Hf & ->).
      exists a, j, s. auto 10.
    + intros Hl Ho. rewrite findByEmployer_eq, paged_none by assumption.
      eexists. split; [reflexivity |]. intros o. rewrite in_map_iff. split.
      * intros (row & <- & Hrow). apply in_order_by_desc, Hemployer in Hrow
          as (a & j & s & Ha & Hj & Hs' & H1 & H2 & Hf & ->).
        exists a, j, s. auto 10.
      * intros (a & j & s & Ha & Hj & Hs' & H1 & H2 & Hf & ->).
        eexists. split; [reflexivity |]. apply in_order_by_desc, Hemployer.
        exists a, j, s. auto 10.
Qed.

(** X26.  [jobSeekerGetAllApplication] passes a 400 error on for a user
    who is not a job seeker, and [employerGetAllApplication] for a user
    who is not an employer.  Otherwise each answers 200 with the listing
    of the user: newest first, exactly the applications of the user in
    that role which the user has not deleted, each with its job and the
    other party. *)
Theorem application_listings_by_role (jobs users applications : Sql.table)
    (user : obj) :
  (get user "role" <> VStr "Job Seeker" ->
   ApplicationController.jobSeekerGetAllApplication bigint_in jobs users applications
     user
   = Ok (Next "Only job seekers can access this resource." 400))
  /\ (get user "role" <> VStr "Employer" ->
      ApplicationController.employerGetAllApplication bigint_in jobs users applications
        user
      = Ok (Next "Only employers can access this resource." 400))
  /\ (get user "role" = VStr "Job Seeker" ->
      exists l,
        ApplicationController.jobSeekerGetAllApplication bigint_in jobs users
          applications user
        = Ok (Json (VNum 200)
                [ ("success", Value (VBool true)); ("applications", Rows l) ])
        /\ newest_first "createdAt" l
        /\ forall o, In o l <->
             exists a j e, In a applications /\ In j jobs /\ In e users
                           /\ refers "job_id" a j /\ refers "employer_user_id" a e
                           /\ column_has "job_seeker_user_id" (get user "id") a = true
                           /\ get a "deleted_by_job_seeker" = VBool false
                           /\ o = ApplicationModel.formatApplicationWithDetails
                                    (seeker_row a j e))
  /\ (get user "role" = VStr "Employer" ->
      exists l,
        ApplicationController.employerGetAllApplication bigint_in jobs users
          applications user
        = Ok (Json (VNum 200)
                [ ("success", Value (VBool true)); ("applications", Rows l) ])
        /\ newest_first "createdAt" l
        /\ forall o, In o l <->
             exists a j s, In a applications /\ In j jobs /\ In s users
                           /\ refers "job_id" a j /\ refers "job_seeker_user_id" a s
                           /\ column_has "employer_user_id" (get user "id") a = true
                           /\ get a "deleted_by_employer" = VBool false
                           /\ o = ApplicationModel.formatApplicationWithDetails
                                    (employer_row_of a j s)).
Proof.
  assert (forall role, get user "role" <> VStr role ->
            strict_equal (get user "role") (VStr role) = false) as Hnot.
  { intros role H. destruct (strict_equal _ _) eqn:E; [| reflexivity].
    apply strict_equal_str in E. contradiction. }
  assert (forall column flag a,
            column_has column (get user "id") a
            && column_has flag (VBool false) a
            && given (get (∅ : obj) "jobId") (column_has "job_id" (get (∅ : obj) "jobId") a)
            = true <->
            column_has column (get user "id") a = true
            /\ get a flag = VBool false) as Hfilter.
  { intros column flag a. change (get (∅ : obj) "jobId") with VUndef.
    unfold given. cbn [truthy]. rewrite andb_true_r, andb_true_iff, column_has_bool.
    reflexivity. }
  unfold ApplicationController.jobSeekerGetAllApplication,
    ApplicationController.employerGetAllApplication.
  split; [intros H; rewrite (Hnot _ H); reflexivity |].
  split; [intros H; rewrite (Hnot _ H); reflexivity |].
  split.
  - intros ->. cbn [strict_equal String.eqb negb].
    rewrite findByJobSeeker_eq, paged_none by reflexivity. cbn [rmap rbind].
    eexists. split; [reflexivity |].
    split; [apply sorted_formatted, order_by_desc_sorted |].
    intros o. rewrite in_map_iff. split.
    + intros (row & <- & Hrow).
      apply in_order_by_desc, filter_In in Hrow as [Hrow Hf].
      apply in_seeker_rows in Hrow as (a & j & e & Ha & Hj & He & H1 & H2 & ->).
      rewrite seeker_filter_row in Hf. apply Hfilter in Hf as [Hf1 Hf2].
      exists a, j, e. auto 10.
    + intros (a & j & e & Ha & Hj & He & H1 & H2 & Hf1 & Hf2 & ->).
      eexists. split; [reflexivity |]. apply in_order_by_desc, filter_In. split.
      * apply in_seeker_rows. exists a, j, e. auto 10.
      * rewrite seeker_filter_row. apply Hfilter. auto.
  - intros ->. cbn [strict_equal String.eqb negb].
    rewrite findByEmployer_eq, paged_none by reflexivity. cbn [rmap rbind].
    eexists. split; [reflexivity |].
    split; [apply sorted_formatted, order_by_desc_sorted |].
    intros o. rewrite in_map_iff. split.
    + intros (row & <- & Hrow).
      apply in_order_by_desc, filter_In in Hrow as [Hrow Hf].
      apply in_employer_rows in Hrow as (a & j & s & Ha & Hj & Hs & H1 & H2 & ->).
      rewrite employer_filter_row in Hf. apply Hfilter in Hf as [Hf1 Hf2].
      exists a, j, s. auto 10.
    + intros (a & j & s & Ha & Hj & Hs & H1 & H2 & Hf1 & Hf2 & ->).
      eexists. split; [reflexivity |]. apply in_order_by_desc, filter_In. split.
      * apply in_employer_rows. exists a, j, s. auto 10.
      * rewrite employer_filter_row. apply Hfilter. auto.
Qed.

End Finders.

End ListingProperties.

(** ** The public listing of jobs *)

Module PublicListingFacts.
Import Vocabulary QueryNotions PagingNotions PublicListingNotions.
Import Js Http SqlFacts JobFacts JobQueryFacts PagingFacts FinderFacts.

Lemma column_like_with_poster (ilike : string -> string -> bool) (column : string)
    (pattern : val) (j u : obj) :
  column <> "poster_name" -> column <> "poster_email" ->
  column_like ilike column pattern (JobModel.with_poster j u)
  = column_like ilike column pattern j.
Proof.
  intros H1 H2. unfold column_like. rewrite get_with_poster by assumption. reflexivity.
Qed.

Lemma public_filter_with_poster (ilike : string -> string -> bool) (query j u : obj) :
  public_filter ilike query (JobModel.with_poster j u) = public_filter ilike query j.
Proof.
  unfold public_filter, column_has.
  rewrite !column_like_with_poster, !get_with_poster by discriminate. reflexivity.
Qed.

Lemma formatJobWithPoster_createdAt (a b : obj) :
  Sql.before_desc (get a "created_at") (get b "created_at") = true ->
  Sql.before_desc (get (JobModel.formatJobWithPoster a) "createdAt")
                  (get (JobModel.formatJobWithPoster b) "createdAt") = true.
Proof.
  intros H.
  pose proof (formatJobWithPoster_fields a) as (_ & Ha & _).
  pose proof (formatJobWithPoster_fields b) as (_ & Hb & _).
  unfold get at 1 2. rewrite Ha, Hb. exact H.
Qed.

Section Listings.

Variable bigint_in : val -> result Z.
Variable ilike : string -> string -> bool.

Lemma holds_column_ilike (column : string) (pattern : val) (n : nat)
    (params : list val) (r : obj) :
  Sql.param params n = pattern ->
  Sql.holds (JobModel.column_ilike ilike column n params r)
  = column_like ilike column pattern r.
Proof.
  intros <-. unfold JobModel.column_ilike, column_like.
  destruct (get r column); try reflexivity.
  destruct (Sql.param params n); try reflexivity.
  simpl. destruct (ilike _ _); reflexivity.
Qed.

Lemma get_insert_if (b : bool) (k k' : string) (v : val) (f : obj) :
  get (if b then <[k := v]> f else f) k'
  = if String.eqb k k' then (if b then v else get f k') else get f k'.
Proof.
  unfold get. destruct (String.eqb_spec k k') as [-> | Hne], b; try reflexivity.
  - rewrite lookup_insert_eq. reflexivity.
  - rewrite lookup_insert_ne by assumption. reflexivity.
Qed.

Lemma get_empty (k : string) : get (∅ : obj) k = VUndef.
Proof. reflexivity. Qed.

Lemma getAllJobs_eq (users jobs : Sql.table) (query : obj) :
  JobController.getAllJobs bigint_in ilike users jobs query
  = Ok (Json (VNum 200)
          [ ("success", Value (VBool true));
            ("jobs",
             Rows (List.map JobModel.formatJobWithPoster
                     (Sql.order_by_desc "created_at"
                        (List.filter (public_filter ilike query)
                           (Sql.join JobModel.posted_by_user JobModel.with_poster
                              users jobs)))));
            ("message", Value (VStr "Jobs fetched successfully.")) ]).
Proof.
  unfold JobController.getAllJobs, JobModel.findAll. cbv zeta.
  generalize (Sql.join JobModel.posted_by_user JobModel.with_poster users jobs).
  intros from.
  assert (forall p q : obj -> bool,
            (forall r, p r = q r) -> List.filter p from = List.filter q from) as Hext.
  { intros p q H. apply filter_ext. exact H. }
  rewrite !get_insert_if, !get_empty.
  cbn [String.eqb Ascii.eqb Bool.eqb].
  unfold public_filter, given.
  destruct (truthy (get query "city")) eqn:Ecity,
           (truthy (get query "niche")) eqn:Eniche,
           (truthy (get query "searchKeyword")) eqn:Esearch;
    cbn [truthy andb]; unfold Sql.and_where_if; rewrite ?Ecity, ?Eniche, ?Esearch;
    cbn [truthy]; unfold Sql.limit_if, Sql.offset_if; cbn [truthy];
    unfold Sql.select_desc, Sql.page, Sql.bigint_at, Sql.and_where;
    cbn [Sql.limit Sql.offset Sql.values Sql.conditions Sql.paramCount rbind app];
    do 4 f_equal; f_equal; f_equal; f_equal; f_equal; apply Hext; intros r;
    unfold Sql.where_;
    cbn [Sql.limit Sql.offset Sql.values Sql.conditions Sql.paramCount app List.map
         foldl];
    unfold JobModel.search_matches;
    rewrite ?holds_and3, ?holds_or3;
    rewrite ?(holds_column_ilike "location" (JobModel.contains_pattern (get query "city")))
      by reflexivity;
    rewrite ?(holds_column_ilike "title"
                (JobModel.contains_pattern (get query "searchKeyword"))) by reflexivity;
    rewrite ?(holds_column_ilike "company_name"
                (JobModel.contains_pattern (get query "searchKeyword"))) by reflexivity;
    rewrite ?(holds_column_ilike "job_niche"
                (JobModel.contains_pattern (get query "searchKeyword"))) by reflexivity;
    unfold Sql.column_is, column_has; cbn [Sql.param lookup list_lookup default Sql.holds];
    rewrite ?andb_true_r; reflexivity.
Qed.

End Listings.

End PublicListingFacts.

Module PublicListingProperties.
Import Vocabulary QueryNotions PagingNotions PublicListingNotions.
Import Js Http SqlFacts JobFacts JobQueryFacts PagingFacts FinderFacts PublicListingFacts.

Section Listings.

Variable bigint_in : val -> result Z.
Variable ilike : string -> string -> bool.

(** X27.  When each of city, niche and searchKeyword is absent from the
    query string or a string without the NUL character, [getAllJobs]
    answers 200.  Its list holds, newest first,
    exactly the jobs joined with their poster that pass the filters of
    the query string: the niche, when given, is the job's niche; the
    city, when given, is contained in the location (as ILIKE decides);
    the keyword, when given, is contained in the title, the company name
    or the niche. *)
Theorem getAllJobs_lists (users jobs : Sql.table) (query : obj) :
  query_text (get query "city") = true ->
  query_text (get query "niche") = true ->
  query_text (get query "searchKeyword") = true ->
  exists l,
    JobController.getAllJobs bigint_in ilike users jobs query
    = Ok (Json (VNum 200)
            [ ("success", Value (VBool true)); ("jobs", Rows l);
              ("message", Value (VStr "Jobs fetched successfully.")) ])
    /\ newest_first "createdAt" l
    /\ forall o, In o l <->
         exists j u, In j jobs /\ In u users /\ posted j u
                     /\ public_filter ilike query j = true
                     /\ o = JobModel.formatJobWithPoster (JobModel.with_poster j u).
Proof.
  intros _ _ _.
  rewrite getAllJobs_eq. eexists. split; [reflexivity |]. split.
  - eapply sorted_map; [| apply order_by_desc_sorted].
    intros a b. apply formatJobWithPoster_createdAt.
  - intros o. rewrite in_map_iff. split.
    + intros (row & <- & Hrow).
      apply in_order_by_desc, filter_In in Hrow as [Hrow Hf].
      apply in_join in Hrow as (j & u & Hj & Hu & Hp & ->).
      rewrite public_filter_with_poster in Hf. exists j, u. auto 10.
    + intros (j & u & Hj & Hu & Hp & Hf & ->).
      eexists. split; [reflexivity |].
      apply in_order_by_desc, filter_In. split.
      * apply in_join. exists j, u. auto.
      * rewrite public_filter_with_poster. exact Hf.
Qed.

End Listings.

(** The theorem for the query [?city=Pune] on the one job stored, with an
    ILIKE that accepts every text. *)
Lemma getAllJobs_lists_witness :
  let query : obj := {[ "city" := VStr "Pune" ]} in
  query_text (get query "city") = true
  /\ query_text (get query "niche") = true
  /\ query_text (get query "searchKeyword") = true
  /\ exists l,
       JobController.getAllJobs (fun _ => Throw "") (fun _ _ => true)
         [stored_employer] [stored_job] query
       = Ok (Json (VNum 200)
               [ ("success", Value (VBool true)); ("jobs", Rows l);
                 ("message", Value (VStr "Jobs fetched successfully.")) ])
       /\ newest_first "createdAt" l.
Proof.
  cbn zeta.
  assert (query_text (get ({[ "city" := VStr "Pune" ]} : obj) "city") = true) as Hc
    by reflexivity.
  assert (query_text (get ({[ "city" := VStr "Pune" ]} : obj) "niche") = true) as Hn
    by reflexivity.
  assert (query_text (get ({[ "city" := VStr "Pune" ]} : obj) "searchKeyword") = true)
    as Hs by reflexivity.
  split; [exact Hc |]. split; [exact Hn |]. split; [exact Hs |].
  destruct (getAllJobs_lists (fun _ => Throw "") (fun _ _ => true)
              [stored_employer] [stored_job] {[ "city" := VStr "Pune" ]} Hc Hn Hs)
    as (l & H1 & H2 & _).
  exists l. split; assumption.
Defined.

End PublicListingProperties.
